(** * A learning-management backend: courses, modules, lessons, progress

    Shallow embedding of the Django application under [core/], [lookups/]
    and [users/]: the relational tables are lists of rows, the ORM queries
    are filters and joins over them, and every fallible operation returns
    a [result].  Time is an integer clock handed to the operations that
    read [timezone.now()]. *)

From Stdlib Require Import ZArith Bool.
From Stdlib Require Import Floats.PrimFloat Floats.FloatOps Floats.SpecFloat.
From Stdlib Require Import Numbers.Cyclic.Int63.Uint63.
From Stdlib Require Import Sorting.Sorted.
From Stdlib Require Import Strings.Ascii.
From stdpp Require Import gmap strings list pretty sorting.

Set Default Proof Using "Type".
Set Warnings "-inexact-float,-register-all".

(** ** Outcomes of fallible operations *)

Inductive error : Type :=
| Http404          (* get_object / get_object_or_404 found no row *)
| IntegrityError   (* a NOT NULL, UNIQUE or FOREIGN KEY constraint failed *)
| MultipleObjectsReturned  (* QuerySet.get matched more than one row *)
| ValueError       (* an operation on an instance that was never saved *)
| DoesNotExist     (* refresh_from_db found no row for the instance *)
| AttributeError   (* the instance has no such attribute *)
| OutOfSteps       (* a bounded loop used up its steps; see slug_loop_returns *)
| Unauthorized.    (* an identity-requiring action without identity *)

Inductive result (A : Type) : Type :=
| Ok (a : A)
| Err (e : error).

Arguments Ok {A} a.
Arguments Err {A} e.

Global Instance result_ret : MRet result := @Ok.
Global Instance result_bind : MBind result := λ A B k r,
  match r with
  | Ok a => k a
  | Err e => Err e
  end.

Global Instance error_eq_dec : EqDecision error.
Proof. solve_decision. Defined.

(** ** Rows

    A model instance has [pk = None] until its first save; the rows of a
    table all carry [Some] primary key.  Foreign keys hold the referenced
    primary key. *)

Definition pk_t := nat.
Definition time := Z.
Bind Scope Z_scope with time.

Record Course : Type := mkCourse {
  c_pk : option pk_t;
  c_name : string;
  c_slug : string;
  c_description : string;
  c_is_published : bool;
  c_order : nat;
  c_created_at : time;
  c_updated_at : time
}.

Record CModule : Type := mkModule {
  m_pk : option pk_t;
  m_course_id : pk_t;
  m_name : string;
  m_slug : string;
  m_description : string;
  m_order : nat;
  m_created_at : time;
  m_updated_at : time
}.

Record Lesson : Type := mkLesson {
  l_pk : option pk_t;
  l_module_id : pk_t;
  l_name : string;
  l_slug : string;
  l_content : string;
  l_duration_seconds : nat;
  l_order : nat;
  l_created_at : time;
  l_updated_at : time
}.

Record Enrollment : Type := mkEnrollment {
  e_pk : option pk_t;
  e_course_id : pk_t;
  e_user_id : pk_t;
  e_enrolled_at : time
}.

(** [lp_user] of an instance may be [None] (the view passes [user=None]);
    the column itself is NOT NULL, which [LessonProgress_save] enforces. *)
Record LessonProgress : Type := mkLessonProgress {
  lp_pk : option pk_t;
  lp_user : option pk_t;
  lp_lesson_id : pk_t;
  lp_completed : bool;
  lp_completed_at : option time
}.

Record Tag : Type := mkTag {
  t_pk : option pk_t;
  t_name : string;
  t_slug : string;
  t_order : nat;
  t_created_at : time;
  t_updated_at : time
}.

Record Topic : Type := mkTopic {
  tp_pk : option pk_t;
  tp_name : string;
  tp_slug : string;
  tp_order : nat;
  tp_created_at : time;
  tp_updated_at : time
}.

Global Instance Course_eq_dec : EqDecision Course.
Proof. solve_decision. Defined.
Global Instance CModule_eq_dec : EqDecision CModule.
Proof. solve_decision. Defined.
Global Instance Lesson_eq_dec : EqDecision Lesson.
Proof. solve_decision. Defined.
Global Instance Enrollment_eq_dec : EqDecision Enrollment.
Proof. solve_decision. Defined.
Global Instance LessonProgress_eq_dec : EqDecision LessonProgress.
Proof. solve_decision. Defined.

(** The store: one list per table, plus the three auto-created
    many-to-many link tables of [Course] as (course id, other id) pairs. *)
Record DB : Type := mkDB {
  courses : list Course;
  modules : list CModule;
  lessons : list Lesson;
  enrollments : list Enrollment;
  progress : list LessonProgress;
  course_tags : list (pk_t * pk_t);
  course_topics : list (pk_t * pk_t);
  course_instructors : list (pk_t * pk_t)
}.

Definition empty_db : DB := mkDB [] [] [] [] [] [] [] [].

(** ** Query building blocks *)

Definition pk_is (o : option pk_t) (k : pk_t) : bool :=
  match o with
  | Some j => Nat.eqb j k
  | None => false
  end.

(** [fk == self.pk]: a foreign key column against an instance. *)
Definition fk_refers (fk : pk_t) (target : option pk_t) : bool := pk_is target fk.

(** SQL INNER JOIN ... ON: every pair of rows the condition accepts. *)
Definition inner_join {A B : Type} (on : A → B → bool)
    (xs : list A) (ys : list B) : list (A * B) :=
  flat_map (λ x, map (pair x) (List.filter (on x) ys)) xs.

(** [get_object_or_404(Model, pk=pk)] and the views' [get_object()]. *)
Definition get_object_or_404 {A : Type} (pk : A → option pk_t) (rows : list A)
    (k : pk_t) : result A :=
  match List.filter (λ r, pk_is (pk r) k) rows with
  | r :: _ => Ok r
  | [] => Err Http404
  end.

(** Lesson JOIN Module ON lesson.module_id = module.id *)
Definition lesson_module (db : DB) : list (Lesson * CModule) :=
  inner_join (λ l m, pk_is (m_pk m) (l_module_id l)) (lessons db) (modules db).

(** LessonProgress JOIN Lesson JOIN Module *)
Definition progress_lesson_module (db : DB)
    : list (LessonProgress * (Lesson * CModule)) :=
  inner_join (λ p lm, pk_is (l_pk (fst lm)) (lp_lesson_id p))
    (progress db) (lesson_module db).

(** ** core/models.py: Course.total_lessons, Course.completion_for *)

(** [Lesson.objects.filter(module__course=self).count()] *)
Definition total_lessons (db : DB) (self : Course) : nat :=
  length (List.filter (λ lm, fk_refers (m_course_id (snd lm)) (c_pk self))
            (lesson_module db)).

(** [LessonProgress.objects.filter(user=user, lesson__module__course=self,
    completed=True).count()] *)
Definition completed_count (db : DB) (self : Course) (user : pk_t) : nat :=
  length (List.filter
            (λ plm, pk_is (lp_user (fst plm)) user
                    && fk_refers (m_course_id (snd (snd plm))) (c_pk self)
                    && lp_completed (fst plm))
            (progress_lesson_module db)).

(** Python floats are IEEE binary64, as are Rocq's primitive floats. *)
Definition float_of_nat (n : nat) : float :=
  PrimFloat.of_uint63 (Uint63.of_Z (Z.of_nat n)).

Definition float_of_Z (z : Z) : float :=
  PrimFloat.of_uint63 (Uint63.of_Z z).

(** Nearest integer to [n / d] ([d > 0]), ties to even. *)
Definition round_half_even_div (n d : Z) : Z :=
  let q := (n / d)%Z in
  match (2 * (n mod d) ?= d)%Z with
  | Lt => q
  | Gt => (q + 1)%Z
  | Eq => if Z.even q then q else (q + 1)%Z
  end.

(** [round(x, 2)] on a float: the exact value [m * 2^e] of [x] is rounded
    to the nearest multiple of 1/100 (ties to even) and the decimal
    obtained is converted back to the nearest float.  Zeros, infinities,
    NaN and floats that are integers are returned as they are. *)
Definition round2 (x : float) : float :=
  match Prim2SF x with
  | S754_finite s m e =>
      if (0 <=? e)%Z then x
      else
        let h := round_half_even_div (Z.pos m * 100) (2 ^ (- e)) in
        let r := PrimFloat.div (float_of_Z h) (float_of_Z 100) in
        if s then PrimFloat.opp r else r
  | _ => x
  end.

Definition completion_for (db : DB) (self : Course) (user : pk_t) : float :=
  let total := total_lessons db self in
  if Nat.eqb total 0 then PrimFloat.zero
  else
    let completed := completed_count db self user in
    round2 (PrimFloat.mul
              (PrimFloat.div (float_of_nat completed) (float_of_nat total))
              (float_of_Z 100)).

(** *** The same two counts, in the words of the specification

    "Lessons under the course (across all modules)" and "progress rows of
    this user with completed = true whose lesson's module's course is this
    course", read row by row rather than as joins. *)

Definition lesson_under (db : DB) (c : Course) (l : Lesson) : bool :=
  existsb (λ m, pk_is (m_pk m) (l_module_id l)
                && fk_refers (m_course_id m) (c_pk c)) (modules db).

Definition lessons_under_count (db : DB) (c : Course) : nat :=
  length (List.filter (lesson_under db c) (lessons db)).

Definition progress_counts (db : DB) (c : Course) (u : pk_t)
    (p : LessonProgress) : bool :=
  pk_is (lp_user p) u && lp_completed p
  && existsb (λ l, pk_is (l_pk l) (lp_lesson_id p) && lesson_under db c l)
       (lessons db).

Definition completed_under_count (db : DB) (c : Course) (u : pk_t) : nat :=
  length (List.filter (progress_counts db c u) (progress db)).

(** PRIMARY KEY constraint of a table. *)
Definition unique_pks {A : Type} (pk : A → option pk_t) (rows : list A) : Prop :=
  NoDup (map pk rows).

(** ** Counting through joins *)

Lemma filter_length_ext {A : Type} (f g : A → bool) (xs : list A) :
  (∀ x, In x xs → f x = g x) →
  length (List.filter f xs) = length (List.filter g xs).
Proof.
  induction xs as [|x xs IH]; intros Hfg; [reflexivity|].
  cbn. rewrite (Hfg x (or_introl eq_refl)).
  destruct (g x); cbn; rewrite IH; auto using in_cons.
Qed.

Lemma filter_flat_map_length {A B : Type} (Q : B → bool) (f : A → list B) (xs : list A) :
  length (List.filter Q (flat_map f xs))
  = sum_list (map (λ x, length (List.filter Q (f x))) xs).
Proof.
  induction xs as [|x xs IH]; [reflexivity|].
  cbn. rewrite List.filter_app, length_app, IH. reflexivity.
Qed.

Lemma filter_pair_filter_length {A B : Type} (x : A) (on : B → bool) (Q : A * B → bool)
    (ys : list B) :
  length (List.filter Q (map (pair x) (List.filter on ys)))
  = length (List.filter (λ y, on y && Q (x, y)) ys).
Proof.
  induction ys as [|y ys IH]; [reflexivity|].
  cbn. destruct (on y); cbn; [|exact IH].
  destruct (Q (x, y)); cbn; rewrite IH; reflexivity.
Qed.

Lemma inner_join_count {A B : Type} (on : A → B → bool) (Q : A * B → bool)
    (xs : list A) (ys : list B) :
  length (List.filter Q (inner_join on xs ys))
  = sum_list (map (λ x, length (List.filter (λ y, on x y && Q (x, y)) ys)) xs).
Proof.
  unfold inner_join. rewrite filter_flat_map_length.
  f_equal. apply map_ext. intros x. apply filter_pair_filter_length.
Qed.

Lemma sum_indicator {A : Type} (b : A → bool) (xs : list A) :
  sum_list (map (λ x, if b x then 1 else 0) xs) = length (List.filter b xs).
Proof.
  induction xs as [|x xs IH]; [reflexivity|].
  cbn. destruct (b x); cbn; rewrite IH; reflexivity.
Qed.

Lemma sum_list_map_ext {A : Type} (f g : A → nat) (xs : list A) :
  (∀ x, In x xs → f x = g x) → sum_list (map f xs) = sum_list (map g xs).
Proof.
  induction xs as [|x xs IH]; intros Hfg; [reflexivity|].
  cbn. rewrite (Hfg x (or_introl eq_refl)), IH; auto using in_cons.
Qed.

(** Under a primary key, at most one row answers a lookup by key. *)
Lemma unique_pk_count {A : Type} (pk : A → option pk_t) (R : A → bool)
    (k : pk_t) (rows : list A) :
  unique_pks pk rows →
  length (List.filter (λ r, pk_is (pk r) k && R r) rows)
  = if existsb (λ r, pk_is (pk r) k && R r) rows then 1 else 0.
Proof.
  unfold unique_pks.
  induction rows as [|r rows IH]; intros Hnd; [reflexivity|].
  cbn in Hnd. apply NoDup_cons in Hnd as [Hnot Hnd].
  cbn. destruct (pk_is (pk r) k) eqn:Hk; cbn; [|exact (IH Hnd)].
  assert (Hrest : ∀ r', In r' rows → pk_is (pk r') k && R r' = false).
  { intros r' Hin. destruct (pk_is (pk r') k) eqn:Hk'; [|reflexivity].
    exfalso. apply Hnot.
    unfold pk_is in Hk, Hk'.
    destruct (pk r) as [j|] eqn:Ej; [|discriminate].
    destruct (pk r') as [j'|] eqn:Ej'; [|discriminate].
    apply Nat.eqb_eq in Hk, Hk'. subst j j'.
    apply list_elem_of_In, in_map_iff. exists r'. split; [exact Ej'|exact Hin]. }
  assert (Hlen : length (List.filter (λ r', pk_is (pk r') k && R r') rows) = 0).
  { rewrite (filter_length_ext _ (λ _, false)) by exact Hrest.
    clear. induction rows; cbn; auto. }
  assert (Hex : existsb (λ r', pk_is (pk r') k && R r') rows = false).
  { apply not_true_is_false. intros Hex.
    apply existsb_exists in Hex as (r' & Hin & Hr').
    rewrite (Hrest r' Hin) in Hr'. discriminate. }
  destruct (R r); cbn; rewrite ?Hlen, ?Hex; reflexivity.
Qed.

Lemma total_lessons_under (db : DB) (c : Course) :
  unique_pks m_pk (modules db) →
  total_lessons db c = lessons_under_count db c.
Proof.
  intros Hm. unfold total_lessons, lesson_module, lessons_under_count.
  rewrite inner_join_count.
  rewrite <- sum_indicator. apply sum_list_map_ext. intros l _.
  cbn. rewrite (unique_pk_count m_pk _ (l_module_id l) _ Hm). reflexivity.
Qed.

Lemma filter_none_length {A : Type} (xs : list A) :
  length (List.filter (λ _, false) xs) = 0.
Proof. induction xs; cbn; auto. Qed.

Lemma sum_list_zero {A : Type} (xs : list A) :
  sum_list (map (λ _, 0) xs) = 0.
Proof. induction xs; cbn; auto. Qed.

Lemma existsb_none {A : Type} (xs : list A) :
  existsb (λ _, false) xs = false.
Proof. induction xs; cbn; auto. Qed.

Lemma existsb_ext_in {A : Type} (f g : A → bool) (xs : list A) :
  (∀ x, In x xs → f x = g x) → existsb f xs = existsb g xs.
Proof.
  induction xs as [|x xs IH]; intros Hfg; [reflexivity|].
  cbn. rewrite (Hfg x (or_introl eq_refl)), IH; auto using in_cons.
Qed.

Lemma completed_count_under (db : DB) (c : Course) (u : pk_t) :
  unique_pks m_pk (modules db) →
  unique_pks l_pk (lessons db) →
  completed_count db c u = completed_under_count db c u.
Proof.
  intros Hm Hl.
  unfold completed_count, progress_lesson_module, completed_under_count.
  rewrite inner_join_count.
  rewrite <- sum_indicator. apply sum_list_map_ext. intros p _.
  unfold lesson_module. rewrite inner_join_count. cbn.
  unfold progress_counts.
  destruct (pk_is (lp_user p) u && lp_completed p) eqn:Huc.
  - rewrite (sum_list_map_ext _
      (λ l, if pk_is (l_pk l) (lp_lesson_id p) && lesson_under db c l
            then 1 else 0)).
    + rewrite sum_indicator. cbn. apply unique_pk_count, Hl.
    + intros l _.
      rewrite (filter_length_ext _
        (λ m, pk_is (m_pk m) (l_module_id l)
              && (pk_is (l_pk l) (lp_lesson_id p)
                  && fk_refers (m_course_id m) (c_pk c)))).
      * rewrite (unique_pk_count m_pk _ (l_module_id l) _ Hm).
        unfold lesson_under.
        destruct (pk_is (l_pk l) (lp_lesson_id p)); cbn; [reflexivity|].
        rewrite (existsb_ext_in _ (λ _, false)), existsb_none; [reflexivity|].
        intros m _. apply andb_false_r.
      * intros m _. apply andb_prop in Huc as [-> ->].
        destruct (pk_is (m_pk m) (l_module_id l)),
          (pk_is (l_pk l) (lp_lesson_id p)),
          (fk_refers (m_course_id m) (c_pk c)); reflexivity.
  - cbn. rewrite (sum_list_map_ext _ (λ _, 0)); [apply sum_list_zero|].
    intros l _. rewrite (filter_length_ext _ (λ _, false));
      [apply filter_none_length|].
    intros m _. apply andb_false_iff in Huc as [-> | ->];
      destruct (pk_is (m_pk m) (l_module_id l)),
        (pk_is (l_pk l) (lp_lesson_id p)); cbn;
      rewrite ?andb_false_r; reflexivity.
Qed.

(** A store for the examples: course 1 has modules 10 and 11 with lessons
    100, 101 (module 10) and 102 (module 11); course 2 has module 20 with
    lesson 200.  User 7 completed lessons 100, 102 and 200, and has an
    open row for 101; user 8 completed lesson 101. *)
Definition course1 : Course := mkCourse (Some 1) "Django" "django" "" true 0 5 5.
Definition course2 : Course := mkCourse (Some 2) "Flask" "flask" "" false 1 9 9.

Definition sample_db : DB := {|
  courses := [course1; course2];
  modules := [mkModule (Some 10) 1 "Intro" "intro" "" 0 0 0;
              mkModule (Some 11) 1 "Models" "models" "" 1 0 0;
              mkModule (Some 20) 2 "Intro" "intro-2" "" 0 0 0];
  lessons := [mkLesson (Some 100) 10 "Setup" "setup" "pip install" 60 0 0 0;
              mkLesson (Some 101) 10 "Views" "views" "def view" 90 1 0 0;
              mkLesson (Some 102) 11 "Fields" "fields" "CharField" 30 0 0 0;
              mkLesson (Some 200) 20 "Routes" "routes" "@app.route" 45 0 0 0];
  enrollments := [mkEnrollment (Some 1) 1 7 3; mkEnrollment (Some 2) 2 7 4];
  progress := [mkLessonProgress (Some 1) (Some 7) 100 true (Some 11%Z);
               mkLessonProgress (Some 2) (Some 7) 101 false None;
               mkLessonProgress (Some 3) (Some 7) 102 true (Some 12%Z);
               mkLessonProgress (Some 4) (Some 7) 200 true (Some 13%Z);
               mkLessonProgress (Some 5) (Some 8) 101 true (Some 14%Z)];
  course_tags := [(1, 1); (2, 1)];
  course_topics := [(1, 3)];
  course_instructors := [(1, 9)]
|}.

Example sample_total : total_lessons sample_db course1 = 3.
Proof. reflexivity. Qed.

Example sample_completed : completed_count sample_db course1 7 = 2.
Proof. reflexivity. Qed.

Example sample_completion_other_user :
  completion_for sample_db course1 8 = 33.33%float.
Proof. vm_compute. reflexivity. Qed.

Example sample_completion_all :
  completion_for sample_db course2 7 = 100%float.
Proof. vm_compute. reflexivity. Qed.

(** A tie at the third decimal goes to the even neighbour, as Python's
    [round] does: 1 lesson of 32 is 3.125 percent, reported as 3.12. *)
Example round2_tie :
  round2 (PrimFloat.mul (PrimFloat.div (float_of_nat 1) (float_of_nat 32))
            (float_of_Z 100)) = 3.12%float.
Proof. vm_compute. reflexivity. Qed.

(** C1.  With primary keys unique in the module and lesson tables,
    [completion_for] is exactly 0.0 when the course has no lesson under any
    of its modules; otherwise it is [round(completed / total * 100, 2)]
    where [total] counts the lessons under the course and [completed] the
    user's progress rows with [completed = true] whose lesson's module's
    course is the course.  In particular 1 of 4 gives 25.0 and 2 of 3 gives
    66.67. *)
Theorem completion_for_spec (db : DB) (c : Course) (u : pk_t) :
  unique_pks m_pk (modules db) →
  unique_pks l_pk (lessons db) →
  let total := lessons_under_count db c in
  let completed := completed_under_count db c u in
  (total = 0 → completion_for db c u = 0%float)
  ∧ (total ≠ 0 →
     completion_for db c u
     = round2 (PrimFloat.mul
                 (PrimFloat.div (float_of_nat completed) (float_of_nat total))
                 (float_of_Z 100)))
  ∧ (total = 4 → completed = 1 → completion_for db c u = 25%float)
  ∧ (total = 3 → completed = 2 → completion_for db c u = 66.67%float).
Proof.
  intros Hm Hl total completed.
  unfold completion_for.
  rewrite (total_lessons_under db c Hm), (completed_count_under db c u Hm Hl).
  fold total. fold completed.
  repeat split.
  - intros ->. reflexivity.
  - intros Hne. destruct (Nat.eqb_spec total 0) as [H0|_]; [contradiction|].
    reflexivity.
  - intros -> ->. vm_compute. reflexivity.
  - intros -> ->. vm_compute. reflexivity.
Qed.

Lemma completion_for_spec_witness :
  unique_pks m_pk (modules sample_db)
  ∧ unique_pks l_pk (lessons sample_db)
  ∧ lessons_under_count sample_db course1 = 3
  ∧ completed_under_count sample_db course1 7 = 2
  ∧ completion_for sample_db course1 7 = 66.67%float.
Proof.
  assert (Hm : unique_pks m_pk (modules sample_db)).
  { apply (bool_decide_unpack _). vm_compute. exact I. }
  assert (Hl : unique_pks l_pk (lessons sample_db)).
  { apply (bool_decide_unpack _). vm_compute. exact I. }
  split; [exact Hm|]. split; [exact Hl|].
  split; [reflexivity|]. split; [reflexivity|].
  exact (proj2 (proj2 (proj2 (completion_for_spec sample_db course1 7 Hm Hl)))
           eq_refl eq_refl).
Defined.

(** ** core/signals.py: the pre_save receiver of LessonProgress *)

Definition with_completed_at (o : option time) (p : LessonProgress)
    : LessonProgress :=
  mkLessonProgress (lp_pk p) (lp_user p) (lp_lesson_id p) (lp_completed p) o.

Definition with_completed (b : bool) (p : LessonProgress) : LessonProgress :=
  mkLessonProgress (lp_pk p) (lp_user p) (lp_lesson_id p) b (lp_completed_at p).

Definition with_lp_pk (k : pk_t) (p : LessonProgress) : LessonProgress :=
  mkLessonProgress (Some k) (lp_user p) (lp_lesson_id p) (lp_completed p)
    (lp_completed_at p).

Definition set_completed_at_for_progress (now : time) (instance : LessonProgress)
    : LessonProgress :=
  if lp_completed instance then
    match lp_completed_at instance with
    | None => with_completed_at (Some now) instance
    | Some _ => instance
    end
  else
    match lp_completed_at instance with
    | Some _ => with_completed_at None instance
    | None => instance
    end.

(** ** Model.save() of LessonProgress

    The receiver runs first; then the row is written under the constraints
    the model declares: [user] is NOT NULL, [lesson] is a foreign key, the
    pair (user, lesson) is unique.  An instance with a primary key that is
    in the table is updated in place, any other is inserted. *)

Definition next_pk {A : Type} (pk : A → option pk_t) (rows : list A) : pk_t :=
  S (foldr Nat.max 0 (map (λ r, default 0 (pk r)) rows)).

Definition same_key (a b : LessonProgress) : bool :=
  bool_decide (lp_user a = lp_user b) && Nat.eqb (lp_lesson_id a) (lp_lesson_id b).

Definition same_pk (a b : LessonProgress) : bool :=
  bool_decide (lp_pk a = lp_pk b).

Definition with_progress (ps : list LessonProgress) (db : DB) : DB :=
  mkDB (courses db) (modules db) (lessons db) (enrollments db) ps
    (course_tags db) (course_topics db) (course_instructors db).

Definition replace_row (new : LessonProgress) (rows : list LessonProgress)
    : list LessonProgress :=
  map (λ r, if same_pk r new then new else r) rows.

Definition LessonProgress_save (now : time) (instance : LessonProgress) (db : DB)
    : result (LessonProgress * DB) :=
  let instance := set_completed_at_for_progress now instance in
  match lp_user instance with
  | None => Err IntegrityError
  | Some _ =>
      if negb (existsb (λ l, pk_is (l_pk l) (lp_lesson_id instance)) (lessons db))
      then Err IntegrityError
      else
        let stored :=
          match lp_pk instance with
          | Some _ => existsb (λ r, same_pk r instance) (progress db)
          | None => false
          end in
        if existsb (λ r, same_key r instance && negb (same_pk r instance))
             (progress db)
        then Err IntegrityError
        else if stored then
          Ok (instance, with_progress (replace_row instance (progress db)) db)
        else
          let instance :=
            match lp_pk instance with
            | Some _ => instance
            | None => with_lp_pk (next_pk lp_pk (progress db)) instance
            end in
          Ok (instance, with_progress (progress db ++ [instance]) db)
  end.

(** ** QuerySet.update_or_create(user=..., lesson=..., defaults={completed})

    [user=None] in a lookup is [user IS NULL].  A row that is found has the
    defaults set on it and is saved as a whole; Django releases from 4.2 on
    restrict that save to the fields of [defaults], which makes no
    difference below: the view never gets past the insert attempt, and
    setting [completed] again on a completed row changes nothing. *)

Definition user_lookup (user : option pk_t) (p : LessonProgress) : bool :=
  bool_decide (lp_user p = user).

Definition update_or_create (now : time) (user : option pk_t) (lesson : Lesson)
    (completed : bool) (db : DB) : result (LessonProgress * bool * DB) :=
  match List.filter (λ p, user_lookup user p
                          && fk_refers (lp_lesson_id p) (l_pk lesson))
          (progress db) with
  | [] =>
      match l_pk lesson with
      | None => Err IntegrityError
      | Some lesson_id =>
          '(obj, db') ← LessonProgress_save now
                          (mkLessonProgress None user lesson_id completed None) db;
          mret (obj, true, db')
      end
  | [obj] =>
      '(obj, db') ← LessonProgress_save now (with_completed completed obj) db;
      mret (obj, false, db')
  | _ :: _ :: _ => Err MultipleObjectsReturned
  end.

(** ** core/views.py: LessonViewSet *)

(** What the view can see of a request: the caller, [None] when anonymous. *)
Record Request : Type := mkRequest { request_user : option pk_t }.

Inductive Response : Type := mkResponse (body : list (string * string)).

Definition LessonViewSet_get_queryset (module_pk : option pk_t) (db : DB)
    : list Lesson :=
  match module_pk with
  | Some k => List.filter (λ l, Nat.eqb (l_module_id l) k) (lessons db)
  | None => lessons db
  end.

Definition LessonViewSet_get_object (module_pk : option pk_t) (pk : pk_t)
    (db : DB) : result Lesson :=
  get_object_or_404 l_pk (LessonViewSet_get_queryset module_pk db) pk.

Definition mark_complete (now : time) (request : Request)
    (module_pk : option pk_t) (pk : pk_t) (db : DB) : result (Response * DB) :=
  lesson ← LessonViewSet_get_object module_pk pk db;
  '(_, _, db') ← update_or_create now None lesson true db;
  mret (mkResponse [("status", "completed")], db').

(** One request against the store: a failed request leaves the store as
    it was. *)
Definition handle {A : Type} (op : DB → result (A * DB)) (db : DB)
    : result A * DB :=
  match op db with
  | Ok (a, db') => (Ok a, db')
  | Err e => (Err e, db)
  end.

Definition rows_for (user : option pk_t) (lesson_id : pk_t) (db : DB)
    : list LessonProgress :=
  List.filter (λ p, user_lookup user p
                    && fk_refers (lp_lesson_id p) (Some lesson_id))
    (progress db).

(** ** completed_at follows completed *)

Definition in_sync (p : LessonProgress) : Prop :=
  lp_completed_at p ≠ None ↔ lp_completed p = true.

Lemma receiver_in_sync (now : time) (p : LessonProgress) :
  in_sync (set_completed_at_for_progress now p).
Proof.
  unfold in_sync, set_completed_at_for_progress.
  destruct p as [k u l [|] [t|]]; cbn; split; congruence.
Qed.

Lemma receiver_fields (now : time) (p : LessonProgress) :
  let q := set_completed_at_for_progress now p in
  lp_pk q = lp_pk p ∧ lp_user q = lp_user p
  ∧ lp_lesson_id q = lp_lesson_id p ∧ lp_completed q = lp_completed p.
Proof.
  unfold set_completed_at_for_progress.
  destruct p as [k u l [|] [t|]]; cbn; auto.
Qed.

(** The first completion time is kept: the receiver assigns [now] only
    when no time is there. *)
Lemma receiver_keeps_timestamp (now t : time) (p : LessonProgress) :
  lp_completed p = true → lp_completed_at p = Some t →
  set_completed_at_for_progress now p = p.
Proof.
  unfold set_completed_at_for_progress. intros -> ->. reflexivity.
Qed.

Lemma replace_row_in (new : LessonProgress) (rows : list LessonProgress) :
  existsb (λ r, same_pk r new) rows = true → In new (replace_row new rows).
Proof.
  intros Hex. apply existsb_exists in Hex as (r & Hin & Hr).
  unfold replace_row. apply in_map_iff. exists r. rewrite Hr. auto.
Qed.

Lemma replace_row_Forall (P : LessonProgress → Prop) (new : LessonProgress)
    (rows : list LessonProgress) :
  P new → Forall P rows → Forall P (replace_row new rows).
Proof.
  intros Hnew Hrows. unfold replace_row. apply Forall_map.
  eapply Forall_impl; [exact Hrows|]. intros r Hr. cbn.
  destruct (same_pk r new); assumption.
Qed.

(** What a successful save wrote: the instance after the receiver, with a
    fresh primary key if it had none. *)
Lemma LessonProgress_save_inv (now : time) (inst inst' : LessonProgress)
    (db db' : DB) :
  LessonProgress_save now inst db = Ok (inst', db') →
  let q := set_completed_at_for_progress now inst in
  lp_user inst' = lp_user q ∧ lp_lesson_id inst' = lp_lesson_id q
  ∧ lp_completed inst' = lp_completed q
  ∧ lp_completed_at inst' = lp_completed_at q
  ∧ (progress db' = replace_row inst' (progress db)
       ∧ existsb (λ r, same_pk r inst') (progress db) = true ∧ inst' = q
     ∨ progress db' = progress db ++ [inst']).
Proof.
  intros Hsave. unfold LessonProgress_save in Hsave. cbv zeta in *.
  set (q := set_completed_at_for_progress now inst) in *.
  destruct (lp_user q) as [u|] eqn:Hu; [|discriminate].
  destruct (negb (existsb _ (lessons db))); [discriminate|].
  destruct (existsb (λ r, same_key r q && negb (same_pk r q)) (progress db));
    [discriminate|].
  destruct (lp_pk q) as [k|] eqn:Hk.
  - destruct (existsb (λ r, same_pk r q) (progress db)) eqn:Hst;
      inversion Hsave; subst inst' db'; cbn; rewrite ?Hu; auto 10.
  - inversion Hsave; subst inst' db'; cbn; rewrite ?Hu; auto 10.
Qed.

Lemma save_sync_step (now : time) (inst inst' : LessonProgress) (db db' : DB) :
  LessonProgress_save now inst db = Ok (inst', db') →
  Forall in_sync (progress db) → Forall in_sync (progress db').
Proof.
  intros Hsave Hall.
  destruct (LessonProgress_save_inv _ _ _ _ _ Hsave)
    as (_ & _ & Hc & Hat & Hrows).
  assert (Hin_sync : in_sync inst').
  { pose proof (receiver_in_sync now inst) as Hsync.
    unfold in_sync in *. rewrite Hc, Hat. exact Hsync. }
  destruct Hrows as [(-> & _ & _) | ->].
  - apply replace_row_Forall; assumption.
  - apply Forall_app. split; [assumption|]. constructor; [assumption|constructor].
Qed.

(** C2.  Whatever instance is saved, the row the save writes has
    [completed_at] non-null exactly when [completed] is true, on creation
    and on update alike; a save with [completed = false] writes a null
    [completed_at] in that same write; and a table whose rows are all in
    sync stays so. *)
Theorem save_keeps_completed_at_in_sync (now : time)
    (inst inst' : LessonProgress) (db db' : DB) :
  LessonProgress_save now inst db = Ok (inst', db') →
  in_sync inst'
  ∧ In inst' (progress db')
  ∧ lp_completed inst' = lp_completed inst
  ∧ (lp_completed inst = false → lp_completed_at inst' = None)
  ∧ (Forall in_sync (progress db) → Forall in_sync (progress db')).
Proof.
  intros Hsave.
  destruct (LessonProgress_save_inv _ _ _ _ _ Hsave)
    as (_ & _ & Hc & Hat & Hrows).
  pose proof (receiver_in_sync now inst) as Hsync.
  destruct (receiver_fields now inst) as (_ & _ & _ & Hc').
  assert (Hin_sync : in_sync inst').
  { unfold in_sync in *. rewrite Hc, Hat. exact Hsync. }
  split; [exact Hin_sync|].
  split.
  { destruct Hrows as [(-> & Hex & _) | ->].
    - apply replace_row_in, Hex.
    - apply in_app_iff. right. left. reflexivity. }
  split; [congruence|].
  split.
  { intros Hfalse. unfold in_sync in Hin_sync.
    destruct (lp_completed_at inst') as [t|]; [|reflexivity].
    assert (lp_completed inst' = true) by (apply Hin_sync; discriminate).
    congruence. }
  exact (save_sync_step _ _ _ _ _ Hsave).
Qed.

(** Lesson 100 was completed by user 7 at time 11; writing the row back
    with [completed = false] at time 50 stores a null [completed_at]. *)
Definition reopened_row : LessonProgress :=
  mkLessonProgress (Some 1) (Some 7) 100 false (Some 11%Z).

Lemma save_keeps_completed_at_in_sync_witness :
  let inst' := mkLessonProgress (Some 1) (Some 7) 100 false None in
  let db' := with_progress (replace_row inst' (progress sample_db)) sample_db in
  LessonProgress_save 50 reopened_row sample_db = Ok (inst', db')
  ∧ in_sync inst'
  ∧ In inst' (progress db')
  ∧ lp_completed inst' = lp_completed reopened_row
  ∧ (lp_completed reopened_row = false → lp_completed_at inst' = None)
  ∧ (Forall in_sync (progress sample_db) → Forall in_sync (progress db')).
Proof.
  intros inst' db'.
  assert (Hsave : LessonProgress_save 50 reopened_row sample_db = Ok (inst', db'))
    by reflexivity.
  split; [exact Hsave|].
  exact (save_keeps_completed_at_in_sync 50 reopened_row inst' sample_db db' Hsave).
Defined.

(** A save goes through whenever the three constraints are met. *)
Lemma LessonProgress_save_succeeds (now : time) (inst : LessonProgress)
    (db : DB) :
  lp_user inst ≠ None →
  existsb (λ l, pk_is (l_pk l) (lp_lesson_id inst)) (lessons db) = true →
  existsb (λ r, same_key r inst && negb (same_pk r inst)) (progress db) = false →
  ∃ inst' db', LessonProgress_save now inst db = Ok (inst', db').
Proof.
  intros Hu Hl Hk. unfold LessonProgress_save. cbv zeta.
  destruct (receiver_fields now inst) as (Hpk & Huser & Hlesson & _).
  set (q := set_completed_at_for_progress now inst) in *.
  assert (Hkey : ∀ r, same_key r q = same_key r inst)
    by (intros r; unfold same_key; rewrite Huser, Hlesson; reflexivity).
  assert (Hspk : ∀ r, same_pk r q = same_pk r inst)
    by (intros r; unfold same_pk; rewrite Hpk; reflexivity).
  rewrite Huser, Hlesson, Hl.
  destruct (lp_user inst) as [u|]; [|contradiction]. cbn.
  rewrite (existsb_ext_in _ (λ r, same_key r inst && negb (same_pk r inst)))
    by (intros r _; rewrite Hkey, Hspk; reflexivity).
  rewrite Hk.
  destruct (lp_pk q);
    [destruct (existsb (λ r, same_pk r q) (progress db))|]; eauto.
Qed.

(** Stores built by saves alone, starting from a store without progress
    rows, never hold a row out of sync. *)
Inductive saved_from (db0 : DB) : DB → Prop :=
| saved_start : saved_from db0 db0
| saved_step (db db' : DB) (now : time) (inst inst' : LessonProgress) :
    saved_from db0 db →
    LessonProgress_save now inst db = Ok (inst', db') →
    saved_from db0 db'.

Lemma saved_from_in_sync (db0 db : DB) :
  progress db0 = [] → saved_from db0 db → Forall in_sync (progress db).
Proof.
  intros Hempty Hreach.
  induction Hreach as [|db db' now inst inst' _ IH Hsave].
  - rewrite Hempty. constructor.
  - eapply save_sync_step; eassumption.
Qed.

(** ** mark_complete as written: the lookup key is [user=None] *)

(** The NOT NULL constraint, as a property of the stored rows. *)
Definition not_null_users (db : DB) : Prop :=
  Forall (λ p, lp_user p ≠ None) (progress db).

Lemma filter_nil_Forall {A : Type} (f : A → bool) (xs : list A) :
  Forall (λ x, f x = false) xs → List.filter f xs = [].
Proof.
  induction 1 as [|x xs Hx _ IH]; cbn; [reflexivity|].
  rewrite Hx. exact IH.
Qed.

Lemma update_or_create_null_user (now : time) (lesson : Lesson)
    (completed : bool) (db : DB) :
  not_null_users db →
  update_or_create now None lesson completed db = Err IntegrityError.
Proof.
  intros Hnn. unfold update_or_create.
  rewrite filter_nil_Forall.
  - destruct (l_pk lesson) as [lesson_id|]; [|reflexivity].
    unfold LessonProgress_save. cbv zeta.
    destruct (receiver_fields now
                (mkLessonProgress None None lesson_id completed None))
      as (_ & -> & _). reflexivity.
  - eapply Forall_impl; [exact Hnn|]. intros p Hp. cbn in *.
    unfold user_lookup. rewrite bool_decide_eq_false_2 by exact Hp. reflexivity.
Qed.

(** The caller's identity plays no part in the operation. *)
Lemma mark_complete_ignores_identity (now : time) (r1 r2 : Request)
    (module_pk : option pk_t) (pk : pk_t) (db : DB) :
  mark_complete now r1 module_pk pk db = mark_complete now r2 module_pk pk db.
Proof. reflexivity. Qed.

(** Every invocation ends in Http404 (no such lesson) or in the store's
    IntegrityError; the store is left as it was. *)
Lemma mark_complete_outcome (now : time) (request : Request)
    (module_pk : option pk_t) (pk : pk_t) (db : DB) :
  not_null_users db →
  handle (mark_complete now request module_pk pk) db
  = (match LessonViewSet_get_object module_pk pk db with
     | Ok _ => Err IntegrityError
     | Err e => Err e
     end, db).
Proof.
  intros Hnn. unfold handle, mark_complete.
  destruct (LessonViewSet_get_object module_pk pk db) as [lesson|e]; cbn;
    [|reflexivity].
  rewrite (update_or_create_null_user now lesson true db Hnn). reflexivity.
Qed.

Definition anonymous : Request := mkRequest None.
Definition user9 : Request := mkRequest (Some 9).

(** C3 (the code at the failing input).  An anonymous caller marking the
    existing lesson 100 complete is not answered Unauthorized: the view
    attempts the write with a null user and the store rejects it. *)
Theorem mark_complete_anonymous_not_unauthorized :
  handle (mark_complete 50 anonymous None 100) sample_db
  = (Err IntegrityError, sample_db)
  ∧ fst (handle (mark_complete 50 anonymous None 100) sample_db)
    ≠ Err Unauthorized.
Proof. split; [reflexivity|]. cbn. discriminate. Qed.

(** C4 (the code at the failing input).  User 9 marks lesson 100 complete
    twice; both invocations fail the same way and no row for
    (user 9, lesson 100) exists afterwards. *)
Theorem mark_complete_twice_leaves_no_row :
  let (r1, db1) := handle (mark_complete 50 user9 None 100) sample_db in
  let (r2, db2) := handle (mark_complete 60 user9 None 100) db1 in
  r1 = Err IntegrityError ∧ r2 = Err IntegrityError
  ∧ rows_for (Some 9) 100 db2 = [] ∧ db2 = sample_db.
Proof. vm_compute. repeat split. Qed.

(** ** The upsert itself, keyed by an identified user

    What [update_or_create] does when it is handed a user (the comment in
    the view: "replace with request.user"): the first call inserts one row
    stamped with the time of that call, the second finds it and leaves the
    store as it is. *)

Lemma next_pk_fresh {A : Type} (pk : A → option pk_t) (rows : list A) (r : A) :
  In r rows → pk r ≠ Some (next_pk pk rows).
Proof.
  intros Hin Heq.
  assert (Hle : ∀ k, pk r = Some k →
                     k ≤ foldr Nat.max 0 (map (λ r, default 0 (pk r)) rows)).
  { clear Heq. induction rows as [|x rows IH]; [destruct Hin|].
    intros k Hk. cbn. destruct Hin as [-> | Hin].
    - rewrite Hk. cbn. lia.
    - specialize (IH Hin k Hk). lia. }
  specialize (Hle _ Heq). unfold next_pk in Hle. lia.
Qed.

Lemma filter_nil_inv {A : Type} (f : A → bool) (xs : list A) :
  List.filter f xs = [] → ∀ x, In x xs → f x = false.
Proof.
  intros Hnil x Hin. destruct (f x) eqn:Hfx; [|reflexivity].
  assert (Hx : In x (List.filter f xs)) by (apply filter_In; auto).
  rewrite Hnil in Hx. destruct Hx.
Qed.

Lemma existsb_false_in {A : Type} (f : A → bool) (xs : list A) :
  (∀ x, In x xs → f x = false) → existsb f xs = false.
Proof.
  intros Hf. rewrite (existsb_ext_in f (λ _, false)) by exact Hf.
  apply existsb_none.
Qed.

Section Upsert.
Variables (db : DB) (lesson : Lesson) (lesson_id u : pk_t) (t1 t2 : time).
Hypothesis lesson_saved : l_pk lesson = Some lesson_id.
Hypothesis lesson_stored :
  existsb (λ l, pk_is (l_pk l) lesson_id) (lessons db) = true.
Hypothesis no_row_yet : rows_for (Some u) lesson_id db = [].

Definition first_row : LessonProgress :=
  mkLessonProgress (Some (next_pk lp_pk (progress db))) (Some u) lesson_id
    true (Some t1).

Definition after_first : DB := with_progress (progress db ++ [first_row]) db.

Lemma no_row_key (q r : LessonProgress) :
  lp_user q = Some u → lp_lesson_id q = lesson_id →
  In r (progress db) → same_key r q = false.
Proof using no_row_yet.
  intros Hu Hl Hin.
  pose proof (filter_nil_inv _ _ no_row_yet r Hin) as Hr. cbn in Hr.
  unfold same_key, user_lookup in *. rewrite Hu, Hl.
  rewrite Nat.eqb_sym. exact Hr.
Qed.

Lemma update_or_create_first :
  update_or_create t1 (Some u) lesson true db = Ok (first_row, true, after_first).
Proof using lesson_saved lesson_stored no_row_yet.
  unfold update_or_create. rewrite lesson_saved.
  change (List.filter _ (progress db)) with (rows_for (Some u) lesson_id db).
  rewrite no_row_yet.
  unfold LessonProgress_save. cbn. rewrite lesson_stored. cbn.
  rewrite existsb_false_in; [reflexivity|].
  intros r Hin. rewrite (no_row_key _ r) by (cbn; auto). reflexivity.
Qed.

Lemma replace_first_row :
  replace_row first_row (progress db ++ [first_row]) = progress db ++ [first_row].
Proof using Type.
  unfold replace_row. rewrite map_app. cbn.
  unfold same_pk at 2. rewrite bool_decide_eq_true_2 by reflexivity.
  f_equal. rewrite <- (map_id (progress db)) at 2.
  apply map_ext_in. intros r Hin. unfold same_pk.
  rewrite bool_decide_eq_false_2; [reflexivity|].
  cbn. apply next_pk_fresh, Hin.
Qed.

Lemma update_or_create_again :
  update_or_create t2 (Some u) lesson true after_first
  = Ok (first_row, false, after_first).
Proof using lesson_saved lesson_stored no_row_yet.
  unfold update_or_create. rewrite lesson_saved.
  unfold after_first at 1. cbn [progress with_progress].
  rewrite List.filter_app.
  change (List.filter _ (progress db)) with (rows_for (Some u) lesson_id db).
  rewrite no_row_yet. cbn.
  unfold user_lookup, fk_refers, pk_is. cbn.
  rewrite bool_decide_eq_true_2 by reflexivity. rewrite Nat.eqb_refl. cbn.
  unfold LessonProgress_save. cbn. rewrite lesson_stored. cbn.
  rewrite !existsb_app. cbn.
  rewrite (existsb_false_in (λ r, same_key r first_row && negb (same_pk r first_row))).
  - unfold same_pk at 1. rewrite bool_decide_eq_true_2 by reflexivity.
    rewrite andb_false_r. cbn.
    unfold same_pk at 2. rewrite bool_decide_eq_true_2 by reflexivity.
    rewrite orb_true_r. cbn.
    change (with_completed true first_row) with first_row.
    fold (replace_row first_row (progress db ++ [first_row])).
    rewrite replace_first_row. reflexivity.
  - intros r Hin. rewrite (no_row_key first_row r) by (cbn; auto). reflexivity.
Qed.

(** Two calls in succession: one row for the key, carrying the time of
    the first call. *)
Lemma update_or_create_idempotent :
  rows_for (Some u) lesson_id after_first = [first_row]
  ∧ lp_completed_at first_row = Some t1
  ∧ update_or_create t2 (Some u) lesson true after_first
    = Ok (first_row, false, after_first).
Proof using lesson_saved lesson_stored no_row_yet.
  split; [|split; [reflexivity|exact update_or_create_again]].
  unfold rows_for, after_first. cbn [progress with_progress].
  rewrite List.filter_app.
  change (List.filter _ (progress db)) with (rows_for (Some u) lesson_id db).
  rewrite no_row_yet. cbn.
  unfold user_lookup, fk_refers, pk_is. cbn.
  rewrite bool_decide_eq_true_2 by reflexivity. rewrite Nat.eqb_refl.
  reflexivity.
Qed.

End Upsert.

(** ** Deleting a course: on_delete=CASCADE

    Django's collector starts from the course and follows every CASCADE
    foreign key backwards: Module.course and Enrollment.course (and the
    rows of the many-to-many link tables), then Lesson.module for the
    modules collected, then LessonProgress.lesson for the lessons
    collected.  Everything collected is deleted. *)

Definition module_collected (course_id : pk_t) (m : CModule) : bool :=
  Nat.eqb (m_course_id m) course_id.

Definition lesson_collected (db : DB) (course_id : pk_t) (l : Lesson) : bool :=
  existsb (λ m, module_collected course_id m && pk_is (m_pk m) (l_module_id l))
    (modules db).

Definition progress_collected (db : DB) (course_id : pk_t) (p : LessonProgress)
    : bool :=
  existsb (λ l, lesson_collected db course_id l && pk_is (l_pk l) (lp_lesson_id p))
    (lessons db).

Definition enrollment_collected (course_id : pk_t) (e : Enrollment) : bool :=
  Nat.eqb (e_course_id e) course_id.

Definition link_collected (course_id : pk_t) (link : pk_t * pk_t) : bool :=
  Nat.eqb (fst link) course_id.

Definition without {A : Type} (collected : A → bool) (rows : list A) : list A :=
  List.filter (λ r, negb (collected r)) rows.

Definition Course_delete (self : Course) (db : DB) : result DB :=
  match c_pk self with
  | None => Err ValueError
  | Some course_id =>
      Ok {| courses := without (λ c, pk_is (c_pk c) course_id) (courses db);
            modules := without (module_collected course_id) (modules db);
            lessons := without (lesson_collected db course_id) (lessons db);
            enrollments := without (enrollment_collected course_id) (enrollments db);
            progress := without (progress_collected db course_id) (progress db);
            course_tags := without (link_collected course_id) (course_tags db);
            course_topics := without (link_collected course_id) (course_topics db);
            course_instructors :=
              without (link_collected course_id) (course_instructors db) |}
  end.

(** DELETE /courses/{pk} *)
Definition CourseViewSet_destroy (pk : pk_t) (db : DB) : result (unit * DB) :=
  course ← get_object_or_404 c_pk (courses db) pk;
  db' ← Course_delete course db;
  mret (tt, db').

Lemma unique_pk_same_row {A : Type} (pk : A → option pk_t) (rows : list A)
    (r r' : A) (k : pk_t) :
  unique_pks pk rows → In r rows → In r' rows →
  pk r = Some k → pk r' = Some k → r = r'.
Proof.
  unfold unique_pks. intros Hnd Hr Hr' Hk Hk'.
  induction rows as [|x rows IH]; [destruct Hr|].
  cbn in Hnd. apply NoDup_cons in Hnd as [Hx Hnd].
  assert (Hmem : ∀ y, In y rows → pk y = pk x → False).
  { intros y Hy Heq. apply Hx. rewrite <- Heq.
    apply list_elem_of_In, in_map, Hy. }
  destruct Hr as [-> | Hr], Hr' as [-> | Hr']; [reflexivity| | |auto].
  - exfalso. apply (Hmem r' Hr'). congruence.
  - exfalso. apply (Hmem r Hr). congruence.
Qed.

(** A collected row cannot be fetched any more. *)
Lemma collected_not_found {A : Type} (pk : A → option pk_t)
    (collected : A → bool) (rows : list A) (r : A) (k : pk_t) :
  unique_pks pk rows → In r rows → pk r = Some k → collected r = true →
  get_object_or_404 pk (without collected rows) k = Err Http404.
Proof.
  intros Hnd Hin Hk Hc. unfold get_object_or_404, without.
  rewrite filter_nil_Forall; [reflexivity|].
  apply Forall_forall. intros r' Hr'. apply list_elem_of_In, filter_In in Hr' as [Hr' Hkeep].
  destruct (pk_is (pk r') k) eqn:Hk'; [|reflexivity]. exfalso.
  unfold pk_is in Hk'. destruct (pk r') as [j|] eqn:Ej; [|discriminate].
  apply Nat.eqb_eq in Hk'. subst j.
  rewrite <- (unique_pk_same_row pk rows r r' k Hnd Hin Hr' Hk Ej) in Hkeep.
  rewrite Hc in Hkeep. discriminate.
Qed.

(** A row that is not collected is still there, unchanged. *)
Lemma kept_still_found {A : Type} (collected : A → bool) (rows : list A) (r : A) :
  In r rows → collected r = false → In r (without collected rows).
Proof.
  intros Hin Hc. apply filter_In. rewrite Hc. auto.
Qed.

Lemma without_length {A : Type} (collected : A → bool) (rows : list A) :
  length (without collected rows) + length (List.filter collected rows)
  = length rows.
Proof.
  unfold without. induction rows as [|r rows IH]; [reflexivity|].
  cbn. destruct (collected r); cbn; lia.
Qed.

Lemma lesson_collected_intro (db : DB) (course_id : pk_t) (m : CModule)
    (l : Lesson) :
  In m (modules db) → m_course_id m = course_id →
  pk_is (m_pk m) (l_module_id l) = true →
  lesson_collected db course_id l = true.
Proof.
  intros Hm Hc Hl. apply existsb_exists. exists m.
  split; [exact Hm|]. unfold module_collected.
  rewrite Hc, Nat.eqb_refl, Hl. reflexivity.
Qed.

Lemma progress_collected_intro (db : DB) (course_id : pk_t) (l : Lesson)
    (p : LessonProgress) :
  In l (lessons db) → lesson_collected db course_id l = true →
  pk_is (l_pk l) (lp_lesson_id p) = true →
  progress_collected db course_id p = true.
Proof.
  intros Hl Hc Hp. apply existsb_exists. exists l.
  split; [exact Hl|]. rewrite Hc, Hp. reflexivity.
Qed.

Record primary_keys (db : DB) : Prop := {
  pk_courses : unique_pks c_pk (courses db);
  pk_modules : unique_pks m_pk (modules db);
  pk_lessons : unique_pks l_pk (lessons db);
  pk_enrollments : unique_pks e_pk (enrollments db);
  pk_progress : unique_pks lp_pk (progress db)
}.

Lemma lesson_collected_under (db : DB) (c : Course) (course_id : pk_t)
    (l : Lesson) :
  c_pk c = Some course_id →
  lesson_collected db course_id l = lesson_under db c l.
Proof.
  intros Hc. unfold lesson_collected, lesson_under.
  apply existsb_ext_in. intros m _.
  unfold module_collected, fk_refers. rewrite Hc. cbn.
  rewrite (Nat.eqb_sym course_id). apply andb_comm.
Qed.

Lemma deleted_pk_not_found {A : Type} (pk : A → option pk_t) (rows : list A)
    (k : pk_t) :
  get_object_or_404 pk (without (λ r, pk_is (pk r) k) rows) k = Err Http404.
Proof.
  unfold get_object_or_404, without.
  rewrite filter_nil_Forall; [reflexivity|].
  apply Forall_forall. intros r Hr.
  apply list_elem_of_In, filter_In in Hr as [_ Hkeep].
  destruct (pk_is (pk r) k); [discriminate|reflexivity].
Qed.

(** C5.  Deleting a stored course succeeds and removes the course, every
    module of the course, every lesson of those modules, every enrollment
    in the course and every progress row on those lessons: fetching any of
    them by primary key afterwards answers Http404.  The module table
    shrinks by the number of modules of the course and the lesson table by
    [total_lessons]. *)
Theorem Course_delete_cascades (db : DB) (c : Course) (course_id : pk_t) :
  primary_keys db →
  c_pk c = Some course_id →
  ∃ db',
    Course_delete c db = Ok db'
    ∧ get_object_or_404 c_pk (courses db') course_id = Err Http404
    ∧ (∀ m k, In m (modules db) → m_course_id m = course_id →
         m_pk m = Some k →
         get_object_or_404 m_pk (modules db') k = Err Http404)
    ∧ (∀ m l k, In m (modules db) → m_course_id m = course_id →
         In l (lessons db) → pk_is (m_pk m) (l_module_id l) = true →
         l_pk l = Some k →
         get_object_or_404 l_pk (lessons db') k = Err Http404)
    ∧ (∀ e k, In e (enrollments db) → e_course_id e = course_id →
         e_pk e = Some k →
         get_object_or_404 e_pk (enrollments db') k = Err Http404)
    ∧ (∀ m l p k, In m (modules db) → m_course_id m = course_id →
         In l (lessons db) → pk_is (m_pk m) (l_module_id l) = true →
         In p (progress db) → pk_is (l_pk l) (lp_lesson_id p) = true →
         lp_pk p = Some k →
         get_object_or_404 lp_pk (progress db') k = Err Http404)
    ∧ length (modules db')
      + length (List.filter (module_collected course_id) (modules db))
      = length (modules db)
    ∧ length (lessons db') + total_lessons db c = length (lessons db).
Proof.
  intros [Hcs Hms Hls Hes Hps] Hc.
  unfold Course_delete. rewrite Hc. eexists. split; [reflexivity|].
  cbn [courses modules lessons enrollments progress].
  split; [apply deleted_pk_not_found|].
  split.
  { intros m k Hm Hmc Hk.
    apply (collected_not_found m_pk _ _ m k Hms Hm Hk).
    unfold module_collected. rewrite Hmc. apply Nat.eqb_refl. }
  split.
  { intros m l k Hm Hmc Hl Hlm Hk.
    apply (collected_not_found l_pk _ _ l k Hls Hl Hk).
    exact (lesson_collected_intro db course_id m l Hm Hmc Hlm). }
  split.
  { intros e k He Hec Hk.
    apply (collected_not_found e_pk _ _ e k Hes He Hk).
    unfold enrollment_collected. rewrite Hec. apply Nat.eqb_refl. }
  split.
  { intros m l p k Hm Hmc Hl Hlm Hp Hpl Hk.
    apply (collected_not_found lp_pk _ _ p k Hps Hp Hk).
    apply (progress_collected_intro db course_id l p Hl); [|exact Hpl].
    exact (lesson_collected_intro db course_id m l Hm Hmc Hlm). }
  split; [apply without_length|].
  rewrite (total_lessons_under db c Hms). unfold lessons_under_count.
  rewrite <- (filter_length_ext (lesson_collected db course_id))
    by (intros l _; apply lesson_collected_under, Hc).
  apply without_length.
Qed.

(** Rows of other courses are not touched by the delete. *)
Lemma Course_delete_keeps_others (db db' : DB) (c : Course) (course_id : pk_t) :
  c_pk c = Some course_id →
  Course_delete c db = Ok db' →
  (∀ m, In m (modules db) → m_course_id m ≠ course_id → In m (modules db'))
  ∧ (∀ e, In e (enrollments db) → e_course_id e ≠ course_id →
       In e (enrollments db'))
  ∧ (∀ l, In l (lessons db) → lesson_collected db course_id l = false →
       In l (lessons db'))
  ∧ (∀ p, In p (progress db) → progress_collected db course_id p = false →
       In p (progress db')).
Proof.
  intros Hc Hdel. unfold Course_delete in Hdel. rewrite Hc in Hdel.
  inversion Hdel; subst db'; clear Hdel. cbn.
  repeat split.
  - intros m Hm Hne. apply kept_still_found; [exact Hm|].
    apply Nat.eqb_neq, Hne.
  - intros e He Hne. apply kept_still_found; [exact He|].
    apply Nat.eqb_neq, Hne.
  - intros l Hl Hk. apply kept_still_found; assumption.
  - intros p Hp Hk. apply kept_still_found; assumption.
Qed.

Lemma sample_primary_keys : primary_keys sample_db.
Proof.
  split; apply (bool_decide_unpack _); vm_compute; exact I.
Qed.

Example sample_delete_course1 :
  CourseViewSet_destroy 1 sample_db
  = Ok (tt, {| courses := [course2];
               modules := [mkModule (Some 20) 2 "Intro" "intro-2" "" 0 0 0];
               lessons := [mkLesson (Some 200) 20 "Routes" "routes" "@app.route"
                             45 0 0 0];
               enrollments := [mkEnrollment (Some 2) 2 7 4];
               progress := [mkLessonProgress (Some 4) (Some 7) 200 true
                              (Some 13%Z)];
               course_tags := [(2, 1)];
               course_topics := [];
               course_instructors := [] |}).
Proof. reflexivity. Qed.

Lemma Course_delete_cascades_witness :
  primary_keys sample_db
  ∧ c_pk course1 = Some 1
  ∧ ∃ db',
      Course_delete course1 sample_db = Ok db'
      ∧ get_object_or_404 m_pk (modules db') 10 = Err Http404
      ∧ get_object_or_404 l_pk (lessons db') 102 = Err Http404
      ∧ get_object_or_404 lp_pk (progress db') 3 = Err Http404
      ∧ length (lessons db') + total_lessons sample_db course1
        = length (lessons sample_db).
Proof.
  split; [exact sample_primary_keys|]. split; [reflexivity|].
  destruct (Course_delete_cascades sample_db course1 1 sample_primary_keys eq_refl)
    as (db' & Hdel & _ & Hm & Hl & _ & Hp & _ & Hlen).
  exists db'. split; [exact Hdel|].
  split.
  { apply (Hm (mkModule (Some 10) 1 "Intro" "intro" "" 0 0 0) 10);
      [cbn; auto|reflexivity|reflexivity]. }
  split.
  { apply (Hl (mkModule (Some 11) 1 "Models" "models" "" 1 0 0)
              (mkLesson (Some 102) 11 "Fields" "fields" "CharField" 30 0 0 0) 102);
      [cbn; auto|reflexivity|cbn; auto|reflexivity|reflexivity]. }
  split; [|exact Hlen].
  apply (Hp (mkModule (Some 11) 1 "Models" "models" "" 1 0 0)
            (mkLesson (Some 102) 11 "Fields" "fields" "CharField" 30 0 0 0)
            (mkLessonProgress (Some 3) (Some 7) 102 true (Some 12%Z)) 3);
    [cbn; auto|reflexivity|cbn; auto|reflexivity|cbn; auto|reflexivity|reflexivity].
Defined.

(** ** django.utils.text.slugify

    [slugify] first normalises its argument ([unicodedata.normalize] with
    form NFKD, a table of the Unicode database) and drops what is then not
    ASCII; the rest is lowercased, characters other than word characters,
    whitespace and hyphens are removed, every run of whitespace and
    hyphens becomes one hyphen, and hyphens and underscores are stripped
    from both ends.  The normalisation leaves ASCII text as it is, and the
    definition below is the function on such text ([ascii_text]): the
    statements that name the slug of a value are made for ASCII values. *)

Definition ascii_in (lo hi : nat) (c : ascii) : bool :=
  (lo <=? nat_of_ascii c) && (nat_of_ascii c <=? hi).

Definition lower (c : ascii) : ascii :=
  if ascii_in 65 90 c then ascii_of_nat (nat_of_ascii c + 32) else c.

Definition is_separator (c : ascii) : bool :=
  ascii_in 9 13 c || ascii_in 28 32 c || Ascii.eqb c "-".

Definition is_word (c : ascii) : bool :=
  ascii_in 97 122 c || ascii_in 65 90 c || ascii_in 48 57 c || Ascii.eqb c "_".


Fixpoint collapse (in_run : bool) (l : list ascii) : list ascii :=
  match l with
  | [] => []
  | c :: l' =>
      if is_separator c
      then (if in_run then collapse true l' else "-"%char :: collapse true l')
      else c :: collapse false l'
  end.

Fixpoint lstrip (l : list ascii) : list ascii :=
  match l with
  | [] => []
  | c :: l' => if Ascii.eqb c "-" || Ascii.eqb c "_" then lstrip l' else l
  end.

Definition strip (l : list ascii) : list ascii :=
  rev (lstrip (rev (lstrip l))).

Definition is_ascii (c : ascii) : bool := nat_of_ascii c <? 128.

(** [value.isascii()] *)
Definition ascii_text (value : string) : Prop :=
  Forall (λ c, is_ascii c = true) (String.list_ascii_of_string value).

Global Instance ascii_text_dec (value : string) : Decision (ascii_text value).
Proof. unfold ascii_text. apply _. Defined.

Definition slugify (value : string) : string :=
  let ascii_only :=
    List.filter (λ c, nat_of_ascii c <? 128) (String.list_ascii_of_string value) in
  let lowered := map lower ascii_only in
  let kept := List.filter (λ c, is_word c || is_separator c) lowered in
  String.string_of_list_ascii (strip (collapse false kept)).

Example slugify_title : slugify "  Intro to Django: Part 6!  " = "intro-to-django-part-6".
Proof. reflexivity. Qed.

Example slugify_symbols : slugify "!!!" = "".
Proof. reflexivity. Qed.

Example slugify_underscores : slugify "__Init__ --  x" = "init__-x".
Proof. reflexivity. Qed.

(** ** core/mixins.py: SlugMixin

    The mixin is written once for every model that inherits it; the class
    below is what it needs of such a model. *)

Class SlugModel (A : Type) : Type := {
  get_pk : A → option pk_t;
  get_slug : A → string;
  slug_source : A → string;          (* getattr(self, slug_source_field) *)
  set_slug : string → A → A;
  set_pk : pk_t → A → A;
  set_updated_at : time → A → A;     (* TimestampMixin: auto_now *)
  parent_stored : DB → A → bool;     (* the row's ForeignKey names a stored row *)
  get_set_slug : ∀ s a, get_slug (set_slug s a) = s;
  pk_set_slug : ∀ s a, get_pk (set_slug s a) = get_pk a;
  source_set_slug : ∀ s a, slug_source (set_slug s a) = slug_source a;
  get_set_pk : ∀ k a, get_pk (set_pk k a) = Some k;
  slug_set_pk : ∀ k a, get_slug (set_pk k a) = get_slug a;
  slug_set_updated_at : ∀ t a, get_slug (set_updated_at t a) = get_slug a;
  pk_set_updated_at : ∀ t a, get_pk (set_updated_at t a) = get_pk a;
  parent_set_slug : ∀ db s a, parent_stored db (set_slug s a) = parent_stored db a
}.

Global Instance Course_slug : SlugModel Course := {|
  get_pk := c_pk; get_slug := c_slug; slug_source := c_name;
  set_slug s c := mkCourse (c_pk c) (c_name c) s (c_description c)
                    (c_is_published c) (c_order c) (c_created_at c)
                    (c_updated_at c);
  set_pk k c := mkCourse (Some k) (c_name c) (c_slug c) (c_description c)
                  (c_is_published c) (c_order c) (c_created_at c)
                  (c_updated_at c);
  set_updated_at t c := mkCourse (c_pk c) (c_name c) (c_slug c) (c_description c)
                          (c_is_published c) (c_order c) (c_created_at c) t;
  parent_stored _ _ := true;
  get_set_slug := λ _ _, eq_refl;
  pk_set_slug := λ _ _, eq_refl;
  source_set_slug := λ _ _, eq_refl;
  get_set_pk := λ _ _, eq_refl;
  slug_set_pk := λ _ _, eq_refl;
  slug_set_updated_at := λ _ _, eq_refl;
  pk_set_updated_at := λ _ _, eq_refl;
  parent_set_slug := λ _ _ _, eq_refl
|}.

Global Instance CModule_slug : SlugModel CModule := {|
  get_pk := m_pk; get_slug := m_slug; slug_source := m_name;
  set_slug s m := mkModule (m_pk m) (m_course_id m) (m_name m) s
                    (m_description m) (m_order m) (m_created_at m)
                    (m_updated_at m);
  set_pk k m := mkModule (Some k) (m_course_id m) (m_name m) (m_slug m)
                  (m_description m) (m_order m) (m_created_at m)
                  (m_updated_at m);
  set_updated_at t m := mkModule (m_pk m) (m_course_id m) (m_name m) (m_slug m)
                          (m_description m) (m_order m) (m_created_at m) t;
  parent_stored db m := existsb (λ c, pk_is (c_pk c) (m_course_id m)) (courses db);
  get_set_slug := λ _ _, eq_refl;
  pk_set_slug := λ _ _, eq_refl;
  source_set_slug := λ _ _, eq_refl;
  get_set_pk := λ _ _, eq_refl;
  slug_set_pk := λ _ _, eq_refl;
  slug_set_updated_at := λ _ _, eq_refl;
  pk_set_updated_at := λ _ _, eq_refl;
  parent_set_slug := λ _ _ _, eq_refl
|}.

Global Instance Lesson_slug : SlugModel Lesson := {|
  get_pk := l_pk; get_slug := l_slug; slug_source := l_name;
  set_slug s l := mkLesson (l_pk l) (l_module_id l) (l_name l) s (l_content l)
                    (l_duration_seconds l) (l_order l) (l_created_at l)
                    (l_updated_at l);
  set_pk k l := mkLesson (Some k) (l_module_id l) (l_name l) (l_slug l)
                  (l_content l) (l_duration_seconds l) (l_order l)
                  (l_created_at l) (l_updated_at l);
  set_updated_at t l := mkLesson (l_pk l) (l_module_id l) (l_name l) (l_slug l)
                          (l_content l) (l_duration_seconds l) (l_order l)
                          (l_created_at l) t;
  parent_stored db l := existsb (λ m, pk_is (m_pk m) (l_module_id l)) (modules db);
  get_set_slug := λ _ _, eq_refl;
  pk_set_slug := λ _ _, eq_refl;
  source_set_slug := λ _ _, eq_refl;
  get_set_pk := λ _ _, eq_refl;
  slug_set_pk := λ _ _, eq_refl;
  slug_set_updated_at := λ _ _, eq_refl;
  pk_set_updated_at := λ _ _, eq_refl;
  parent_set_slug := λ _ _ _, eq_refl
|}.

Global Instance Tag_slug : SlugModel Tag := {|
  get_pk := t_pk; get_slug := t_slug; slug_source := t_name;
  set_slug s t := mkTag (t_pk t) (t_name t) s (t_order t) (t_created_at t)
                    (t_updated_at t);
  set_pk k t := mkTag (Some k) (t_name t) (t_slug t) (t_order t)
                  (t_created_at t) (t_updated_at t);
  set_updated_at t x := mkTag (t_pk x) (t_name x) (t_slug x) (t_order x)
                          (t_created_at x) t;
  parent_stored _ _ := true;
  get_set_slug := λ _ _, eq_refl;
  pk_set_slug := λ _ _, eq_refl;
  source_set_slug := λ _ _, eq_refl;
  get_set_pk := λ _ _, eq_refl;
  slug_set_pk := λ _ _, eq_refl;
  slug_set_updated_at := λ _ _, eq_refl;
  pk_set_updated_at := λ _ _, eq_refl;
  parent_set_slug := λ _ _ _, eq_refl
|}.

Global Instance Topic_slug : SlugModel Topic := {|
  get_pk := tp_pk; get_slug := tp_slug; slug_source := tp_name;
  set_slug s t := mkTopic (tp_pk t) (tp_name t) s (tp_order t)
                    (tp_created_at t) (tp_updated_at t);
  set_pk k t := mkTopic (Some k) (tp_name t) (tp_slug t) (tp_order t)
                  (tp_created_at t) (tp_updated_at t);
  set_updated_at t x := mkTopic (tp_pk x) (tp_name x) (tp_slug x) (tp_order x)
                          (tp_created_at x) t;
  parent_stored _ _ := true;
  get_set_slug := λ _ _, eq_refl;
  pk_set_slug := λ _ _, eq_refl;
  source_set_slug := λ _ _, eq_refl;
  get_set_pk := λ _ _, eq_refl;
  slug_set_pk := λ _ _, eq_refl;
  slug_set_updated_at := λ _ _, eq_refl;
  pk_set_updated_at := λ _ _, eq_refl;
  parent_set_slug := λ _ _ _, eq_refl
|}.

Section SlugMixin.
Context {A : Type} `{SlugModel A}.

(** [.exclude(pk=self.pk)]: the instance's own row, if it has one. *)
Definition own_row (self r : A) : bool :=
  match get_pk self with
  | Some k => pk_is (get_pk r) k
  | None => false
  end.

(** [Model.objects.filter(slug=candidate).exclude(pk=self.pk).exists()]:
    the whole table of the model is searched. *)
Definition slug_taken (table : list A) (self : A) (candidate : string) : bool :=
  existsb (λ r, String.eqb (get_slug r) candidate && negb (own_row self r)) table.

(** The [while] loop, [steps] iterations at most.  It is entered with
    [candidate = base] and [i = 2]. *)
Fixpoint slug_loop (steps : nat) (table : list A) (self : A) (base : string)
    (i : nat) (candidate : string) : option string :=
  match steps with
  | 0 => None
  | S steps =>
      if slug_taken table self candidate
      then slug_loop steps table self base (S i) (base +:+ "-" +:+ pretty i)
      else Some candidate
  end.

(** [super().save()]: [updated_at] is set from the clock ([auto_now]) and
    the row is written under the constraints of the table: the slug
    column is UNIQUE ([unique=True]) and the parent a ForeignKey names
    must be stored.  An instance whose primary key is in the table is
    updated in place, any other is inserted; a new row gets a key no
    stored row has. *)
Definition Model_save (now : time) (db : DB) (self : A) (table : list A)
    : result (A * list A) :=
  if slug_taken table self (get_slug self) then Err IntegrityError
  else if negb (parent_stored db self) then Err IntegrityError
  else
    let self := set_updated_at now self in
    match get_pk self with
    | Some k =>
        if existsb (λ r, pk_is (get_pk r) k) table
        then Ok (self, map (λ r, if pk_is (get_pk r) k then self else r) table)
        else Ok (self, table ++ [self])
    | None =>
        let self := set_pk (next_pk get_pk table) self in
        Ok (self, table ++ [self])
    end.

Definition SlugMixin_save (now : time) (db : DB) (self : A) (table : list A)
    : result (A * list A) :=
  if String.eqb (get_slug self) "" then
    let source := slug_source self in
    if negb (String.eqb source "") then
      let base := String.substring 0 200 (slugify source) in
      match slug_loop (S (length table)) table self base 2 base with
      | Some candidate => Model_save now db (set_slug candidate self) table
      | None => Err OutOfSteps
      end
    else Model_save now db self table
  else Model_save now db self table.

End SlugMixin.

(** ** The candidates of the slug loop *)

(** [base], then [base-2], [base-3], ...: the candidate tried at the
    [k]-th attempt, counting from 1. *)
Definition candidate_at (base : string) (k : nat) : string :=
  if k <=? 1 then base else base +:+ "-" +:+ pretty k.

Lemma string_app_nil_r (s : string) : s +:+ "" = s.
Proof.
  induction s as [|c s IH]; [reflexivity|].
  change (String c (s +:+ "") = String c s). rewrite IH. reflexivity.
Qed.

Lemma candidate_at_inj (base : string) (j k : nat) :
  1 ≤ j → 1 ≤ k → candidate_at base j = candidate_at base k → j = k.
Proof.
  unfold candidate_at. intros Hj Hk.
  destruct (Nat.leb_spec j 1), (Nat.leb_spec k 1); intros Heq; [lia| | |].
  - rewrite <- (string_app_nil_r base) in Heq at 1.
    apply (inj (String.append base)) in Heq. discriminate.
  - rewrite <- (string_app_nil_r base) in Heq at 2.
    apply (inj (String.append base)) in Heq. discriminate.
  - apply (inj (String.append base)) in Heq.
    apply (inj (String.append "-")) in Heq.
    exact (inj pretty _ _ Heq).
Qed.


Section SlugLoop.
Context {A : Type} `{SlugModel A}.
Variables (table : list A) (self : A) (base : string).

(** What the loop returns: the first candidate no other row holds. *)
Lemma slug_loop_result (steps n : nat) (c : string) :
  1 ≤ n →
  slug_loop steps table self base (S n) (candidate_at base n) = Some c →
  ∃ k, n ≤ k ∧ c = candidate_at base k
       ∧ slug_taken table self c = false
       ∧ ∀ j, n ≤ j → j < k → slug_taken table self (candidate_at base j) = true.
Proof using Type.
  revert n. induction steps as [|steps IH]; intros n Hn Hloop; [discriminate|].
  cbn in Hloop.
  destruct (slug_taken table self (candidate_at base n)) eqn:Htaken.
  - assert (Hnext : base +:+ "-" +:+ pretty (S n) = candidate_at base (S n)).
    { unfold candidate_at. destruct (Nat.leb_spec (S n) 1); [lia|reflexivity]. }
    rewrite Hnext in Hloop.
    destruct (IH (S n) ltac:(lia) Hloop) as (k & Hk & -> & Hfree & Hbefore).
    exists k. repeat split; [lia|exact Hfree|].
    intros j Hj Hjk. destruct (decide (j = n)) as [->|Hne]; [exact Htaken|].
    apply Hbefore; lia.
  - inversion Hloop; subst c. exists n. repeat split; [lia|exact Htaken|].
    intros j Hj Hjn. lia.
Qed.

(** The loop ends: among more candidates than there are rows, one is free. *)
Lemma slug_loop_ends (steps n : nat) (held : list string) :
  1 ≤ n →
  (∀ j, n ≤ j → slug_taken table self (candidate_at base j) = true →
        In (candidate_at base j) held) →
  length held < steps →
  ∃ c, slug_loop steps table self base (S n) (candidate_at base n) = Some c.
Proof using Type.
  revert n held. induction steps as [|steps IH]; intros n held Hn Hheld Hlen;
    [lia|].
  cbn. destruct (slug_taken table self (candidate_at base n)) eqn:Htaken;
    [|eauto].
  assert (Hnext : base +:+ "-" +:+ pretty (S n) = candidate_at base (S n)).
  { unfold candidate_at. destruct (Nat.leb_spec (S n) 1); [lia|reflexivity]. }
  rewrite Hnext.
  assert (Hin : In (candidate_at base n) held) by (apply Hheld; [lia|exact Htaken]).
  apply (IH (S n) (List.remove String.string_dec (candidate_at base n) held));
    [lia| |].
  - intros j Hj Hjt. apply in_in_remove.
    + intros Heq. apply candidate_at_inj in Heq; lia.
    + apply Hheld; [lia|exact Hjt].
  - pose proof (remove_length_lt String.string_dec held _ Hin). lia.
Qed.

Lemma slug_taken_held (candidate : string) :
  slug_taken table self candidate = true → In candidate (map get_slug table).
Proof using Type.
  unfold slug_taken. intros Ht. apply existsb_exists in Ht as (r & Hr & Hc).
  apply andb_prop in Hc as [Hc _]. apply String.eqb_eq in Hc. subst candidate.
  apply in_map, Hr.
Qed.

(** With one step more than the table has rows the loop returns. *)
Lemma slug_loop_returns :
  ∃ c, slug_loop (S (length table)) table self base 2 base = Some c.
Proof using Type.
  apply (slug_loop_ends (S (length table)) 1 (map get_slug table));
    [lia| |rewrite length_map; lia].
  intros j _. apply slug_taken_held.
Qed.

End SlugLoop.

(** ** The slug is lowercase and URL-safe *)







(** ** What SlugMixin.save assigns *)

Section SlugSave.
Context {A : Type} `{SlugModel A}.

Lemma slug_taken_set_slug (table : list A) (self : A) (s c : string) :
  slug_taken table (set_slug s self) c = slug_taken table self c.
Proof.
  unfold slug_taken, own_row. rewrite pk_set_slug. reflexivity.
Qed.

Lemma Model_save_ok (now : time) (db : DB) (self self' : A)
    (table table' : list A) :
  Model_save now db self table = Ok (self', table') →
  get_slug self' = get_slug self ∧ In self' table'
  ∧ slug_taken table self (get_slug self) = false
  ∧ parent_stored db self = true
  ∧ (get_pk self = None →
     self' = set_pk (next_pk get_pk table) (set_updated_at now self)
     ∧ table' = table ++ [self']).
Proof.
  unfold Model_save. intros Hsave.
  destruct (slug_taken table self (get_slug self)); [discriminate|].
  destruct (parent_stored db self); [|discriminate]. cbn [negb] in Hsave.
  cbv zeta in Hsave. rewrite pk_set_updated_at in Hsave.
  destruct (get_pk self) as [k|] eqn:Hk.
  - destruct (existsb (λ r, pk_is (get_pk r) k) table) eqn:Hex;
      inversion Hsave; subst self' table'; clear Hsave.
    + split; [apply slug_set_updated_at|].
      split; [|split; [reflexivity|split; [reflexivity|discriminate]]].
      apply existsb_exists in Hex as (r & Hin & Hr).
      apply in_map_iff. exists r. rewrite Hr. auto.
    + split; [apply slug_set_updated_at|].
      split; [|split; [reflexivity|split; [reflexivity|discriminate]]].
      apply in_app_iff. right. left. reflexivity.
  - inversion Hsave; subst self' table'; clear Hsave.
    split; [rewrite slug_set_pk; apply slug_set_updated_at|].
    split; [apply in_app_iff; right; left; reflexivity|].
    split; [reflexivity|]. split; [reflexivity|].
    intros _. split; reflexivity.
Qed.

Lemma Model_save_free (now : time) (db : DB) (self : A) (table : list A) :
  slug_taken table self (get_slug self) = false →
  parent_stored db self = true →
  ∃ self' table', Model_save now db self table = Ok (self', table').
Proof.
  unfold Model_save. intros -> ->. cbn [negb]. cbv zeta.
  destruct (get_pk (set_updated_at now self)) as [k|];
    [destruct (existsb (λ r, pk_is (get_pk r) k) table)|]; eauto.
Qed.


Lemma SlugMixin_save_unfold (now : time) (db : DB) (self : A) (table : list A) :
  get_slug self = "" → slug_source self ≠ "" →
  SlugMixin_save now db self table
  = match slug_loop (S (length table)) table self
            (String.substring 0 200 (slugify (slug_source self))) 2
            (String.substring 0 200 (slugify (slug_source self))) with
    | Some candidate => Model_save now db (set_slug candidate self) table
    | None => Err OutOfSteps
    end.
Proof.
  intros Hslug Hsource.
  assert (Hne : String.eqb (slug_source self) "" = false)
    by (apply String.eqb_neq; exact Hsource).
  unfold SlugMixin_save. rewrite Hslug, Hne. reflexivity.
Qed.

(** The slug the loop settles on, for a named instance without one. *)
Lemma SlugMixin_save_candidate (self : A) (table : list A) :
  let base := String.substring 0 200 (slugify (slug_source self)) in
  ∃ k, 1 ≤ k
       ∧ slug_loop (S (length table)) table self base 2 base
         = Some (candidate_at base k)
       ∧ slug_taken table self (candidate_at base k) = false
       ∧ ∀ j, 1 ≤ j → j < k → slug_taken table self (candidate_at base j) = true.
Proof.
  intros base.
  destruct (slug_loop_returns table self base) as [c Hloop].
  destruct (slug_loop_result table self base _ 1 c ltac:(lia) Hloop)
    as (k & Hk & -> & Hfree & Hbefore).
  exists k. auto.
Qed.

(** The first save of a named instance whose parent is stored. *)
Lemma SlugMixin_save_assigns (now : time) (db : DB) (self : A)
    (table : list A) :
  get_slug self = "" → slug_source self ≠ "" → parent_stored db self = true →
  let base := String.substring 0 200 (slugify (slug_source self)) in
  ∃ k self' table',
    1 ≤ k
    ∧ SlugMixin_save now db self table = Ok (self', table')
    ∧ In self' table'
    ∧ get_slug self' = candidate_at base k
    ∧ slug_taken table self (candidate_at base k) = false
    ∧ (∀ j, 1 ≤ j → j < k → slug_taken table self (candidate_at base j) = true)
    ∧ (get_pk self = None →
       self' = set_pk (next_pk get_pk table)
                 (set_updated_at now (set_slug (candidate_at base k) self))
       ∧ table' = table ++ [self']).
Proof.
  intros Hslug Hsource Hparent base.
  rewrite (SlugMixin_save_unfold now db self table Hslug Hsource). fold base.
  destruct (SlugMixin_save_candidate self table) as (k & Hk & Hloop & Hfree & Hbefore).
  fold base in Hloop, Hfree, Hbefore. rewrite Hloop.
  destruct (Model_save_free now db (set_slug (candidate_at base k) self) table)
    as (self' & table' & Hsave).
  { rewrite get_set_slug, slug_taken_set_slug. exact Hfree. }
  { rewrite parent_set_slug. exact Hparent. }
  exists k, self', table'.
  destruct (Model_save_ok _ _ _ _ _ _ Hsave) as (Hs & Hin & _ & _ & Hnew).
  rewrite get_set_slug in Hs. rewrite pk_set_slug in Hnew.
  auto 10.
Qed.



End SlugSave.

Section SameName.
Context {A : Type} `{SlugModel A}.
Variables (t1 t2 : time) (db : DB) (table : list A) (e1 e2 : A).
Hypothesis new1 : get_pk e1 = None.
Hypothesis new2 : get_pk e2 = None.
Hypothesis blank1 : get_slug e1 = "".
Hypothesis blank2 : get_slug e2 = "".
Hypothesis named : slug_source e1 ≠ "".
Hypothesis same_name : slug_source e2 = slug_source e1.
Hypothesis parent1 : parent_stored db e1 = true.
Hypothesis parent2 : parent_stored db e2 = true.

Let base := String.substring 0 200 (slugify (slug_source e1)).

Hypothesis base_free : slug_taken table e1 base = false.
Hypothesis base2_free : slug_taken table e1 (base +:+ "-2") = false.



End SameName.





(** Two tags without a name: the first is stored with an empty slug, the
    second violates the UNIQUE constraint of the slug column. *)
Example empty_slug_twice :
  ∃ first table',
    SlugMixin_save 30 sample_db (mkTag None "" "" 0 0 0) [] = Ok (first, table')
    ∧ get_slug first = ""
    ∧ SlugMixin_save 31 sample_db (mkTag None "" "" 1 0 0) table'
      = Err IntegrityError.
Proof. eexists _, _. repeat split. Qed.

Example two_tags_named_python :
  ∃ first table' second table'',
    SlugMixin_save 30 sample_db (mkTag None "Python" "" 0 0 0) []
    = Ok (first, table')
    ∧ SlugMixin_save 31 sample_db (mkTag None "Python" "" 0 0 0) table'
      = Ok (second, table'')
    ∧ get_slug first = "python" ∧ get_slug second = "python-2".
Proof. eexists _, _, _, _. repeat split. Qed.

(** A module for a course that is not stored is refused, whatever its
    name. *)
Example module_of_missing_course :
  SlugMixin_save 30 sample_db (mkModule None 999 "Intro" "" "" 0 0 0)
    (modules sample_db)
  = Err IntegrityError.
Proof. reflexivity. Qed.



(** ** Default ordering

    *** Which [Meta] a model class gets (core/mixins.py, core/models.py,
    lookups/models.py)

    Every mixin declares an inner [Meta]; only [OrderedMixin.Meta] names an
    ordering.  A model that declares its own [Meta] names the [Meta] it
    extends; a model that declares none gets, by attribute lookup along its
    bases, the [Meta] of the first base listed. *)

Inductive mixin : Type := TimestampMixin | OrderedMixin | NamedMixin | SlugMixin.

Definition mixin_Meta_ordering (m : mixin) : option (list string) :=
  match m with
  | OrderedMixin => Some ["order"]
  | TimestampMixin | NamedMixin | SlugMixin => None
  end.

Record inner_Meta : Type := mkMeta {
  meta_extends : option mixin;          (* class Meta(OrderedMixin.Meta) *)
  meta_ordering : option (list string)  (* ordering = ... in the body *)
}.

Record model_class : Type := mkClass {
  bases : list mixin;
  own_Meta : option inner_Meta
}.

Definition all_mixins : list mixin :=
  [TimestampMixin; OrderedMixin; NamedMixin; SlugMixin].

Definition Course_class : model_class := mkClass all_mixins None.
Definition Module_class : model_class :=
  mkClass all_mixins (Some (mkMeta (Some OrderedMixin) None)).
Definition Lesson_class : model_class :=
  mkClass all_mixins (Some (mkMeta (Some OrderedMixin) None)).
Definition Tag_class : model_class := mkClass all_mixins None.
Definition Topic_class : model_class := mkClass all_mixins None.

Definition Meta_ordering (cls : model_class) : list string :=
  match own_Meta cls with
  | Some meta =>
      match meta_ordering meta with
      | Some o => o
      | None => default [] (meta_extends meta ≫= mixin_Meta_ordering)
      end
  | None =>
      match bases cls with
      | first :: _ => default [] (mixin_Meta_ordering first)
      | [] => []
      end
  end.

(** *** ORDER BY *)

Inductive direction : Type := Asc | Desc.

(** ["-created_at"] is descending [created_at]. *)
Definition parse_term (s : string) : direction * string :=
  match s with
  | String "-" column => (Desc, column)
  | _ => (Asc, s)
  end.

(** The sortable columns of a model, by name. *)
Class Columns (A : Type) : Type := sort_column : string → option (A → Z).

Global Instance Course_columns : Columns Course := λ name,
  if String.eqb name "order" then Some (λ c, Z.of_nat (c_order c))
  else if String.eqb name "created_at" then Some c_created_at
  else if String.eqb name "updated_at" then Some c_updated_at
  else None.

Global Instance CModule_columns : Columns CModule := λ name,
  if String.eqb name "order" then Some (λ m, Z.of_nat (m_order m))
  else if String.eqb name "created_at" then Some m_created_at
  else if String.eqb name "updated_at" then Some m_updated_at
  else None.

Global Instance Lesson_columns : Columns Lesson := λ name,
  if String.eqb name "order" then Some (λ l, Z.of_nat (l_order l))
  else if String.eqb name "created_at" then Some l_created_at
  else if String.eqb name "updated_at" then Some l_updated_at
  else None.

Definition sort_term (A : Type) : Type := (direction * (A → Z))%type.

Definition resolve_terms {A : Type} `{Columns A} (ordering : list string)
    : option (list (sort_term A)) :=
  mapM (λ s, let '(d, column) := parse_term s in
             key ← sort_column column; Some (d, key)) ordering.

(** [a] may come before [b]: lexicographic in the terms. *)
Fixpoint rows_leb {A : Type} (terms : list (sort_term A)) (a b : A) : bool :=
  match terms with
  | [] => true
  | (d, key) :: rest =>
      let '(x, y) := match d with
                     | Asc => (key a, key b)
                     | Desc => (key b, key a)
                     end in
      (x <? y)%Z || ((x =? y)%Z && rows_leb rest a b)
  end.

Definition rows_le {A : Type} (terms : list (sort_term A)) : relation A :=
  λ a b, rows_leb terms a b = true.

(** The result sets a store may answer for [SELECT ... ORDER BY terms]:
    the rows in any arrangement that respects the terms.  Rows that agree
    on every term may come in either order. *)
Definition is_listing {A : Type} (terms : list (sort_term A))
    (rows out : list A) : Prop :=
  out ≡ₚ rows ∧ Sorted (rows_le terms) out.

Global Instance rows_le_dec {A : Type} (terms : list (sort_term A)) (a b : A) :
  Decision (rows_le terms a b).
Proof. unfold rows_le. apply _. Defined.

Global Instance rows_le_total {A : Type} (terms : list (sort_term A)) :
  Total (rows_le terms).
Proof.
  unfold rows_le. intros a b.
  induction terms as [|[d key] rest IH]; cbn; [auto|].
  destruct d, IH as [IH|IH]; rewrite ?IH; lia.
Qed.

Global Instance rows_le_trans {A : Type} (terms : list (sort_term A)) :
  Transitive (rows_le terms).
Proof.
  unfold rows_le. intros a b c.
  induction terms as [|[d key] rest IH]; cbn; [auto|].
  destruct d; intros Hab Hbc;
    apply orb_true_iff in Hab as [Hab|Hab], Hbc as [Hbc|Hbc];
    rewrite ?andb_true_iff in *;
    try (apply orb_true_iff; left; lia).
  all: destruct Hab as [Hab Hab'], Hbc as [Hbc Hbc'];
    apply orb_true_iff; right; apply andb_true_iff; split; [lia|auto].
Qed.

(** One listing, for the operations that need to produce one. *)
Definition order_by {A : Type} (terms : list (sort_term A)) (rows : list A)
    : list A :=
  merge_sort (rows_le terms) rows.

Lemma order_by_listing {A : Type} (terms : list (sort_term A)) (rows : list A) :
  is_listing terms rows (order_by terms rows).
Proof.
  split; [apply merge_sort_Permutation|apply Sorted_merge_sort, _].
Qed.

(** *** The views' default ordering (core/views.py)

    [ordering] of a view set is read by the OrderingFilter backend, which
    the settings module enables or not; without it a listing follows the
    model's [Meta]. *)

Record view_set : Type := mkViewSet {
  view_model : model_class;
  view_ordering : option (list string)
}.

Definition CourseViewSet : view_set := mkViewSet Course_class (Some ["-created_at"]).
Definition ModuleViewSet : view_set := mkViewSet Module_class (Some ["order"]).
Definition LessonViewSet : view_set := mkViewSet Lesson_class (Some ["order"]).

Definition default_ordering (ordering_filter : bool) (view : view_set)
    : list string :=
  match ordering_filter, view_ordering view with
  | true, Some o => o
  | _, _ => Meta_ordering (view_model view)
  end.

Definition default_listing {A : Type} `{Columns A} (ordering_filter : bool)
    (view : view_set) (rows out : list A) : Prop :=
  ∃ terms, resolve_terms (default_ordering ordering_filter view) = Some terms
           ∧ is_listing terms rows out.

(** Every earlier row is related to every later one. *)
Definition in_order {A : Type} (R : relation A) (out : list A) : Prop :=
  ∀ i j a b, i < j → out !! i = Some a → out !! j = Some b → R a b.

Lemma StronglySorted_in_order {A : Type} (R : relation A) (out : list A) :
  StronglySorted R out → in_order R out.
Proof.
  induction 1 as [|x out _ IH Hx]; intros i j a b Hij Hi Hj.
  - rewrite lookup_nil in Hi. discriminate.
  - destruct j as [|j]; [lia|]. cbn in Hj.
    destruct i as [|i]; cbn in Hi.
    + inversion Hi; subst a.
      rewrite Forall_forall in Hx. apply Hx.
      eapply list_elem_of_lookup_2, Hj.
    + apply (IH i j); [lia|assumption|assumption].
Qed.

Lemma in_order_Sorted {A : Type} (R : relation A) (out : list A) :
  in_order R out → Sorted R out.
Proof.
  induction out as [|x out IH]; intros Hord; constructor.
  - apply IH. intros i j a b Hij Hi Hj.
    apply (Hord (S i) (S j)); [lia|exact Hi|exact Hj].
  - destruct out as [|y out]; constructor.
    apply (Hord 0 1); [lia|reflexivity|reflexivity].
Qed.

Lemma Sorted_in_order {A : Type} (R : relation A) `{!Transitive R}
    (out : list A) :
  Sorted R out ↔ in_order R out.
Proof.
  split; [|apply in_order_Sorted].
  intros Hs. apply StronglySorted_in_order, Sorted_StronglySorted; assumption.
Qed.

Lemma in_order_iff {A : Type} (R S : relation A) (out : list A) :
  (∀ a b, R a b ↔ S a b) → in_order R out ↔ in_order S out.
Proof.
  intros HRS. unfold in_order. split; intros Hord i j a b Hij Hi Hj;
    apply HRS; eapply Hord; eassumption.
Qed.

(** A listing by one ascending (descending) term is the rows in
    non-decreasing (non-increasing) order of that key. *)
Lemma is_listing_asc {A : Type} (key : A → Z) (rows out : list A) :
  is_listing [(Asc, key)] rows out
  ↔ out ≡ₚ rows ∧ in_order (λ a b, (key a ≤ key b)%Z) out.
Proof.
  unfold is_listing. rewrite Sorted_in_order by apply _.
  rewrite (in_order_iff _ (λ a b, (key a ≤ key b)%Z)); [reflexivity|].
  intros a b. unfold rows_le. cbn. lia.
Qed.

Lemma is_listing_desc {A : Type} (key : A → Z) (rows out : list A) :
  is_listing [(Desc, key)] rows out
  ↔ out ≡ₚ rows ∧ in_order (λ a b, (key b ≤ key a)%Z) out.
Proof.
  unfold is_listing. rewrite Sorted_in_order by apply _.
  rewrite (in_order_iff _ (λ a b, (key b ≤ key a)%Z)); [reflexivity|].
  intros a b. unfold rows_le. cbn. lia.
Qed.

Lemma Module_default_ordering (ordering_filter : bool) :
  default_ordering ordering_filter ModuleViewSet = ["order"].
Proof. destruct ordering_filter; reflexivity. Qed.

Lemma Lesson_default_ordering (ordering_filter : bool) :
  default_ordering ordering_filter LessonViewSet = ["order"].
Proof. destruct ordering_filter; reflexivity. Qed.

(** Course, Tag and Topic declare no [Meta] of their own, so they get
    [TimestampMixin.Meta], which names no ordering. *)
Example Meta_ordering_by_class :
  Meta_ordering Module_class = ["order"]
  ∧ Meta_ordering Lesson_class = ["order"]
  ∧ Meta_ordering Course_class = []
  ∧ Meta_ordering Tag_class = []
  ∧ Meta_ordering Topic_class = [].
Proof. repeat split. Qed.

Lemma Module_default_listing (ordering_filter : bool) (rows out : list CModule) :
  default_listing ordering_filter ModuleViewSet rows out
  ↔ out ≡ₚ rows ∧ in_order (λ a b, m_order a ≤ m_order b) out.
Proof.
  unfold default_listing. rewrite Module_default_ordering.
  rewrite (in_order_iff _ (λ a b, (Z.of_nat (m_order a) ≤ Z.of_nat (m_order b))%Z))
    by (intros a b; lia).
  rewrite <- is_listing_asc. split.
  - intros (terms & Hterms & Hl). cbn in Hterms. inversion Hterms; subst terms.
    exact Hl.
  - intros Hl. eexists. split; [reflexivity|exact Hl].
Qed.

Lemma Lesson_default_listing (ordering_filter : bool) (rows out : list Lesson) :
  default_listing ordering_filter LessonViewSet rows out
  ↔ out ≡ₚ rows ∧ in_order (λ a b, l_order a ≤ l_order b) out.
Proof.
  unfold default_listing. rewrite Lesson_default_ordering.
  rewrite (in_order_iff _ (λ a b, (Z.of_nat (l_order a) ≤ Z.of_nat (l_order b))%Z))
    by (intros a b; lia).
  rewrite <- is_listing_asc. split.
  - intros (terms & Hterms & Hl). cbn in Hterms. inversion Hterms; subst terms.
    exact Hl.
  - intros Hl. eexists. split; [reflexivity|exact Hl].
Qed.

Lemma Course_default_listing (rows out : list Course) :
  default_listing true CourseViewSet rows out
  ↔ out ≡ₚ rows ∧ in_order (λ a b, (c_created_at b ≤ c_created_at a)%Z) out.
Proof.
  unfold default_listing. rewrite <- is_listing_desc. split.
  - intros (terms & Hterms & Hl). cbn in Hterms. inversion Hterms; subst terms.
    exact Hl.
  - intros Hl. eexists. split; [reflexivity|exact Hl].
Qed.

(** Without the ordering filter the view's [ordering] is not read and
    [Course] has no [Meta.ordering]: the query has no ORDER BY. *)
Lemma Course_unordered_listing (rows out : list Course) :
  default_listing false CourseViewSet rows out ↔ out ≡ₚ rows.
Proof.
  unfold default_listing. split.
  - intros (terms & _ & Hperm & _). exact Hperm.
  - intros Hperm. exists []. split; [reflexivity|]. split; [exact Hperm|].
    apply in_order_Sorted. intros i j a b _ _ _. reflexivity.
Qed.

(** C9, as stated, fails for Course: whether or not the ordering filter
    is enabled, the store may answer the default listing of the two sample
    courses with course 2 (order 1) before course 1 (order 0); with the
    filter enabled it must. *)
Lemma course_listing_counterexample :
  default_listing true CourseViewSet [course1; course2] [course2; course1]
  ∧ default_listing false CourseViewSet [course1; course2] [course2; course1]
  ∧ ¬ default_listing true CourseViewSet [course1; course2] [course1; course2]
  ∧ ¬ in_order (λ a b, c_order a ≤ c_order b) [course2; course1].
Proof.
  split; [|split; [|split]].
  - apply Course_default_listing. split; [apply Permutation_swap|].
    apply StronglySorted_in_order.
    repeat constructor. cbn. lia.
  - exists []. split; [reflexivity|]. split; [apply Permutation_swap|].
    repeat constructor.
  - intros Hl. apply Course_default_listing in Hl as [_ Hord].
    specialize (Hord 0 1 course1 course2 ltac:(lia) eq_refl eq_refl).
    cbn in Hord. lia.
  - intros Hord.
    specialize (Hord 0 1 course2 course1 ltac:(lia) eq_refl eq_refl).
    cbn in Hord. lia.
Qed.

(** C9 (amended).  Whatever the filter settings, the default listing of
    modules and of lessons is the rows in ascending order of their order
    key, and such a listing always exists; two rows with the same order key
    may come in either order, since no secondary key is named.  The default
    listing of courses through their view is by descending [created_at]
    when the OrderingFilter backend is enabled, and in no particular order
    when it is not (every arrangement of the rows is a listing): in
    neither case is it by the order key. *)
Theorem default_listing_order (ordering_filter : bool) :
  (∀ rows out : list CModule,
     default_listing ordering_filter ModuleViewSet rows out
     ↔ out ≡ₚ rows ∧ in_order (λ a b, m_order a ≤ m_order b) out)
  ∧ (∀ rows : list CModule,
       ∃ out, default_listing ordering_filter ModuleViewSet rows out)
  ∧ (∀ rows out : list Lesson,
       default_listing ordering_filter LessonViewSet rows out
       ↔ out ≡ₚ rows ∧ in_order (λ a b, l_order a ≤ l_order b) out)
  ∧ (∀ rows : list Lesson,
       ∃ out, default_listing ordering_filter LessonViewSet rows out)
  ∧ (∀ a b : CModule, m_order a = m_order b →
       default_listing ordering_filter ModuleViewSet [a; b] [a; b]
       ∧ default_listing ordering_filter ModuleViewSet [a; b] [b; a])
  ∧ (∀ rows out : list Course,
       default_listing true CourseViewSet rows out
       ↔ out ≡ₚ rows
         ∧ in_order (λ a b, (c_created_at b ≤ c_created_at a)%Z) out)
  ∧ (∀ rows out : list Course,
       default_listing false CourseViewSet rows out ↔ out ≡ₚ rows).
Proof.
  split; [apply Module_default_listing|].
  split.
  { intros rows. exists (order_by [(Asc, λ m, Z.of_nat (m_order m))] rows).
    unfold default_listing. rewrite Module_default_ordering.
    eexists. split; [reflexivity|apply order_by_listing]. }
  split; [apply Lesson_default_listing|].
  split.
  { intros rows. exists (order_by [(Asc, λ l, Z.of_nat (l_order l))] rows).
    unfold default_listing. rewrite Lesson_default_ordering.
    eexists. split; [reflexivity|apply order_by_listing]. }
  split; [|split; [apply Course_default_listing|apply Course_unordered_listing]].
  intros a b Hab. split; apply Module_default_listing.
  - split; [reflexivity|]. apply StronglySorted_in_order.
    repeat constructor. lia.
  - split; [apply Permutation_swap|]. apply StronglySorted_in_order.
    repeat constructor. lia.
Qed.

(** The listing [order_by] picks for the sample modules; modules 10 and 20
    share order key 0 and either could come first. *)
Example sample_module_listing :
  order_by [(Asc, λ m, Z.of_nat (m_order m))] (modules sample_db)
  = [mkModule (Some 20) 2 "Intro" "intro-2" "" 0 0 0;
     mkModule (Some 10) 1 "Intro" "intro" "" 0 0 0;
     mkModule (Some 11) 1 "Models" "models" "" 1 0 0].
Proof. vm_compute. reflexivity. Qed.

(** ** core/serializers.py

    Serializer output as JSON values; an object keeps its keys in the
    order the serializer declares its fields. *)

Inductive json : Type :=
| JNull
| JBool (b : bool)
| JInt (z : Z)
| JFloat (x : float)
| JStr (s : string)
| JList (items : list json)
| JObj (members : list (string * json)).

Definition json_pk (o : option pk_t) : json :=
  match o with
  | Some k => JInt (Z.of_nat k)
  | None => JNull
  end.

Definition keys (members : list (string * json)) : list string :=
  map fst members.

(** The modules of a course in their default order, as
    [course.modules.all()] gives them. *)
Definition Course_modules (db : DB) (course : Course) : list CModule :=
  order_by [(Asc, λ m, Z.of_nat (m_order m))]
    (List.filter (λ m, fk_refers (m_course_id m) (c_pk course)) (modules db)).

(** *** CourseDynamicSerializer *)

Definition CourseDynamicSerializer_Meta_fields : list string :=
  ["id"; "name"; "slug"; "description"; "modules"].

(** [self.fields.pop(field)] *)
Definition pop (field : string) (fields : list string) : list string :=
  List.filter (λ f, negb (String.eqb f field)) fields.

(** [__init__]: [fields] is the keyword argument, [None] when it is not
    passed; the result is [self.fields].  An empty collection is falsy. *)
Definition CourseDynamicSerializer_init (fields : option (list string))
    : list string :=
  let self_fields := CourseDynamicSerializer_Meta_fields in
  match fields with
  | Some (first :: rest) =>
      let allowed : gset string := list_to_set (first :: rest) in
      let existing : gset string := list_to_set self_fields in
      foldl (λ remaining field, pop field remaining) self_fields
        (elements (existing ∖ allowed))
  | Some [] | None => self_fields
  end.

(** The value of a declared field; [modules] is a list of primary keys. *)
Definition CourseDynamicSerializer_field (db : DB) (course : Course)
    (field : string) : option json :=
  if String.eqb field "id" then Some (json_pk (c_pk course))
  else if String.eqb field "name" then Some (JStr (c_name course))
  else if String.eqb field "slug" then Some (JStr (c_slug course))
  else if String.eqb field "description" then Some (JStr (c_description course))
  else if String.eqb field "modules"
       then Some (JList (map (λ m, json_pk (m_pk m)) (Course_modules db course)))
  else None.

Definition CourseDynamicSerializer_data (fields : option (list string))
    (db : DB) (course : Course) : option (list (string * json)) :=
  mapM (λ f, v ← CourseDynamicSerializer_field db course f; Some (f, v))
    (CourseDynamicSerializer_init fields).

Example dynamic_name_slug :
  CourseDynamicSerializer_data (Some ["name"; "slug"]) sample_db course1
  = Some [("name", JStr "Django"); ("slug", JStr "django")].
Proof. vm_compute. reflexivity. Qed.

Example dynamic_outside_allow_list :
  CourseDynamicSerializer_data (Some ["slug"; "created_at"; "name"]) sample_db
    course1
  = Some [("name", JStr "Django"); ("slug", JStr "django")].
Proof. vm_compute. reflexivity. Qed.

Example dynamic_modules :
  CourseDynamicSerializer_data (Some ["modules"; "id"]) sample_db course1
  = Some [("id", JInt 1); ("modules", JList [JInt 10; JInt 11])].
Proof. vm_compute. reflexivity. Qed.

(** Popping a list of names, in any order, keeps the others in place. *)
Lemma foldl_pop (names fields : list string) :
  foldl (λ remaining field, pop field remaining) fields names
  = List.filter (λ f, bool_decide (f ∉ names)) fields.
Proof.
  revert fields. induction names as [|n names IH]; intros fields; cbn.
  - induction fields as [|f fields IHf]; [reflexivity|]. cbn.
    rewrite bool_decide_eq_true_2 by apply not_elem_of_nil. f_equal. exact IHf.
  - rewrite IH. unfold pop. clear IH.
    induction fields as [|f fields IHf]; [reflexivity|]. cbn.
    destruct (String.eqb_spec f n) as [->|Hne]; cbn.
    + rewrite (bool_decide_eq_false_2 (n ∉ n :: names))
        by (intros Hn; apply Hn; left).
      exact IHf.
    + destruct (decide (f ∈ names)) as [Hin|Hnin].
      * rewrite !bool_decide_eq_false_2
          by (intros Hn; apply Hn; try right; exact Hin).
        exact IHf.
      * rewrite !bool_decide_eq_true_2
          by (rewrite ?not_elem_of_cons; auto).
        f_equal. exact IHf.
Qed.

Lemma filter_ext_in_list {A : Type} (f g : A → bool) (xs : list A) :
  (∀ x, In x xs → f x = g x) → List.filter f xs = List.filter g xs.
Proof.
  induction xs as [|x xs IH]; intros Hfg; [reflexivity|]. cbn.
  rewrite (Hfg x (or_introl eq_refl)), IH; auto using in_cons.
Qed.

(** With a non-empty request, [self.fields] is the declared fields the
    request names, in declaration order. *)
Lemma CourseDynamicSerializer_init_requested (f0 : string) (fs : list string) :
  CourseDynamicSerializer_init (Some (f0 :: fs))
  = List.filter (λ f, bool_decide (f ∈ f0 :: fs))
      CourseDynamicSerializer_Meta_fields.
Proof.
  unfold CourseDynamicSerializer_init. rewrite foldl_pop.
  apply filter_ext_in_list. intros f Hf. apply list_elem_of_In in Hf.
  apply bool_decide_ext. rewrite elem_of_elements, elem_of_difference.
  rewrite !elem_of_list_to_set.
  split; [|tauto]. intros Hn.
  destruct (decide (f ∈ f0 :: fs)); [assumption|tauto].
Qed.

Lemma dynamic_field_declared (db : DB) (course : Course) (f : string) :
  f ∈ CourseDynamicSerializer_Meta_fields →
  is_Some (CourseDynamicSerializer_field db course f).
Proof.
  unfold CourseDynamicSerializer_Meta_fields. intros Hf.
  repeat (apply elem_of_cons in Hf as [->|Hf]; [eexists; reflexivity|]).
  apply elem_of_nil in Hf. destruct Hf.
Qed.

(** The output has one member per field left in [self.fields]. *)
Lemma mapM_keyed {A : Type} (value : string → option A) (fields : list string) :
  Forall (λ f, is_Some (value f)) fields →
  ∃ members, mapM (λ f, v ← value f; Some (f, v)) fields = Some members
             ∧ map fst members = fields.
Proof.
  induction 1 as [|f fields [v Hv] _ (members & Hm & Hk)]; cbn.
  - exists []. split; reflexivity.
  - exists ((f, v) :: members). rewrite Hv. cbn. rewrite Hm. cbn.
    rewrite Hk. split; reflexivity.
Qed.

Lemma init_subset (fields : option (list string)) (f : string) :
  f ∈ CourseDynamicSerializer_init fields →
  f ∈ CourseDynamicSerializer_Meta_fields.
Proof.
  destruct fields as [[|f0 fs]|]; [auto| |auto].
  rewrite CourseDynamicSerializer_init_requested.
  intros Hf. apply list_elem_of_In, filter_In in Hf as [Hf _].
  apply list_elem_of_In, Hf.
Qed.

Lemma CourseDynamicSerializer_data_keys (fields : option (list string))
    (db : DB) (course : Course) :
  ∃ members, CourseDynamicSerializer_data fields db course = Some members
             ∧ keys members = CourseDynamicSerializer_init fields.
Proof.
  apply mapM_keyed, Forall_forall. intros f Hf.
  apply dynamic_field_declared, (init_subset fields), Hf.
Qed.

(** C8.  For a non-empty request [F] the dynamic shape of a course has
    exactly the members whose names are both declared
    ([id, name, slug, description, modules]) and requested, in declaration
    order: requesting [name, slug] gives those two, a requested name that
    is not declared ([created_at]) is simply absent, and whatever is
    requested no undeclared name appears. *)
Theorem dynamic_fields_intersection (F : list string) (db : DB) (course : Course) :
  F ≠ [] →
  ∃ members,
    CourseDynamicSerializer_data (Some F) db course = Some members
    ∧ keys members
      = List.filter (λ f, bool_decide (f ∈ F)) CourseDynamicSerializer_Meta_fields
    ∧ (∀ f, f ∈ keys members ↔ f ∈ CourseDynamicSerializer_Meta_fields ∧ f ∈ F)
    ∧ (F ≡ₚ ["name"; "slug"] → keys members = ["name"; "slug"])
    ∧ (F ≡ₚ ["name"; "slug"; "created_at"] → keys members = ["name"; "slug"])
    ∧ ∀ requested members',
        CourseDynamicSerializer_data requested db course = Some members' →
        ∀ f, f ∈ keys members' → f ∈ CourseDynamicSerializer_Meta_fields.
Proof.
  intros HF. destruct F as [|f0 fs]; [contradiction|].
  destruct (CourseDynamicSerializer_data_keys (Some (f0 :: fs)) db course)
    as (members & Hdata & Hkeys).
  rewrite CourseDynamicSerializer_init_requested in Hkeys.
  exists members. split; [exact Hdata|]. split; [exact Hkeys|].
  split.
  { intros f. rewrite Hkeys. rewrite list_elem_of_In, filter_In.
    rewrite <- list_elem_of_In, bool_decide_eq_true. reflexivity. }
  split.
  { intros HP. rewrite Hkeys.
    rewrite (filter_ext_in_list _ (λ f, bool_decide (f ∈ ["name"; "slug"])))
      by (intros f _; apply bool_decide_ext; rewrite HP; reflexivity).
    reflexivity. }
  split.
  { intros HP. rewrite Hkeys.
    rewrite (filter_ext_in_list _
               (λ f, bool_decide (f ∈ ["name"; "slug"; "created_at"])))
      by (intros f _; apply bool_decide_ext; rewrite HP; reflexivity).
    reflexivity. }
  intros requested members' Hdata' f Hf.
  destruct (CourseDynamicSerializer_data_keys requested db course)
    as (members'' & Hdata'' & Hkeys'').
  rewrite Hdata' in Hdata''. inversion Hdata''; subst members''.
  rewrite Hkeys'' in Hf. exact (init_subset requested f Hf).
Qed.

Lemma dynamic_fields_intersection_witness :
  ["slug"; "created_at"; "name"] ≠ []
  ∧ ∃ members,
      CourseDynamicSerializer_data (Some ["slug"; "created_at"; "name"])
        sample_db course1 = Some members
      ∧ keys members = ["name"; "slug"].
Proof.
  split; [discriminate|].
  destruct (dynamic_fields_intersection ["slug"; "created_at"; "name"]
              sample_db course1 ltac:(discriminate))
    as (members & Hdata & Hkeys & _).
  exists members. split; [exact Hdata|exact Hkeys].
Defined.

(** C10.  An empty request is falsy: nothing is removed, and the output
    has the full default field set, as when no request is passed. *)
Theorem dynamic_fields_empty_request (db : DB) (course : Course) :
  CourseDynamicSerializer_init (Some []) = CourseDynamicSerializer_Meta_fields
  ∧ CourseDynamicSerializer_data (Some []) db course
    = CourseDynamicSerializer_data None db course
  ∧ ∃ members,
      CourseDynamicSerializer_data (Some []) db course = Some members
      ∧ keys members = ["id"; "name"; "slug"; "description"; "modules"].
Proof.
  split; [reflexivity|]. split; [reflexivity|].
  exact (CourseDynamicSerializer_data_keys (Some []) db course).
Qed.

Example dynamic_empty_request :
  CourseDynamicSerializer_data (Some []) sample_db course1
  = Some [("id", JInt 1); ("name", JStr "Django"); ("slug", JStr "django");
          ("description", JStr ""); ("modules", JList [JInt 10; JInt 11])].
Proof. vm_compute. reflexivity. Qed.

(** *** Deferred loading: [Lesson.objects.only(...)]

    An instance fetched with [only] holds the named columns (and always
    the primary key); reading any other attribute fetches that column from
    the row with the same primary key. *)

Definition Lesson_column (name : string) (l : Lesson) : option json :=
  if String.eqb name "id" then Some (json_pk (l_pk l))
  else if String.eqb name "module_id" then Some (JInt (Z.of_nat (l_module_id l)))
  else if String.eqb name "name" then Some (JStr (l_name l))
  else if String.eqb name "slug" then Some (JStr (l_slug l))
  else if String.eqb name "content" then Some (JStr (l_content l))
  else if String.eqb name "duration_seconds"
       then Some (JInt (Z.of_nat (l_duration_seconds l)))
  else if String.eqb name "order" then Some (JInt (Z.of_nat (l_order l)))
  else if String.eqb name "created_at" then Some (JInt (l_created_at l))
  else if String.eqb name "updated_at" then Some (JInt (l_updated_at l))
  else None.

Record LessonInstance : Type := mkLessonInstance {
  li_pk : option pk_t;
  li_loaded : list (string * json)
}.

Definition only (names : list string) (l : Lesson) : LessonInstance :=
  mkLessonInstance (l_pk l)
    (omap (λ name, v ← Lesson_column name l; Some (name, v)) names).

Definition assoc (name : string) (members : list (string * json)) : option json :=
  snd <$> List.find (λ kv, String.eqb (fst kv) name) members.

Definition Lesson_getattr (db : DB) (instance : LessonInstance) (name : string)
    : result json :=
  match assoc name (li_loaded instance) with
  | Some v => Ok v
  | None =>
      match li_pk instance with
      | None => Err DoesNotExist
      | Some k =>
          match List.find (λ l, pk_is (l_pk l) k) (lessons db) with
          | None => Err DoesNotExist
          | Some row =>
              match Lesson_column name row with
              | Some v => Ok v
              | None => Err AttributeError
              end
          end
      end
  end.

(** *** LessonSerializer, ModuleSerializer, UserSerializer *)

Definition LessonSerializer_Meta_fields : list string :=
  ["id"; "name"; "slug"; "content"; "duration_seconds"; "order";
   "created_at"; "updated_at"].

Definition LessonSerializer_data (db : DB) (instance : LessonInstance)
    : result json :=
  members ← mapM (λ name, v ← Lesson_getattr db instance name; mret (name, v))
               LessonSerializer_Meta_fields;
  mret (JObj members).

Record PrefetchedModule : Type := mkPrefetchedModule {
  pm_module : CModule;
  pm_lessons : list LessonInstance
}.

(** fields = id, name, slug, description, order, lessons, created_at,
    updated_at *)
Definition ModuleSerializer_data (db : DB) (pm : PrefetchedModule) : result json :=
  let m := pm_module pm in
  lessons_data ← mapM (LessonSerializer_data db) (pm_lessons pm);
  mret (JObj [("id", json_pk (m_pk m));
              ("name", JStr (m_name m));
              ("slug", JStr (m_slug m));
              ("description", JStr (m_description m));
              ("order", JInt (Z.of_nat (m_order m)));
              ("lessons", JList lessons_data);
              ("created_at", JInt (m_created_at m));
              ("updated_at", JInt (m_updated_at m))]).

(** The rows of [django.contrib.auth]'s user table that the serializers
    read. *)
Record User : Type := mkUser {
  u_pk : pk_t;
  u_username : string;
  u_email : string;
  u_first_name : string;
  u_last_name : string
}.

Definition UserSerializer_data (u : User) : json :=
  JObj [("id", JInt (Z.of_nat (u_pk u)));
        ("username", JStr (u_username u));
        ("email", JStr (u_email u));
        ("first_name", JStr (u_first_name u));
        ("last_name", JStr (u_last_name u))].

(** *** CourseViewSet.queryset and CourseSerializer *)

Record PrefetchedCourse : Type := mkPrefetchedCourse {
  pc_course : Course;
  pc_topics : list pk_t;
  pc_tags : list pk_t;
  pc_instructors : list User;
  pc_modules : list PrefetchedModule
}.

Definition linked (course : Course) (links : list (pk_t * pk_t)) : list pk_t :=
  map snd (List.filter (λ link, fk_refers (fst link) (c_pk course)) links).

(** [prefetch_related("topics", "tags", "instructors",
    Prefetch("modules__lessons",
             queryset=Lesson.objects.only("id", "name", "slug", "order")))] *)
Definition Module_lessons (db : DB) (m : CModule) : list Lesson :=
  order_by [(Asc, λ l, Z.of_nat (l_order l))]
    (List.filter (λ l, pk_is (m_pk m) (l_module_id l)) (lessons db)).

Definition prefetch_lessons (db : DB) (m : CModule) : list LessonInstance :=
  map (only ["id"; "name"; "slug"; "order"]) (Module_lessons db m).

Definition CourseViewSet_prefetch (db : DB) (users : list User) (course : Course)
    : PrefetchedCourse :=
  mkPrefetchedCourse course
    (linked course (course_topics db))
    (linked course (course_tags db))
    (List.filter (λ u, bool_decide (u_pk u ∈ linked course (course_instructors db)))
       users)
    (map (λ m, mkPrefetchedModule m (prefetch_lessons db m))
       (Course_modules db course)).

(** [get_completion_rate]: the caller's percentage, [None] when the
    request carries no authenticated user. *)
Definition get_completion_rate (db : DB) (request : Request) (obj : Course)
    : json :=
  match request_user request with
  | Some user => JFloat (completion_for db obj user)
  | None => JNull
  end.

Definition CourseSerializer_data (db : DB) (request : Request)
    (pc : PrefetchedCourse) : result json :=
  let c := pc_course pc in
  modules_data ← mapM (ModuleSerializer_data db) (pc_modules pc);
  mret (JObj [("id", json_pk (c_pk c));
              ("name", JStr (c_name c));
              ("slug", JStr (c_slug c));
              ("description", JStr (c_description c));
              ("is_published", JBool (c_is_published c));
              ("tags", JList (map (λ k, JInt (Z.of_nat k)) (pc_tags pc)));
              ("topics", JList (map (λ k, JInt (Z.of_nat k)) (pc_topics pc)));
              ("instructors", JList (map UserSerializer_data (pc_instructors pc)));
              ("modules", JList modules_data);
              ("total_lessons", JInt (Z.of_nat (total_lessons db c)));
              ("completion_rate", get_completion_rate db request c);
              ("created_at", JInt (c_created_at c));
              ("updated_at", JInt (c_updated_at c))]).

(** GET /courses/{pk} *)
Definition CourseViewSet_retrieve (request : Request) (pk : pk_t) (db : DB)
    (users : list User) : result json :=
  course ← get_object_or_404 c_pk (courses db) pk;
  CourseSerializer_data db request (CourseViewSet_prefetch db users course).

(** The lesson objects nested in a course object. *)
Definition items (j : json) : list json :=
  match j with
  | JList l => l
  | _ => []
  end.

Definition member (name : string) (j : json) : json :=
  match j with
  | JObj members => default JNull (assoc name members)
  | _ => JNull
  end.

Definition nested_lessons (course : json) : list json :=
  flat_map (λ m, items (member "lessons" m)) (items (member "modules" course)).

Definition object_keys (j : json) : list string :=
  match j with
  | JObj members => keys members
  | _ => []
  end.

Definition sample_users : list User :=
  [mkUser 7 "ana" "ana@example.org" "Ana" "Lima";
   mkUser 9 "bo" "bo@example.org" "Bo" "Chen"].

Example sample_full_course :
  CourseViewSet_retrieve anonymous 2 sample_db sample_users
  = Ok (JObj [("id", JInt 2); ("name", JStr "Flask"); ("slug", JStr "flask");
              ("description", JStr ""); ("is_published", JBool false);
              ("tags", JList [JInt 1]); ("topics", JList []);
              ("instructors", JList []);
              ("modules",
               JList [JObj [("id", JInt 20); ("name", JStr "Intro");
                            ("slug", JStr "intro-2"); ("description", JStr "");
                            ("order", JInt 0);
                            ("lessons",
                             JList [JObj [("id", JInt 200);
                                          ("name", JStr "Routes");
                                          ("slug", JStr "routes");
                                          ("content", JStr "@app.route");
                                          ("duration_seconds", JInt 45);
                                          ("order", JInt 0);
                                          ("created_at", JInt 0);
                                          ("updated_at", JInt 0)]]);
                            ("created_at", JInt 0); ("updated_at", JInt 0)]]);
              ("total_lessons", JInt 1); ("completion_rate", JNull);
              ("created_at", JInt 9); ("updated_at", JInt 9)]).
Proof. vm_compute. reflexivity. Qed.

(** ** The nested lesson objects of the full course shape *)

(** All eight fields [LessonSerializer] declares, read from a row. *)
Definition Lesson_full_json (l : Lesson) : json :=
  JObj [("id", json_pk (l_pk l));
        ("name", JStr (l_name l));
        ("slug", JStr (l_slug l));
        ("content", JStr (l_content l));
        ("duration_seconds", JInt (Z.of_nat (l_duration_seconds l)));
        ("order", JInt (Z.of_nat (l_order l)));
        ("created_at", JInt (l_created_at l));
        ("updated_at", JInt (l_updated_at l))].

Definition Module_full_json (db : DB) (m : CModule) : json :=
  JObj [("id", json_pk (m_pk m));
        ("name", JStr (m_name m));
        ("slug", JStr (m_slug m));
        ("description", JStr (m_description m));
        ("order", JInt (Z.of_nat (m_order m)));
        ("lessons", JList (map Lesson_full_json (Module_lessons db m)));
        ("created_at", JInt (m_created_at m));
        ("updated_at", JInt (m_updated_at m))].

Lemma find_unique_pk {A : Type} (pk : A → option pk_t) (rows : list A) (r : A)
    (k : pk_t) :
  unique_pks pk rows → In r rows → pk r = Some k →
  List.find (λ x, pk_is (pk x) k) rows = Some r.
Proof.
  intros Hnd Hin Hk.
  destruct (List.find (λ x, pk_is (pk x) k) rows) as [r'|] eqn:Hfind.
  - apply find_some in Hfind as [Hin' Hk'].
    unfold pk_is in Hk'. destruct (pk r') as [j|] eqn:Ej; [|discriminate].
    apply Nat.eqb_eq in Hk'. subst j.
    f_equal. exact (unique_pk_same_row pk rows r' r k Hnd Hin' Hin Ej Hk).
  - exfalso. pose proof (find_none _ _ Hfind r Hin) as Hno. cbn in Hno.
    unfold pk_is in Hno. rewrite Hk, Nat.eqb_refl in Hno. discriminate.
Qed.

Lemma mapM_result_map {A B : Type} (f : A → result B) (g : A → B) (xs : list A) :
  (∀ x, In x xs → f x = Ok (g x)) → mapM f xs = Ok (map g xs).
Proof.
  induction xs as [|x xs IH]; intros Hf; [reflexivity|].
  cbn. rewrite (Hf x (or_introl eq_refl)). cbn.
  rewrite IH by auto using in_cons. reflexivity.
Qed.

(** A lesson fetched with four columns still serializes with all eight:
    the deferred ones are read from its row. *)
Lemma deferred_lesson_data (db : DB) (l : Lesson) (k : pk_t) :
  unique_pks l_pk (lessons db) → In l (lessons db) → l_pk l = Some k →
  LessonSerializer_data db (only ["id"; "name"; "slug"; "order"] l)
  = Ok (Lesson_full_json l).
Proof.
  intros Hnd Hin Hk.
  unfold LessonSerializer_data, LessonSerializer_Meta_fields, Lesson_full_json.
  cbn [mapM]. unfold Lesson_getattr, only. cbn.
  rewrite Hk. rewrite (find_unique_pk l_pk (lessons db) l k Hnd Hin Hk).
  cbn. reflexivity.
Qed.

Lemma Module_lessons_stored (db : DB) (m : CModule) (l : Lesson) :
  In l (Module_lessons db m) → In l (lessons db).
Proof.
  unfold Module_lessons, order_by. intros Hin.
  apply list_elem_of_In in Hin. rewrite merge_sort_Permutation in Hin.
  apply list_elem_of_In, filter_In in Hin as [Hin _]. exact Hin.
Qed.

Lemma mapM_result_fmap {A B C : Type} (h : A → B) (f : B → result C)
    (g : A → C) (xs : list A) :
  (∀ x, In x xs → f (h x) = Ok (g x)) → mapM f (map h xs) = Ok (map g xs).
Proof.
  induction xs as [|x xs IH]; intros Hf; [reflexivity|].
  cbn. rewrite (Hf x (or_introl eq_refl)). cbn.
  rewrite IH by auto using in_cons. reflexivity.
Qed.

Section FullCourse.
Variable db : DB.
Hypothesis lesson_pks : unique_pks l_pk (lessons db).
Hypothesis lessons_saved : Forall (λ l, is_Some (l_pk l)) (lessons db).

Lemma prefetched_module_data (m : CModule) :
  ModuleSerializer_data db (mkPrefetchedModule m (prefetch_lessons db m))
  = Ok (Module_full_json db m).
Proof using lesson_pks lessons_saved.
  unfold ModuleSerializer_data, prefetch_lessons. cbn [pm_module pm_lessons].
  rewrite (mapM_result_fmap _ _ Lesson_full_json); [reflexivity|].
  intros l Hl. apply Module_lessons_stored in Hl.
  rewrite Forall_forall in lessons_saved.
  destruct (lessons_saved l (proj2 (list_elem_of_In _ _) Hl)) as [k Hk].
  exact (deferred_lesson_data db l k lesson_pks Hl Hk).
Qed.

Lemma nested_lessons_of_modules (ms : list CModule) :
  flat_map (λ m, items (member "lessons" m)) (map (Module_full_json db) ms)
  = flat_map (λ m, map Lesson_full_json (Module_lessons db m)) ms.
Proof using Type.
  induction ms as [|m ms IH]; [reflexivity|].
  cbn [map flat_map]. rewrite IH. reflexivity.
Qed.

Lemma retrieve_full_course (request : Request) (pk : pk_t) (users : list User)
    (course : Course) :
  get_object_or_404 c_pk (courses db) pk = Ok course →
  ∃ body,
    CourseViewSet_retrieve request pk db users = Ok body
    ∧ nested_lessons body
      = flat_map (λ m, map Lesson_full_json (Module_lessons db m))
          (Course_modules db course).
Proof using lesson_pks lessons_saved.
  intros Hget. unfold CourseViewSet_retrieve. rewrite Hget. cbn [mbind result_bind].
  unfold CourseSerializer_data, CourseViewSet_prefetch.
  cbn [pc_course pc_modules pc_tags pc_topics pc_instructors].
  rewrite (mapM_result_fmap _ _ (Module_full_json db))
    by (intros m _; apply prefetched_module_data).
  eexists. split; [reflexivity|].
  unfold nested_lessons. cbn [member assoc List.find fst snd String.eqb
    Ascii.eqb Bool.eqb default fmap option_fmap option_map items].
  apply nested_lessons_of_modules.
Qed.

End FullCourse.

(** C7, as stated, fails: in the full shape of course 2 the nested lesson
    200 carries [content] (and four more fields) besides id, name, slug
    and order. *)
Lemma nested_lesson_counterexample :
  ∃ body lesson,
    CourseViewSet_retrieve anonymous 2 sample_db sample_users = Ok body
    ∧ In lesson (nested_lessons body)
    ∧ object_keys lesson ≠ ["id"; "name"; "slug"; "order"]
    ∧ member "content" lesson = JStr "@app.route"
    ∧ In "duration_seconds" (object_keys lesson).
Proof.
  eexists _, _. split; [vm_compute; reflexivity|].
  split; [left; reflexivity|].
  split; [discriminate|]. split; [reflexivity|].
  cbn. auto 10.
Qed.

(** C7 (amended).  In the full course shape every nested lesson carries
    the eight fields [LessonSerializer] declares (id, name, slug, content,
    duration_seconds, order, created_at, updated_at) with the values of its
    row; the restriction to id, name, slug and order is on the columns the
    prefetch query loads, and the other four are read from the row when the
    serializer asks for them. *)
Theorem nested_lessons_carry_declared_fields (db : DB) (request : Request)
    (pk : pk_t) (users : list User) (course : Course) :
  unique_pks l_pk (lessons db) →
  Forall (λ l, is_Some (l_pk l)) (lessons db) →
  get_object_or_404 c_pk (courses db) pk = Ok course →
  ∃ body,
    CourseViewSet_retrieve request pk db users = Ok body
    ∧ nested_lessons body
      = flat_map (λ m, map Lesson_full_json (Module_lessons db m))
          (Course_modules db course)
    ∧ Forall (λ lesson, object_keys lesson = LessonSerializer_Meta_fields)
        (nested_lessons body)
    ∧ ∀ m l, In m (Course_modules db course) → In l (Module_lessons db m) →
             li_loaded (only ["id"; "name"; "slug"; "order"] l)
             = [("id", json_pk (l_pk l)); ("name", JStr (l_name l));
                ("slug", JStr (l_slug l));
                ("order", JInt (Z.of_nat (l_order l)))]
             ∧ In (Lesson_full_json l) (nested_lessons body).
Proof.
  intros Hpks Hsaved Hget.
  destruct (retrieve_full_course db Hpks Hsaved request pk users course Hget)
    as (body & Hbody & Hnested).
  exists body. split; [exact Hbody|]. split; [exact Hnested|].
  split.
  - rewrite Hnested. apply Forall_forall. intros lesson Hin.
    apply list_elem_of_In, in_flat_map in Hin as (m & _ & Hin).
    apply in_map_iff in Hin as (l & <- & _). reflexivity.
  - intros m l Hm Hl. split; [reflexivity|].
    rewrite Hnested. apply in_flat_map. exists m. split; [exact Hm|].
    apply in_map, Hl.
Qed.

Lemma nested_lessons_carry_declared_fields_witness :
  unique_pks l_pk (lessons sample_db)
  ∧ Forall (λ l, is_Some (l_pk l)) (lessons sample_db)
  ∧ get_object_or_404 c_pk (courses sample_db) 1 = Ok course1
  ∧ ∃ body,
      CourseViewSet_retrieve user9 1 sample_db sample_users = Ok body
      ∧ length (nested_lessons body) = 3
      ∧ Forall (λ lesson, object_keys lesson = LessonSerializer_Meta_fields)
          (nested_lessons body).
Proof.
  assert (Hpks : unique_pks l_pk (lessons sample_db))
    by (apply (bool_decide_unpack _); vm_compute; exact I).
  assert (Hsaved : Forall (λ l, is_Some (l_pk l)) (lessons sample_db))
    by (repeat constructor; eexists; reflexivity).
  split; [exact Hpks|]. split; [exact Hsaved|]. split; [reflexivity|].
  destruct (nested_lessons_carry_declared_fields sample_db user9 1 sample_users
              course1 Hpks Hsaved eq_refl)
    as (body & Hbody & Hnested & Hkeys & _).
  exists body. split; [exact Hbody|]. split; [|exact Hkeys].
  rewrite Hnested. vm_compute. reflexivity.
Defined.

(** * Further properties of the code *)

Lemma existsb_false_in_iff {A : Type} (f : A → bool) (xs : list A) :
  existsb f xs = false ↔ ∀ x, In x xs → f x = false.
Proof.
  split; [|apply existsb_false_in].
  intros Hex x Hin. destruct (f x) eqn:Hfx; [|reflexivity].
  rewrite <- Hex. symmetry. apply existsb_exists. eauto.
Qed.


(** ** The receiver and the progress table *)

(** X1.  The pre_save receiver is idempotent, whatever the clock reads the
    second time; it never touches the key, the user, the lesson or the
    [completed] flag; and on a completed row that has a time it changes
    nothing. *)
Theorem receiver_idempotent (now1 now2 : time) (p : LessonProgress) :
  let q := set_completed_at_for_progress now1 p in
  set_completed_at_for_progress now2 q = q
  ∧ lp_pk q = lp_pk p ∧ lp_user q = lp_user p
  ∧ lp_lesson_id q = lp_lesson_id p ∧ lp_completed q = lp_completed p
  ∧ (∀ t, lp_completed p = true → lp_completed_at p = Some t → q = p)
  ∧ (lp_completed p = true → lp_completed_at p = None →
     lp_completed_at q = Some now1).
Proof.
  unfold set_completed_at_for_progress.
  destruct p as [k u l [|] [t|]]; cbn; repeat split; congruence.
Qed.

(** The constraints the model declares on the progress table: every row
    has a primary key, keys are unique, no user is null, and the pair
    (user, lesson) is unique. *)
Definition progress_key (p : LessonProgress) : option pk_t * pk_t :=
  (lp_user p, lp_lesson_id p).

Record progress_constraints (db : DB) : Prop := {
  progress_saved : Forall (λ p, lp_pk p ≠ None) (progress db);
  progress_pks : NoDup (map lp_pk (progress db));
  progress_users : not_null_users db;
  progress_unique_together : NoDup (map progress_key (progress db))
}.

Lemma same_key_spec (r q : LessonProgress) :
  same_key r q = true ↔ progress_key r = progress_key q.
Proof.
  unfold same_key, progress_key. rewrite andb_true_iff, bool_decide_eq_true.
  rewrite Nat.eqb_eq. split; [intros [-> ->]; reflexivity|].
  intros Heq. inversion Heq. auto.
Qed.

Lemma same_pk_spec (r q : LessonProgress) :
  same_pk r q = true ↔ lp_pk r = lp_pk q.
Proof. unfold same_pk. apply bool_decide_eq_true. Qed.

Lemma replace_row_pks (q : LessonProgress) (rows : list LessonProgress) :
  map lp_pk (replace_row q rows) = map lp_pk rows.
Proof.
  unfold replace_row. rewrite map_map. apply map_ext. intros r.
  destruct (same_pk r q) eqn:Hpk; [|reflexivity].
  symmetry. apply same_pk_spec, Hpk.
Qed.

Lemma replace_row_absent (q : LessonProgress) (rows : list LessonProgress) :
  (∀ r, In r rows → lp_pk r ≠ lp_pk q) → replace_row q rows = rows.
Proof.
  intros Hno. unfold replace_row. rewrite <- (map_id rows) at 2.
  apply map_ext_in. intros r Hr.
  destruct (same_pk r q) eqn:Hpk; [|reflexivity].
  apply same_pk_spec in Hpk. destruct (Hno r Hr Hpk).
Qed.

Lemma replace_row_keys (q : LessonProgress) (rows : list LessonProgress) :
  NoDup (map lp_pk rows) →
  NoDup (map progress_key rows) →
  (∀ r, In r rows → progress_key r = progress_key q → lp_pk r = lp_pk q) →
  NoDup (map progress_key (replace_row q rows)).
Proof.
  induction rows as [|r rows IH]; intros Hpks Hkeys Hown; [constructor|].
  cbn in Hpks, Hkeys. apply NoDup_cons in Hpks as [Hr Hpks].
  apply NoDup_cons in Hkeys as [Hk Hkeys].
  change (replace_row q (r :: rows))
    with ((if same_pk r q then q else r) :: replace_row q rows).
  destruct (same_pk r q) eqn:Hpk.
  - apply same_pk_spec in Hpk.
    rewrite replace_row_absent.
    + cbn. apply NoDup_cons. split; [|exact Hkeys].
      intros Hin. apply list_elem_of_In, in_map_iff in Hin as (r' & Hkey & Hr').
      apply Hr. rewrite Hpk, <- (Hown r' (in_cons _ _ _ Hr') Hkey).
      apply list_elem_of_In, in_map, Hr'.
    + intros r' Hr' Heq. apply Hr. rewrite Hpk, <- Heq.
      apply list_elem_of_In, in_map, Hr'.
  - cbn. apply NoDup_cons. split.
    + intros Hin. apply list_elem_of_In, in_map_iff in Hin as (r' & Hkey & Hr').
      unfold replace_row in Hr'. apply in_map_iff in Hr' as (r0 & Hr0 & Hin0).
      destruct (same_pk r0 q) eqn:Hpk0.
      * subst r'. assert (lp_pk r = lp_pk q)
          by (apply Hown; [left; reflexivity|congruence]).
        apply same_pk_spec in H. congruence.
      * subst r'. apply Hk. rewrite <- Hkey.
        apply list_elem_of_In, in_map, Hin0.
    + apply IH; [exact Hpks|exact Hkeys|].
      intros r' Hr'. apply Hown. right. exact Hr'.
Qed.

(** A save that succeeds keeps the constraints of the progress table. *)
Lemma LessonProgress_save_keeps_constraints_step (now : time)
    (inst inst' : LessonProgress) (db db' : DB) :
  progress_constraints db →
  LessonProgress_save now inst db = Ok (inst', db') →
  progress_constraints db'.
Proof.
  intros [Hsaved Hpks Husers Hkeys] Hsave.
  unfold LessonProgress_save in Hsave. cbv zeta in Hsave.
  set (q := set_completed_at_for_progress now inst) in *.
  destruct (lp_user q) as [u|] eqn:Hu; [|discriminate].
  destruct (negb (existsb _ (lessons db))); [discriminate|].
  destruct (existsb (λ r, same_key r q && negb (same_pk r q)) (progress db))
    eqn:Hcheck; [discriminate|].
  assert (Hown : ∀ r, In r (progress db) →
                      progress_key r = progress_key q → lp_pk r = lp_pk q).
  { intros r Hr Hkey.
    pose proof (proj1 (existsb_false_in_iff _ _) Hcheck r Hr) as Hr'.
    cbn beta in Hr'.
    apply same_key_spec in Hkey. rewrite Hkey in Hr'. cbn in Hr'.
    apply negb_false_iff, same_pk_spec in Hr'. exact Hr'. }
  assert (Happend : ∀ q', lp_user q' = Some u →
            progress_key q' = progress_key q →
            lp_pk q' ≠ None →
            (∀ r, In r (progress db) → lp_pk r ≠ lp_pk q') →
            (∀ r, In r (progress db) → progress_key r ≠ progress_key q) →
            progress_constraints (with_progress (progress db ++ [q']) db)).
  { intros q' Hu' Hkey' Hpk' Hfresh Hnokey. split; cbn.
    - apply Forall_app. split; [exact Hsaved|]. repeat constructor. exact Hpk'.
    - rewrite map_app. apply NoDup_app. split; [exact Hpks|]. split.
      + intros k Hk Hk'. cbn in Hk'. apply list_elem_of_singleton in Hk'.
        subst k. apply list_elem_of_In, in_map_iff in Hk as (r & Heq & Hr).
        exact (Hfresh r Hr Heq).
      + cbn. apply NoDup_singleton.
    - unfold not_null_users. cbn. apply Forall_app. split; [exact Husers|].
      repeat constructor. congruence.
    - rewrite map_app. apply NoDup_app. split; [exact Hkeys|]. split.
      + intros k Hk Hk'. cbn in Hk'. apply list_elem_of_singleton in Hk'.
        subst k. apply list_elem_of_In, in_map_iff in Hk as (r & Heq & Hr).
        apply (Hnokey r Hr). congruence.
      + cbn. apply NoDup_singleton. }
  destruct (lp_pk q) as [k|] eqn:Hk.
  - destruct (existsb (λ r, same_pk r q) (progress db)) eqn:Hst;
      inversion Hsave; subst inst' db'; clear Hsave.
    + split; cbn.
      * apply replace_row_Forall; [congruence|exact Hsaved].
      * rewrite replace_row_pks. exact Hpks.
      * unfold not_null_users. cbn.
        apply replace_row_Forall; [congruence|exact Husers].
      * apply replace_row_keys; [exact Hpks|exact Hkeys|].
        intros r Hr Hkey. rewrite Hk. exact (Hown r Hr Hkey).
    + pose proof (proj1 (existsb_false_in_iff _ _) Hst) as Hnone.
      apply (Happend q Hu eq_refl); [congruence| |].
      * intros r Hr Heq. specialize (Hnone r Hr).
        apply not_true_iff_false in Hnone. apply Hnone, same_pk_spec, Heq.
      * intros r Hr Hkey. specialize (Hnone r Hr).
        apply not_true_iff_false in Hnone. apply Hnone, same_pk_spec.
        rewrite Hk. exact (Hown r Hr Hkey).
  - inversion Hsave; subst inst' db'; clear Hsave.
    apply Happend; [exact Hu|reflexivity|discriminate| |].
    + intros r Hr. cbn. apply next_pk_fresh, Hr.
    + intros r Hr Hkey. rewrite Forall_forall in Hsaved.
      apply (Hsaved r (proj2 (list_elem_of_In _ _) Hr)).
      exact (Hown r Hr Hkey).
Qed.

Lemma sample_progress_constraints : progress_constraints sample_db.
Proof.
  split.
  - repeat constructor; discriminate.
  - apply (bool_decide_unpack _). vm_compute. exact I.
  - repeat constructor; discriminate.
  - apply (bool_decide_unpack _). vm_compute. exact I.
Qed.

Lemma sample_in_sync : Forall in_sync (progress sample_db).
Proof. repeat constructor; cbn; congruence. Qed.

Definition reopened_db : DB :=
  with_progress
    (replace_row (mkLessonProgress (Some 1) (Some 7) 100 false None)
       (progress sample_db)) sample_db.

(** X2.  Over any sequence of saves, starting from a store whose progress
    rows satisfy the declared constraints and are in sync, every store
    reached still has a primary key on every row, no null user, no two
    rows for the same (user, lesson), and every row in sync. *)
Theorem saves_keep_progress_table_sound (db0 db : DB) :
  progress_constraints db0 →
  Forall in_sync (progress db0) →
  saved_from db0 db →
  progress_constraints db ∧ Forall in_sync (progress db).
Proof.
  intros Hc0 Hs0 Hreach.
  induction Hreach as [|db db' now inst inst' _ [IHc IHs] Hsave];
    [split; assumption|].
  split.
  - eapply LessonProgress_save_keeps_constraints_step; eassumption.
  - eapply save_sync_step; eassumption.
Qed.

Lemma saves_keep_progress_table_sound_witness :
  progress_constraints sample_db
  ∧ Forall in_sync (progress sample_db)
  ∧ saved_from sample_db reopened_db
  ∧ progress_constraints reopened_db
  ∧ Forall in_sync (progress reopened_db).
Proof.
  assert (Hreach : saved_from sample_db reopened_db).
  { apply (saved_step sample_db sample_db reopened_db 50 reopened_row
             (mkLessonProgress (Some 1) (Some 7) 100 false None));
      [apply saved_start|reflexivity]. }
  split; [exact sample_progress_constraints|].
  split; [exact sample_in_sync|]. split; [exact Hreach|].
  exact (saves_keep_progress_table_sound sample_db reopened_db
           sample_progress_constraints sample_in_sync Hreach).
Defined.

(** X3.  [update_or_create] keyed by an identified user, with
    [defaults = {completed: True}]: whenever two calls in succession both
    succeed on a store that had no row for (user, lesson), the first has
    inserted one row, completed and stamped with the time of that call;
    the second reports [created = False] and returns the row under the
    same primary key, still completed and still carrying the first time:
    the number of progress rows is the same after it, and the one row for
    (user, lesson) has the first timestamp. *)
Theorem upsert_twice_keeps_first_timestamp (db db1 db2 : DB) (lesson : Lesson)
    (lesson_id u : pk_t) (t1 t2 : time) (row1 row2 : LessonProgress)
    (created1 created2 : bool) :
  l_pk lesson = Some lesson_id →
  existsb (λ l, pk_is (l_pk l) lesson_id) (lessons db) = true →
  rows_for (Some u) lesson_id db = [] →
  update_or_create t1 (Some u) lesson true db = Ok (row1, created1, db1) →
  update_or_create t2 (Some u) lesson true db1 = Ok (row2, created2, db2) →
  created1 = true ∧ created2 = false
  ∧ lp_completed row1 = true ∧ lp_completed_at row1 = Some t1
  ∧ lp_pk row2 = lp_pk row1
  ∧ lp_completed row2 = true ∧ lp_completed_at row2 = Some t1
  ∧ length (progress db1) = S (length (progress db))
  ∧ length (progress db2) = length (progress db1)
  ∧ length (rows_for (Some u) lesson_id db2) = 1
  ∧ ∀ r, In r (rows_for (Some u) lesson_id db2) →
         lp_completed r = true ∧ lp_completed_at r = Some t1.
Proof.
  intros Hsaved Hstored Hnone Hfirst Hsecond.
  rewrite (update_or_create_first db lesson lesson_id u t1 Hsaved Hstored Hnone)
    in Hfirst.
  injection Hfirst as <- <- <-.
  destruct (update_or_create_idempotent db lesson lesson_id u t1 t2
              Hsaved Hstored Hnone) as (Hrows & Hat & Hagain).
  rewrite Hagain in Hsecond. injection Hsecond as <- <- <-.
  rewrite Hrows.
  repeat (split; [reflexivity|]).
  split; [unfold after_first; cbn; rewrite length_app; cbn; lia|].
  split; [reflexivity|]. split; [reflexivity|].
  intros r [<-|[]]. split; reflexivity.
Qed.

Definition lesson102 : Lesson :=
  mkLesson (Some 102) 11 "Fields" "fields" "CharField" 30 0 0 0.

Lemma upsert_twice_keeps_first_timestamp_witness :
  update_or_create 50 (Some 8) lesson102 true sample_db
  = Ok (first_row sample_db 102 8 50, true, after_first sample_db 102 8 50)
  ∧ update_or_create 60 (Some 8) lesson102 true (after_first sample_db 102 8 50)
    = Ok (first_row sample_db 102 8 50, false, after_first sample_db 102 8 50)
  ∧ lp_completed_at (first_row sample_db 102 8 50) = Some 50%Z
  ∧ length (progress (after_first sample_db 102 8 50)) = 6.
Proof.
  assert (Hfirst : update_or_create 50 (Some 8) lesson102 true sample_db
                   = Ok (first_row sample_db 102 8 50, true,
                         after_first sample_db 102 8 50)) by reflexivity.
  assert (Hsecond : update_or_create 60 (Some 8) lesson102 true
                      (after_first sample_db 102 8 50)
                    = Ok (first_row sample_db 102 8 50, false,
                          after_first sample_db 102 8 50)) by reflexivity.
  destruct (upsert_twice_keeps_first_timestamp sample_db _ _ lesson102 102 8
              50 60 _ _ _ _ eq_refl eq_refl eq_refl Hfirst Hsecond)
    as (_ & _ & _ & Hat & _ & _ & _ & Hlen & _).
  split; [exact Hfirst|]. split; [exact Hsecond|]. split; [exact Hat|].
  rewrite Hlen. reflexivity.
Defined.

(** X4.  On every store that satisfies the NOT NULL constraint,
    [mark_complete] never answers with success and never changes the
    store, whoever calls it: it ends in Http404 when the lesson is not in
    the route's queryset and in IntegrityError otherwise. *)
Theorem mark_complete_never_succeeds (now : time) (request : Request)
    (module_pk : option pk_t) (pk : pk_t) (db : DB) :
  not_null_users db →
  snd (handle (mark_complete now request module_pk pk) db) = db
  ∧ (LessonViewSet_get_object module_pk pk db = Err Http404 →
     fst (handle (mark_complete now request module_pk pk) db) = Err Http404)
  ∧ (∀ lesson, LessonViewSet_get_object module_pk pk db = Ok lesson →
     fst (handle (mark_complete now request module_pk pk) db)
     = Err IntegrityError)
  ∧ ∀ response, fst (handle (mark_complete now request module_pk pk) db)
                ≠ Ok response.
Proof.
  intros Hnn. rewrite (mark_complete_outcome now request module_pk pk db Hnn).
  cbn [fst snd]. split; [reflexivity|].
  split; [intros ->; reflexivity|].
  split; [intros lesson ->; reflexivity|].
  intros response. destruct (LessonViewSet_get_object module_pk pk db);
    discriminate.
Qed.

Lemma mark_complete_never_succeeds_witness :
  not_null_users sample_db
  ∧ handle (mark_complete 50 user9 (Some 10) 101) sample_db
    = (Err IntegrityError, sample_db)
  ∧ handle (mark_complete 50 user9 (Some 11) 101) sample_db
    = (Err Http404, sample_db).
Proof.
  pose proof (progress_users _ sample_progress_constraints) as Hnn.
  split; [exact Hnn|].
  destruct (mark_complete_never_succeeds 50 user9 (Some 10) 101 sample_db Hnn)
    as (Hdb & _ & Hint & _).
  destruct (mark_complete_never_succeeds 50 user9 (Some 11) 101 sample_db Hnn)
    as (Hdb' & H404 & _ & _).
  split.
  - rewrite (surjective_pairing (handle _ sample_db)), Hdb.
    rewrite (Hint (mkLesson (Some 101) 10 "Views" "views" "def view" 90 1 0 0)
               eq_refl). reflexivity.
  - rewrite (surjective_pairing (handle _ sample_db)), Hdb'.
    rewrite (H404 eq_refl). reflexivity.
Defined.

(** ** Nested routes (core/views.py) *)


Lemma get_object_or_404_found {A : Type} (pk : A → option pk_t) (rows : list A)
    (k : pk_t) (r : A) :
  get_object_or_404 pk rows k = Ok r → In r rows ∧ pk r = Some k.
Proof.
  unfold get_object_or_404.
  destruct (List.filter (λ r, pk_is (pk r) k) rows) as [|r' rest] eqn:Hf;
    [discriminate|].
  intros Hok. inversion Hok; subst r'.
  assert (Hin : In r (List.filter (λ r, pk_is (pk r) k) rows))
    by (rewrite Hf; left; reflexivity).
  apply filter_In in Hin as [Hin Hk]. split; [exact Hin|].
  unfold pk_is in Hk. destruct (pk r) as [j|]; [|discriminate].
  apply Nat.eqb_eq in Hk. congruence.
Qed.

Lemma get_object_or_404_unique {A : Type} (pk : A → option pk_t) (rows : list A)
    (k : pk_t) (r : A) :
  unique_pks pk rows → In r rows → pk r = Some k →
  get_object_or_404 pk rows k = Ok r.
Proof.
  intros Hnd Hin Hk. unfold get_object_or_404.
  destruct (List.filter (λ r, pk_is (pk r) k) rows) as [|r' rest] eqn:Hf.
  - exfalso. pose proof (filter_nil_inv _ _ Hf r Hin) as Hno. cbn in Hno.
    unfold pk_is in Hno. rewrite Hk, Nat.eqb_refl in Hno. discriminate.
  - assert (Hin' : In r' (List.filter (λ r, pk_is (pk r) k) rows))
      by (rewrite Hf; left; reflexivity).
    apply filter_In in Hin' as [Hin' Hk'].
    unfold pk_is in Hk'. destruct (pk r') as [j|] eqn:Ej; [|discriminate].
    apply Nat.eqb_eq in Hk'. subst j.
    f_equal. exact (unique_pk_same_row pk rows r' r k Hnd Hin' Hin Ej Hk).
Qed.

Lemma unique_pks_filter {A : Type} (pk : A → option pk_t) (keep : A → bool)
    (rows : list A) :
  unique_pks pk rows → unique_pks pk (List.filter keep rows).
Proof.
  unfold unique_pks. induction rows as [|r rows IH]; intros Hnd; [constructor|].
  cbn in Hnd. apply NoDup_cons in Hnd as [Hr Hnd]. cbn.
  destruct (keep r); [|exact (IH Hnd)].
  cbn. apply NoDup_cons. split; [|exact (IH Hnd)].
  intros Hin. apply Hr. apply list_elem_of_In, in_map_iff in Hin as (x & Hx & Hin).
  apply filter_In in Hin as [Hin _]. rewrite <- Hx.
  apply list_elem_of_In, in_map, Hin.
Qed.

(** X5.  A lesson is reached through the top-level route and through the
    nested route of its own module, and through no other module's route:
    there the lookup answers Http404 although the lesson exists.  Whatever
    a nested lookup returns belongs to the module in the route. *)
Theorem nested_lesson_lookup (db : DB) (l : Lesson) (pk : pk_t) :
  unique_pks l_pk (lessons db) →
  In l (lessons db) →
  l_pk l = Some pk →
  LessonViewSet_get_object None pk db = Ok l
  ∧ LessonViewSet_get_object (Some (l_module_id l)) pk db = Ok l
  ∧ (∀ module_pk, module_pk ≠ l_module_id l →
       LessonViewSet_get_object (Some module_pk) pk db = Err Http404)
  ∧ (∀ module_pk found,
       LessonViewSet_get_object (Some module_pk) pk db = Ok found →
       found = l ∧ l_module_id l = module_pk).
Proof.
  intros Hnd Hin Hk.
  assert (Hown : LessonViewSet_get_object (Some (l_module_id l)) pk db = Ok l).
  { unfold LessonViewSet_get_object, LessonViewSet_get_queryset.
    apply get_object_or_404_unique; [apply unique_pks_filter, Hnd| |exact Hk].
    apply filter_In. split; [exact Hin|apply Nat.eqb_refl]. }
  assert (Hfound : ∀ module_pk found,
            LessonViewSet_get_object (Some module_pk) pk db = Ok found →
            found = l ∧ l_module_id l = module_pk).
  { intros module_pk found Hget.
    apply get_object_or_404_found in Hget as [Hin' Hk'].
    apply filter_In in Hin' as [Hin' Hm]. apply Nat.eqb_eq in Hm.
    assert (found = l)
      by exact (unique_pk_same_row l_pk (lessons db) found l pk Hnd Hin' Hin Hk' Hk).
    subst found. auto. }
  split; [exact (get_object_or_404_unique l_pk (lessons db) pk l Hnd Hin Hk)|].
  split; [exact Hown|]. split; [|exact Hfound].
  intros module_pk Hne.
  destruct (LessonViewSet_get_object (Some module_pk) pk db) as [found|e] eqn:Hget.
  - destruct (Hfound module_pk found Hget) as [_ Heq]. congruence.
  - unfold LessonViewSet_get_object, get_object_or_404 in Hget.
    destruct (List.filter _ _); [inversion Hget; reflexivity|discriminate].
Qed.

Lemma nested_lesson_lookup_witness :
  unique_pks l_pk (lessons sample_db)
  ∧ In lesson102 (lessons sample_db)
  ∧ LessonViewSet_get_object (Some 11) 102 sample_db = Ok lesson102
  ∧ LessonViewSet_get_object (Some 10) 102 sample_db = Err Http404.
Proof.
  pose proof (pk_lessons _ sample_primary_keys) as Hnd.
  assert (Hin : In lesson102 (lessons sample_db)) by (cbn; auto).
  split; [exact Hnd|]. split; [exact Hin|].
  destruct (nested_lesson_lookup sample_db lesson102 102 Hnd Hin eq_refl)
    as (_ & Hown & Hother & _).
  split; [exact Hown|]. apply Hother. discriminate.
Defined.

(** ** perform_create (core/views.py)

    [perform_create] receives a serializer that has passed validation;
    [serializer.validated_data] holds the writable fields the serializer
    declares: neither ModuleSerializer nor LessonSerializer declares the
    parent, so the parent comes from the route or not at all.  Fields the
    request leaves out take the defaults of the model. *)

Record ModuleData : Type := mkModuleData {
  md_name : string;
  md_slug : option string;
  md_description : option string;
  md_order : option nat
}.

Record LessonData : Type := mkLessonData {
  ld_name : string;
  ld_slug : option string;
  ld_content : option string;
  ld_duration_seconds : option nat;
  ld_order : option nat
}.

Inductive validation (A : Type) : Type :=
| Valid (value : A)
| ValidationError (message : string).

Arguments Valid {A} value.
Arguments ValidationError {A} message.

(** [LessonSerializer.validate_duration_seconds] *)
Definition validate_duration_seconds (value : nat) : validation nat :=
  if 3600 * 4 <? value
  then ValidationError "Lesson duration cannot exceed 4 hours."
  else Valid value.

(** What validation has established of the data [perform_create] sees:
    [name] is a CharField with [max_length=200] that may not be blank,
    and a duration that was sent has passed [validate_duration_seconds]. *)
Definition NamedMixin_name_valid (name : string) : Prop :=
  name ≠ "" ∧ String.length name ≤ 200.

Definition LessonSerializer_validated (data : LessonData) : Prop :=
  NamedMixin_name_valid (ld_name data)
  ∧ ∀ seconds, ld_duration_seconds data = Some seconds →
               validate_duration_seconds seconds = Valid seconds.

Definition with_modules (ms : list CModule) (db : DB) : DB :=
  mkDB (courses db) ms (lessons db) (enrollments db) (progress db)
    (course_tags db) (course_topics db) (course_instructors db).

Definition with_lessons (ls : list Lesson) (db : DB) : DB :=
  mkDB (courses db) (modules db) ls (enrollments db) (progress db)
    (course_tags db) (course_topics db) (course_instructors db).

(** [serializer.save] with keyword arguments, that is
    [Module.objects.create] with the validated data and those arguments:
    [created] is the clock when the instance is built ([created_at]
    defaults to it), [saved] the clock when it is written ([updated_at],
    unset until then).  [course_id] is a NOT NULL column. *)
Definition ModuleSerializer_save (created saved : time) (course : option Course)
    (data : ModuleData) (db : DB) : result (CModule * DB) :=
  match course ≫= c_pk with
  | None => Err IntegrityError
  | Some course_id =>
      '(m, table) ← SlugMixin_save saved db
                      (mkModule None course_id (md_name data)
                         (default "" (md_slug data))
                         (default "" (md_description data))
                         (default 0 (md_order data)) created created)
                      (modules db);
      mret (m, with_modules table db)
  end.

Definition ModuleViewSet_perform_create (created saved : time)
    (course_pk : option pk_t) (data : ModuleData) (db : DB)
    : result (CModule * DB) :=
  match course_pk with
  | Some k =>
      course ← get_object_or_404 c_pk (courses db) k;
      ModuleSerializer_save created saved (Some course) data db
  | None => ModuleSerializer_save created saved None data db
  end.

Definition LessonSerializer_save (created saved : time) (module : option CModule)
    (data : LessonData) (db : DB) : result (Lesson * DB) :=
  match module ≫= m_pk with
  | None => Err IntegrityError
  | Some module_id =>
      '(l, table) ← SlugMixin_save saved db
                      (mkLesson None module_id (ld_name data)
                         (default "" (ld_slug data))
                         (default "" (ld_content data))
                         (default 0 (ld_duration_seconds data))
                         (default 0 (ld_order data)) created created)
                      (lessons db);
      mret (l, with_lessons table db)
  end.

Definition LessonViewSet_perform_create (created saved : time)
    (module_pk : option pk_t) (data : LessonData) (db : DB)
    : result (Lesson * DB) :=
  match module_pk with
  | Some k =>
      module ← get_object_or_404 m_pk (modules db) k;
      LessonSerializer_save created saved (Some module) data db
  | None => LessonSerializer_save created saved None data db
  end.

Example create_module_under_course2 :
  ModuleViewSet_perform_create 20 21 (Some 2)
    (mkModuleData "Intro" None None (Some 3)) sample_db
  = Ok (mkModule (Some 21) 2 "Intro" "intro-3" "" 3 20 21,
        with_modules
          (modules sample_db
           ++ [mkModule (Some 21) 2 "Intro" "intro-3" "" 3 20 21]) sample_db).
Proof. vm_compute. reflexivity. Qed.

Example duration_above_four_hours :
  validate_duration_seconds (3600 * 4) = Valid (3600 * 4)
  ∧ validate_duration_seconds (3600 * 4 + 1)
    = ValidationError "Lesson duration cannot exceed 4 hours.".
Proof. split; vm_compute; reflexivity. Qed.

Lemma get_object_or_404_error {A : Type} (pk : A → option pk_t) (rows : list A)
    (k : pk_t) (e : error) :
  get_object_or_404 pk rows k = Err e → e = Http404.
Proof.
  unfold get_object_or_404. destruct (List.filter _ rows); intros Hget;
    inversion Hget; reflexivity.
Qed.

Lemma found_is_stored {A : Type} (pk : A → option pk_t) (rows : list A)
    (k : pk_t) (r : A) :
  get_object_or_404 pk rows k = Ok r →
  existsb (λ r, pk_is (pk r) k) rows = true.
Proof.
  intros Hget. destruct (get_object_or_404_found _ _ _ _ Hget) as [Hin Hpk].
  apply existsb_exists. exists r. split; [exact Hin|].
  unfold pk_is. rewrite Hpk. apply Nat.eqb_refl.
Qed.


Lemma total_lessons_after_insert (db : DB) (l : Lesson) (module : CModule)
    (c : Course) :
  unique_pks m_pk (modules db) →
  In module (modules db) →
  m_pk module = Some (l_module_id l) →
  total_lessons (with_lessons (lessons db ++ [l]) db) c
  = total_lessons db c
    + (if fk_refers (m_course_id module) (c_pk c) then 1 else 0).
Proof.
  intros Hnd Hin Hpk. unfold total_lessons, lesson_module.
  rewrite !inner_join_count. cbn [lessons modules with_lessons].
  rewrite map_app, sum_list_with_app. f_equal. cbn [map sum_list sum_list_with].
  rewrite Nat.add_0_r. cbn [fst snd].
  rewrite (unique_pk_count m_pk _ (l_module_id l) _ Hnd).
  destruct (fk_refers (m_course_id module) (c_pk c)) eqn:Hc.
  - replace (existsb _ (modules db)) with true; [reflexivity|].
    symmetry. apply existsb_exists. exists module. split; [exact Hin|].
    rewrite Hc. unfold pk_is. rewrite Hpk, Nat.eqb_refl. reflexivity.
  - rewrite existsb_false_in; [reflexivity|].
    intros m Hm. destruct (pk_is (m_pk m) (l_module_id l)) eqn:Hk; [|reflexivity].
    unfold pk_is in Hk. destruct (m_pk m) as [j|] eqn:Ej; [|discriminate].
    apply Nat.eqb_eq in Hk. subst j.
    rewrite (unique_pk_same_row m_pk (modules db) m module _ Hnd Hm Hin Ej Hpk).
    rewrite Hc. reflexivity.
Qed.

(** X7.  Creating a lesson: without a module in the route the insert
    always fails on the NOT NULL module column; with a module in the route
    that does not exist the answer is Http404; with a stored module,
    validated data (a name, and a duration of at most four hours if one
    was sent) without a slug is always stored, under a primary key no
    stored lesson has, bound to the module of the route, with duration 0
    unless the request gives one, never above four hours; and the
    [total_lessons] of the module's course grows by exactly one while that
    of every other course stays the same. *)
Theorem Lesson_perform_create_spec (created saved : time) (data : LessonData)
    (db : DB) :
  LessonViewSet_perform_create created saved None data db = Err IntegrityError
  ∧ (∀ k, get_object_or_404 m_pk (modules db) k = Err Http404 →
       LessonViewSet_perform_create created saved (Some k) data db
       = Err Http404)
  ∧ (∀ k module, get_object_or_404 m_pk (modules db) k = Ok module →
       ld_slug data = None → LessonSerializer_validated data →
       ∃ l key,
         LessonViewSet_perform_create created saved (Some k) data db
         = Ok (l, with_lessons (lessons db ++ [l]) db)
         ∧ l_module_id l = k
         ∧ l_pk l = Some key
         ∧ (∀ l', In l' (lessons db) → l_pk l' ≠ Some key)
         ∧ l_name l = ld_name data
         ∧ l_duration_seconds l = default 0 (ld_duration_seconds data)
         ∧ l_duration_seconds l ≤ 3600 * 4
         ∧ In l (LessonViewSet_get_queryset (Some k)
                   (with_lessons (lessons db ++ [l]) db))
         ∧ (unique_pks m_pk (modules db) →
            ∀ c, total_lessons (with_lessons (lessons db ++ [l]) db) c
                 = total_lessons db c
                   + (if fk_refers (m_course_id module) (c_pk c)
                      then 1 else 0))).
Proof.
  split; [reflexivity|]. split.
  - intros k Hget. unfold LessonViewSet_perform_create. rewrite Hget. reflexivity.
  - intros k module Hget Hslug [[Hname _] Hduration].
    destruct (get_object_or_404_found _ _ _ _ Hget) as [Hin Hpk].
    unfold LessonViewSet_perform_create. rewrite Hget. cbn [mbind result_bind].
    unfold LessonSerializer_save. cbn [mbind option_bind]. rewrite Hpk, Hslug.
    cbn [default].
    set (self := mkLesson None k (ld_name data) "" _ _ _ created created).
    assert (Hblank : get_slug self = "") by reflexivity.
    assert (Hunsaved : get_pk self = None) by reflexivity.
    assert (Hparent : parent_stored db self = true)
      by exact (found_is_stored m_pk (modules db) k module Hget).
    destruct (SlugMixin_save_assigns saved db self (lessons db) Hblank Hname
                Hparent)
      as (suffix & l & table' & _ & Hsave & _ & _ & _ & _ & Hnew).
    destruct (Hnew Hunsaved) as [Hl Htable].
    rewrite Hsave. cbn [mbind result_bind mret result_ret].
    exists l, (next_pk l_pk (lessons db)). rewrite Htable.
    split; [reflexivity|].
    assert (Hfields : l_module_id l = k
                      ∧ l_pk l = Some (next_pk l_pk (lessons db))
                      ∧ l_name l = ld_name data
                      ∧ l_duration_seconds l
                        = default 0 (ld_duration_seconds data))
      by (rewrite Hl; cbn; auto).
    destruct Hfields as (Hm & Hk & Hn & Hd).
    split; [exact Hm|]. split; [exact Hk|].
    split; [intros l' Hl'; apply (next_pk_fresh l_pk), Hl'|].
    split; [exact Hn|]. split; [exact Hd|]. split.
    { rewrite Hd. destruct (ld_duration_seconds data) as [seconds|]; cbn; [|lia].
      specialize (Hduration seconds eq_refl).
      unfold validate_duration_seconds in Hduration.
      destruct (Nat.ltb_spec (3600 * 4) seconds); [discriminate|lia]. }
    split.
    { cbn. apply filter_In. split.
      - apply in_app_iff. right. left. reflexivity.
      - rewrite Hm. apply Nat.eqb_refl. }
    intros Hnd c. apply total_lessons_after_insert; [exact Hnd|exact Hin|].
    rewrite Hm. exact Hpk.
Qed.

Example create_lesson_under_module20 :
  ∃ l db',
    LessonViewSet_perform_create 20 21 (Some 20)
      (mkLessonData "Blueprints" None None (Some 120) None) sample_db
    = Ok (l, db')
    ∧ l = mkLesson (Some 201) 20 "Blueprints" "blueprints" "" 120 0 20 21
    ∧ total_lessons db' course2 = 2 ∧ total_lessons db' course1 = 3.
Proof. eexists _, _. split; [vm_compute; reflexivity|]. repeat split. Qed.

(** ** CourseViewSet.publish and CourseViewSet.featured (core/views.py) *)

(** What a view may end in besides the errors of the store layer: a save
    restricted by [update_fields] that affects no row raises
    DatabaseError. *)
Inductive view_error : Type :=
| Raised (e : error)
| DatabaseError.

Inductive view_result (A : Type) : Type :=
| Returned (a : A)
| Aborted (e : view_error).

Arguments Returned {A} a.
Arguments Aborted {A} e.

Global Instance view_result_ret : MRet view_result := @Returned.
Global Instance view_result_bind : MBind view_result := λ A B k r,
  match r with
  | Returned a => k a
  | Aborted e => Aborted e
  end.

Definition raise_from {A : Type} (r : result A) : view_result A :=
  match r with
  | Ok a => Returned a
  | Err e => Aborted (Raised e)
  end.

(** The part of [SlugMixin.save] that runs before [super().save()]: the
    slug is assigned on the instance. *)
Definition SlugMixin_assign {A : Type} `{SlugModel A} (self : A) (table : list A)
    : result A :=
  if String.eqb (get_slug self) "" then
    let source := slug_source self in
    if negb (String.eqb source "") then
      let base := String.substring 0 200 (slugify source) in
      match slug_loop (S (length table)) table self base 2 base with
      | Some candidate => Ok (set_slug candidate self)
      | None => Err OutOfSteps
      end
    else Ok self
  else Ok self.

Lemma SlugMixin_save_assign {A : Type} `{SlugModel A} (now : time) (db : DB)
    (self : A) (table : list A) :
  SlugMixin_save now db self table
  = (assigned ← SlugMixin_assign self table; Model_save now db assigned table).
Proof.
  unfold SlugMixin_save, SlugMixin_assign.
  destruct (String.eqb (get_slug self) ""); [|reflexivity].
  destruct (negb (String.eqb (slug_source self) "")); [|reflexivity].
  cbv zeta. destruct (slug_loop _ table self _ 2 _); reflexivity.
Qed.

Lemma SlugMixin_assign_returns {A : Type} `{SlugModel A} (self : A)
    (table : list A) :
  ∃ assigned, SlugMixin_assign self table = Ok assigned
              ∧ get_pk assigned = get_pk self.
Proof.
  unfold SlugMixin_assign.
  destruct (String.eqb (get_slug self) ""); [|eauto].
  destruct (negb (String.eqb (slug_source self) "")); [|eauto].
  cbv zeta.
  destruct (slug_loop_returns table self
              (String.substring 0 200 (slugify (slug_source self)))) as [c ->].
  eexists. split; [reflexivity|apply pk_set_slug].
Qed.

Definition with_courses (cs : list Course) (db : DB) : DB :=
  mkDB cs (modules db) (lessons db) (enrollments db) (progress db)
    (course_tags db) (course_topics db) (course_instructors db).

Definition with_is_published (b : bool) (c : Course) : Course :=
  mkCourse (c_pk c) (c_name c) (c_slug c) (c_description c) b (c_order c)
    (c_created_at c) (c_updated_at c).

(** UPDATE ... SET the named columns: they are taken from the instance
    ([updated_at], being auto_now, from the clock), the others stay as the
    row has them. *)
Definition Course_write (now : time) (update_fields : list string)
    (instance row : Course) : Course :=
  let written (name : string) : bool := bool_decide (name ∈ update_fields) in
  mkCourse (c_pk row)
    (if written "name" then c_name instance else c_name row)
    (if written "slug" then c_slug instance else c_slug row)
    (if written "description" then c_description instance
     else c_description row)
    (if written "is_published" then c_is_published instance
     else c_is_published row)
    (if written "order" then c_order instance else c_order row)
    (if written "created_at" then c_created_at instance else c_created_at row)
    (if written "updated_at" then now else c_updated_at row).

(** [course.save(update_fields=...)]: the mixin assigns a slug on the
    instance if it has none, then only the named columns are written. *)
Definition Course_save_update_fields (now : time) (update_fields : list string)
    (self : Course) (db : DB) : view_result DB :=
  self ← raise_from (SlugMixin_assign self (courses db));
  match c_pk self with
  | None => Aborted (Raised ValueError)
  | Some k =>
      if existsb (λ r, pk_is (c_pk r) k) (courses db)
      then Returned
             (with_courses
                (map (λ r, if pk_is (c_pk r) k
                           then Course_write now update_fields self r else r)
                   (courses db)) db)
      else Aborted DatabaseError
  end.

Definition CourseViewSet_publish (now : time) (pk : pk_t) (db : DB)
    : view_result (Response * DB) :=
  course ← raise_from (get_object_or_404 c_pk (courses db) pk);
  let course := with_is_published true course in
  db' ← Course_save_update_fields now ["is_published"] course db;
  mret (mkResponse [("status", "published")], db').

(** [self.get_queryset().filter(is_published=True)] *)
Definition featured_courses (db : DB) : list Course :=
  List.filter c_is_published (courses db).

(** The rows after publishing [pk]: the course with that key has the flag
    set, nothing else differs. *)
Definition published (pk : pk_t) (rows : list Course) : list Course :=
  map (λ r, if pk_is (c_pk r) pk then with_is_published true r else r) rows.

Example publish_course2 :
  CourseViewSet_publish 70 2 sample_db
  = Returned (mkResponse [("status", "published")],
              with_courses
                [course1; mkCourse (Some 2) "Flask" "flask" "" true 1 9 9]
                sample_db).
Proof. vm_compute. reflexivity. Qed.

Lemma pk_is_spec (o : option pk_t) (k : pk_t) : pk_is o k = true ↔ o = Some k.
Proof.
  unfold pk_is. destruct o as [j|]; [|split; discriminate].
  rewrite Nat.eqb_eq. split; congruence.
Qed.

Lemma Course_assign_keeps (self assigned : Course) (table : list Course) :
  SlugMixin_assign self table = Ok assigned →
  c_pk assigned = c_pk self ∧ c_is_published assigned = c_is_published self.
Proof.
  unfold SlugMixin_assign.
  destruct (String.eqb (get_slug self) "");
    [|intros Heq; inversion Heq; auto].
  destruct (negb (String.eqb (slug_source self) ""));
    [|intros Heq; inversion Heq; auto].
  cbv zeta. destruct (slug_loop _ table self _ 2 _); [|discriminate].
  intros Heq. inversion Heq. auto.
Qed.

Lemma Course_write_flag (now : time) (instance row : Course) :
  Course_write now ["is_published"] instance row
  = with_is_published (c_is_published instance) row.
Proof. reflexivity. Qed.

Lemma published_lookup (pk : pk_t) (rows : list Course) (course : Course) :
  get_object_or_404 c_pk rows pk = Ok course →
  get_object_or_404 c_pk (published pk rows) pk
  = Ok (with_is_published true course).
Proof.
  unfold get_object_or_404, published.
  induction rows as [|r rows IH]; [discriminate|].
  cbn. destruct (pk_is (c_pk r) pk) eqn:Hk; cbn; rewrite Hk.
  - intros Heq. inversion Heq. reflexivity.
  - exact IH.
Qed.

Lemma published_other (pk : pk_t) (rows : list Course) (c : Course) :
  c_pk c ≠ Some pk → In c (published pk rows) ↔ In c rows.
Proof.
  intros Hne. unfold published. rewrite in_map_iff. split.
  - intros (r & Hr & Hin). destruct (pk_is (c_pk r) pk) eqn:Hk.
    + apply pk_is_spec in Hk. subst c. cbn in Hne. contradiction.
    + subst c. exact Hin.
  - intros Hin. exists c. split; [|exact Hin].
    destruct (pk_is (c_pk c) pk) eqn:Hk; [|reflexivity].
    apply pk_is_spec in Hk. contradiction.
Qed.

Lemma published_twice (pk : pk_t) (rows : list Course) :
  published pk (published pk rows) = published pk rows.
Proof.
  unfold published. rewrite map_map. apply map_ext. intros r.
  destruct (pk_is (c_pk r) pk) eqn:Hk; cbn; rewrite Hk; reflexivity.
Qed.

Lemma publish_returns (now : time) (pk : pk_t) (db : DB) (course : Course) :
  get_object_or_404 c_pk (courses db) pk = Ok course →
  CourseViewSet_publish now pk db
  = Returned (mkResponse [("status", "published")],
              with_courses (published pk (courses db)) db).
Proof.
  intros Hget. destruct (get_object_or_404_found _ _ _ _ Hget) as [Hin Hpk].
  unfold CourseViewSet_publish. rewrite Hget. cbn [raise_from mbind view_result_bind].
  unfold Course_save_update_fields.
  destruct (SlugMixin_assign_returns (with_is_published true course) (courses db))
    as (assigned & Hassign & _).
  rewrite Hassign. cbn [raise_from mbind view_result_bind].
  destruct (Course_assign_keeps _ _ _ Hassign) as [Hk Hflag].
  cbn in Hk, Hflag. rewrite Hk, Hpk.
  replace (existsb (λ r, pk_is (c_pk r) pk) (courses db)) with true.
  - cbn [mbind view_result_bind mret view_result_ret]. do 3 f_equal.
    unfold published.
    apply map_ext. intros r. rewrite Course_write_flag, Hflag. reflexivity.
  - symmetry. apply existsb_exists. exists course. split; [exact Hin|].
    apply pk_is_spec, Hpk.
Qed.

(** X8.  Publishing a course that does not exist answers Http404.
    Publishing a stored course answers [{status: published}] and sets
    [is_published] on that course and on nothing else: name, slug, order
    and both timestamps of the course stay as they were, every other row
    and table is untouched; the course is then among the featured ones,
    the other courses are featured exactly as before, and publishing again
    changes nothing. *)
Theorem publish_spec (now : time) (pk : pk_t) (db : DB) :
  (get_object_or_404 c_pk (courses db) pk = Err Http404 →
   CourseViewSet_publish now pk db = Aborted (Raised Http404))
  ∧ ∀ course, get_object_or_404 c_pk (courses db) pk = Ok course →
      let db' := with_courses (published pk (courses db)) db in
      CourseViewSet_publish now pk db
      = Returned (mkResponse [("status", "published")], db')
      ∧ get_object_or_404 c_pk (courses db') pk
        = Ok (with_is_published true course)
      ∧ In (with_is_published true course) (featured_courses db')
      ∧ (∀ c, c_pk c ≠ Some pk → In c (courses db') ↔ In c (courses db))
      ∧ (∀ c, c_pk c ≠ Some pk →
           In c (featured_courses db') ↔ In c (featured_courses db))
      ∧ ∀ later, CourseViewSet_publish later pk db'
                 = Returned (mkResponse [("status", "published")], db').
Proof.
  split.
  - intros Hget. unfold CourseViewSet_publish. rewrite Hget. reflexivity.
  - intros course Hget db'.
    pose proof (published_lookup pk (courses db) course Hget) as Hget'.
    split; [exact (publish_returns now pk db course Hget)|].
    split; [exact Hget'|]. split.
    { apply filter_In. split; [|reflexivity].
      exact (proj1 (get_object_or_404_found _ _ _ _ Hget')). }
    split; [intros c Hc; apply published_other, Hc|]. split.
    { intros c Hc. unfold featured_courses. rewrite !filter_In.
      cbn [courses db' with_courses]. rewrite (published_other pk _ c Hc).
      reflexivity. }
    intros later. rewrite (publish_returns later pk db' _ Hget').
    unfold db'. cbn [courses with_courses]. rewrite published_twice.
    reflexivity.
Qed.

(** [featured]: the published courses, one page of them if the view has a
    paginator, serialized like any other list of courses.  The paginator
    and its envelope belong to the settings; they are parameters here. *)
Definition CourseViewSet_featured
    (paginate_queryset : list Course → option (list Course))
    (get_paginated_response : json → json)
    (request : Request) (db : DB) (users : list User) : result json :=
  let serialize (cs : list Course) : result json :=
    items ← mapM (λ c, CourseSerializer_data db request
                         (CourseViewSet_prefetch db users c)) cs;
    mret (JList items) in
  match paginate_queryset (featured_courses db) with
  | Some page => data ← serialize page; mret (get_paginated_response data)
  | None => serialize (featured_courses db)
  end.

(** The full shape of a course, read from the store. *)
Definition Course_full_json (db : DB) (request : Request) (users : list User)
    (c : Course) : json :=
  JObj [("id", json_pk (c_pk c));
        ("name", JStr (c_name c));
        ("slug", JStr (c_slug c));
        ("description", JStr (c_description c));
        ("is_published", JBool (c_is_published c));
        ("tags", JList (map (λ k, JInt (Z.of_nat k))
                          (linked c (course_tags db))));
        ("topics", JList (map (λ k, JInt (Z.of_nat k))
                            (linked c (course_topics db))));
        ("instructors",
         JList (map UserSerializer_data
                  (List.filter
                     (λ u, bool_decide
                             (u_pk u ∈ linked c (course_instructors db)))
                     users)));
        ("modules", JList (map (Module_full_json db) (Course_modules db c)));
        ("total_lessons", JInt (Z.of_nat (total_lessons db c)));
        ("completion_rate", get_completion_rate db request c);
        ("created_at", JInt (c_created_at c));
        ("updated_at", JInt (c_updated_at c))].

Lemma CourseSerializer_full (db : DB) (request : Request) (users : list User)
    (c : Course) :
  unique_pks l_pk (lessons db) →
  Forall (λ l, is_Some (l_pk l)) (lessons db) →
  CourseSerializer_data db request (CourseViewSet_prefetch db users c)
  = Ok (Course_full_json db request users c).
Proof.
  intros Hpks Hsaved. unfold CourseSerializer_data, CourseViewSet_prefetch.
  cbn [pc_course pc_modules pc_tags pc_topics pc_instructors].
  rewrite (mapM_result_fmap _ _ (Module_full_json db))
    by (intros m _; apply prefetched_module_data; assumption).
  reflexivity.
Qed.

(** X9.  With unique, assigned primary keys on lessons and courses, and a
    paginator whose pages hold rows of the queryset it is given, the
    featured action answers one object per course it shows (the page, or
    every published course when the view does not paginate): each
    object is exactly what retrieving that course answers for the same
    request, every course shown is a stored, published course, and
    without a paginator every stored, published course is shown. *)
Theorem featured_matches_retrieve
    (paginate_queryset : list Course → option (list Course))
    (get_paginated_response : json → json)
    (request : Request) (db : DB) (users : list User) :
  unique_pks l_pk (lessons db) →
  Forall (λ l, is_Some (l_pk l)) (lessons db) →
  unique_pks c_pk (courses db) →
  Forall (λ c, is_Some (c_pk c)) (courses db) →
  (∀ queryset page, paginate_queryset queryset = Some page →
                    ∀ c, In c page → In c queryset) →
  ∃ shown objects,
    shown = default (featured_courses db)
              (paginate_queryset (featured_courses db))
    ∧ CourseViewSet_featured paginate_queryset get_paginated_response request
        db users
      = Ok (match paginate_queryset (featured_courses db) with
            | Some _ => get_paginated_response (JList objects)
            | None => JList objects
            end)
    ∧ Forall2 (λ c object,
                 ∃ k, c_pk c = Some k
                      ∧ CourseViewSet_retrieve request k db users = Ok object)
        shown objects
    ∧ (∀ c, In c shown → In c (courses db) ∧ c_is_published c = true)
    ∧ (paginate_queryset (featured_courses db) = None →
       ∀ c, In c (courses db) → c_is_published c = true → In c shown).
Proof.
  intros Hpks Hsaved Hcpks Hcsaved Hpage.
  set (shown := default (featured_courses db)
                  (paginate_queryset (featured_courses db))).
  assert (Hshown : ∀ c, In c shown → In c (courses db) ∧ c_is_published c = true).
  { intros c Hc. apply filter_In. fold (featured_courses db).
    unfold shown in Hc.
    destruct (paginate_queryset (featured_courses db)) as [page|] eqn:Hp;
      [exact (Hpage _ page Hp c Hc)|exact Hc]. }
  exists shown, (map (Course_full_json db request users) shown).
  split; [reflexivity|]. split.
  { unfold CourseViewSet_featured, shown.
    destruct (paginate_queryset (featured_courses db)) as [page|]; cbn [default];
      rewrite (mapM_result_map _ (Course_full_json db request users))
        by (intros c _; apply CourseSerializer_full; assumption);
      reflexivity. }
  split.
  { clear -Hshown Hpks Hsaved Hcpks Hcsaved.
    induction shown as [|c shown IH]; cbn; constructor.
    - destruct (Hshown c (or_introl eq_refl)) as [Hin _].
      destruct (proj1 (List.Forall_forall _ _) Hcsaved c Hin) as [k Hk].
      exists k. split; [exact Hk|]. unfold CourseViewSet_retrieve.
      rewrite (get_object_or_404_unique c_pk (courses db) k c Hcpks Hin Hk).
      apply CourseSerializer_full; assumption.
    - apply IH. intros c' Hc'. apply Hshown. right. exact Hc'. }
  split; [exact Hshown|].
  intros Hnone c Hin Hpub. unfold shown. rewrite Hnone. cbn.
  apply filter_In. auto.
Qed.

Lemma featured_matches_retrieve_witness :
  ∃ object,
    CourseViewSet_featured (λ _, None) id user9 sample_db sample_users
    = Ok (JList [object])
    ∧ CourseViewSet_retrieve user9 1 sample_db sample_users = Ok object.
Proof.
  pose proof (pk_lessons _ sample_primary_keys) as Hpks.
  pose proof (pk_courses _ sample_primary_keys) as Hcpks.
  assert (Hsaved : Forall (λ l, is_Some (l_pk l)) (lessons sample_db))
    by (repeat constructor; eexists; reflexivity).
  assert (Hcsaved : Forall (λ c, is_Some (c_pk c)) (courses sample_db))
    by (repeat constructor; eexists; reflexivity).
  assert (Hpage : ∀ queryset page, (λ _ : list Course, @None (list Course))
                                     queryset = Some page →
                                   ∀ c, In c page → In c queryset)
    by (intros queryset page Hp; discriminate).
  destruct (featured_matches_retrieve (λ _, None) id user9 sample_db
              sample_users Hpks Hsaved Hcpks Hcsaved Hpage)
    as (shown & objects & Hshown & Hfeatured & Hall & _).
  cbn in Hshown. subst shown.
  inversion Hall as [|c object shown' objects' (k & Hk & Hretrieve) Hrest];
    subst.
  inversion Hrest; subst.
  injection Hk as <-.
  exists object. split; [exact Hfeatured|exact Hretrieve].
Defined.

(** ** What a cascade leaves behind *)

(** Every foreign key points at a stored row. *)
Record referential_integrity (db : DB) : Prop := {
  ri_modules : ∀ m, In m (modules db) →
    ∃ c, In c (courses db) ∧ c_pk c = Some (m_course_id m);
  ri_lessons : ∀ l, In l (lessons db) →
    ∃ m, In m (modules db) ∧ m_pk m = Some (l_module_id l);
  ri_enrollments : ∀ e, In e (enrollments db) →
    ∃ c, In c (courses db) ∧ c_pk c = Some (e_course_id e);
  ri_progress : ∀ p, In p (progress db) →
    ∃ l, In l (lessons db) ∧ l_pk l = Some (lp_lesson_id p);
  ri_tags : ∀ link, In link (course_tags db) →
    ∃ c, In c (courses db) ∧ c_pk c = Some (fst link);
  ri_topics : ∀ link, In link (course_topics db) →
    ∃ c, In c (courses db) ∧ c_pk c = Some (fst link);
  ri_instructors : ∀ link, In link (course_instructors db) →
    ∃ c, In c (courses db) ∧ c_pk c = Some (fst link)
}.

Lemma without_In {A : Type} (collected : A → bool) (rows : list A) (r : A) :
  In r (without collected rows) ↔ In r rows ∧ collected r = false.
Proof.
  unfold without. rewrite filter_In, negb_true_iff. reflexivity.
Qed.

Lemma course_kept (db : DB) (course_id k : pk_t) (c : Course) :
  In c (courses db) → c_pk c = Some k → k ≠ course_id →
  In c (without (λ c, pk_is (c_pk c) course_id) (courses db)).
Proof.
  intros Hin Hk Hne. apply without_In. split; [exact Hin|].
  apply not_true_iff_false. rewrite pk_is_spec. congruence.
Qed.

Lemma unique_pks_without {A : Type} (pk : A → option pk_t)
    (collected : A → bool) (rows : list A) :
  unique_pks pk rows → unique_pks pk (without collected rows).
Proof. apply unique_pks_filter. Qed.

(** X10.  Deleting a course leaves no dangling reference: if every foreign
    key of the store pointed at a stored row before, it does so after, and
    primary keys stay unique.  Modules and enrollments of other courses,
    and the lessons and progress rows under them, are all still there. *)
Theorem Course_delete_keeps_integrity (db db' : DB) (c : Course) :
  referential_integrity db →
  primary_keys db →
  Course_delete c db = Ok db' →
  referential_integrity db'
  ∧ primary_keys db'
  ∧ (∀ m, In m (modules db) → Some (m_course_id m) ≠ c_pk c → In m (modules db'))
  ∧ (∀ e, In e (enrollments db) → Some (e_course_id e) ≠ c_pk c →
       In e (enrollments db'))
  ∧ (∀ m l, In m (modules db) → Some (m_course_id m) ≠ c_pk c →
       In l (lessons db) → m_pk m = Some (l_module_id l) → In l (lessons db'))
  ∧ (∀ m l p, In m (modules db) → Some (m_course_id m) ≠ c_pk c →
       In l (lessons db) → m_pk m = Some (l_module_id l) →
       In p (progress db) → l_pk l = Some (lp_lesson_id p) →
       In p (progress db')).
Proof.
  intros [Hm Hl He Hp Htag Htop Hins] [Hcs Hms Hls Hes Hps] Hdel.
  unfold Course_delete in Hdel.
  destruct (c_pk c) as [course_id|] eqn:Hc; [|discriminate].
  inversion Hdel; subst db'; clear Hdel.
  assert (Hlesson_kept : ∀ m l, In m (modules db) → m_course_id m ≠ course_id →
            In l (lessons db) → m_pk m = Some (l_module_id l) →
            lesson_collected db course_id l = false).
  { intros m l Hmin Hne Hlin Hpk. apply existsb_false_in. intros m' Hm'.
    destruct (pk_is (m_pk m') (l_module_id l)) eqn:Hk;
      [|apply andb_false_r].
    apply pk_is_spec in Hk.
    rewrite (unique_pk_same_row m_pk (modules db) m' m _ Hms Hm' Hmin Hk Hpk).
    unfold module_collected.
    replace (Nat.eqb (m_course_id m) course_id) with false; [reflexivity|].
    symmetry. apply Nat.eqb_neq, Hne. }
  assert (Hprogress_kept : ∀ l p, In l (lessons db) →
            lesson_collected db course_id l = false →
            In p (progress db) → l_pk l = Some (lp_lesson_id p) →
            progress_collected db course_id p = false).
  { intros l p Hlin Hkept Hpin Hpk. apply existsb_false_in. intros l' Hl'.
    destruct (pk_is (l_pk l') (lp_lesson_id p)) eqn:Hk; [|apply andb_false_r].
    apply pk_is_spec in Hk.
    rewrite (unique_pk_same_row l_pk (lessons db) l' l _ Hls Hl' Hlin Hk Hpk).
    rewrite Hkept. reflexivity. }
  assert (Hlink : ∀ links, (∀ link, In link links →
              ∃ c0, In c0 (courses db) ∧ c_pk c0 = Some (fst link)) →
            ∀ link, In link (without (link_collected course_id) links) →
            ∃ c0, In c0 (without (λ c, pk_is (c_pk c) course_id) (courses db))
                  ∧ c_pk c0 = Some (fst link)).
  { intros links Hlinks link Hin. apply without_In in Hin as [Hin Hk].
    destruct (Hlinks link Hin) as (c0 & Hc0 & Hpk). exists c0.
    split; [|exact Hpk]. apply (course_kept db course_id (fst link));
      [exact Hc0|exact Hpk|apply Nat.eqb_neq, Hk]. }
  split; [|split; [|split; [|split; [|split]]]].
  - split; cbn.
    + intros m Hin. apply without_In in Hin as [Hin Hk].
      destruct (Hm m Hin) as (c0 & Hc0 & Hpk). exists c0. split; [|exact Hpk].
      apply (course_kept db course_id (m_course_id m));
        [exact Hc0|exact Hpk|apply Nat.eqb_neq, Hk].
    + intros l Hin. apply without_In in Hin as [Hin Hk].
      destruct (Hl l Hin) as (m & Hmin & Hpk). exists m. split; [|exact Hpk].
      apply without_In. split; [exact Hmin|].
      pose proof (proj1 (existsb_false_in_iff _ _) Hk m Hmin) as Hm0.
      cbn beta in Hm0.
      replace (pk_is (m_pk m) (l_module_id l)) with true in Hm0
        by (symmetry; apply pk_is_spec, Hpk).
      rewrite andb_true_r in Hm0. exact Hm0.
    + intros e Hin. apply without_In in Hin as [Hin Hk].
      destruct (He e Hin) as (c0 & Hc0 & Hpk). exists c0. split; [|exact Hpk].
      apply (course_kept db course_id (e_course_id e));
        [exact Hc0|exact Hpk|apply Nat.eqb_neq, Hk].
    + intros p Hin. apply without_In in Hin as [Hin Hk].
      destruct (Hp p Hin) as (l & Hlin & Hpk). exists l. split; [|exact Hpk].
      apply without_In. split; [exact Hlin|].
      pose proof (proj1 (existsb_false_in_iff _ _) Hk l Hlin) as Hl0.
      cbn beta in Hl0.
      replace (pk_is (l_pk l) (lp_lesson_id p)) with true in Hl0
        by (symmetry; apply pk_is_spec, Hpk).
      rewrite andb_true_r in Hl0. exact Hl0.
    + apply Hlink, Htag.
    + apply Hlink, Htop.
    + apply Hlink, Hins.
  - split; cbn; apply unique_pks_without; assumption.
  - intros m Hin Hne. cbn. apply without_In. split; [exact Hin|].
    apply Nat.eqb_neq. congruence.
  - intros e Hin Hne. cbn. apply without_In. split; [exact Hin|].
    apply Nat.eqb_neq. congruence.
  - intros m l Hmin Hne Hlin Hpk. cbn. apply without_In. split; [exact Hlin|].
    apply (Hlesson_kept m l); [exact Hmin|congruence|exact Hlin|exact Hpk].
  - intros m l p Hmin Hne Hlin Hpk Hpin Hppk. cbn. apply without_In.
    split; [exact Hpin|].
    apply (Hprogress_kept l p); [exact Hlin| |exact Hpin|exact Hppk].
    apply (Hlesson_kept m l); [exact Hmin|congruence|exact Hlin|exact Hpk].
Qed.

Ltac find_referenced :=
  match goal with
  | |- ∃ x, In x ?rows ∧ ?pk x = Some ?k =>
      let x := fresh "x" in
      let Hx := fresh "Hx" in
      assert (∃ x, get_object_or_404 pk rows k = Ok x) as [x Hx]
        by (eexists; vm_compute; reflexivity);
      exists x; exact (get_object_or_404_found _ _ _ _ Hx)
  end.

Lemma sample_referential_integrity : referential_integrity sample_db.
Proof.
  split; apply List.Forall_forall; repeat (constructor; [find_referenced|]);
    constructor.
Qed.

Lemma Course_delete_keeps_integrity_witness :
  referential_integrity sample_db
  ∧ primary_keys sample_db
  ∧ ∃ db',
      Course_delete course1 sample_db = Ok db'
      ∧ referential_integrity db'
      ∧ primary_keys db'
      ∧ In (mkLessonProgress (Some 4) (Some 7) 200 true (Some 13%Z))
          (progress db').
Proof.
  split; [exact sample_referential_integrity|].
  split; [exact sample_primary_keys|].
  eexists. split; [reflexivity|].
  destruct (Course_delete_keeps_integrity sample_db _ course1
              sample_referential_integrity sample_primary_keys eq_refl)
    as (Hri & Hpk & _ & _ & _ & Hp).
  split; [exact Hri|]. split; [exact Hpk|].
  apply (Hp (mkModule (Some 20) 2 "Intro" "intro-2" "" 0 0 0)
            (mkLesson (Some 200) 20 "Routes" "routes" "@app.route" 45 0 0 0));
    [cbn; auto|discriminate|cbn; auto|reflexivity|cbn; auto 10|reflexivity].
Defined.

(** X11.  DELETE on a course that does not exist answers Http404.  After
    a successful DELETE the same request answers Http404, and so do
    retrieving and publishing the course. *)
Theorem destroy_then_not_found (request : Request) (now : time) (pk : pk_t)
    (db : DB) (users : list User) :
  (get_object_or_404 c_pk (courses db) pk = Err Http404 →
   CourseViewSet_destroy pk db = Err Http404)
  ∧ ∀ course, get_object_or_404 c_pk (courses db) pk = Ok course →
      ∃ db', CourseViewSet_destroy pk db = Ok (tt, db')
             ∧ CourseViewSet_destroy pk db' = Err Http404
             ∧ CourseViewSet_retrieve request pk db' users = Err Http404
             ∧ CourseViewSet_publish now pk db' = Aborted (Raised Http404)
             ∧ modules db'
               = without (module_collected pk) (modules db).
Proof.
  split.
  - intros Hget. unfold CourseViewSet_destroy. rewrite Hget. reflexivity.
  - intros course Hget.
    destruct (get_object_or_404_found _ _ _ _ Hget) as [_ Hpk].
    unfold CourseViewSet_destroy at 1. rewrite Hget. cbn [mbind result_bind].
    unfold Course_delete. rewrite Hpk. cbn [mbind result_bind mret result_ret].
    eexists. split; [reflexivity|].
    assert (Hgone : get_object_or_404 c_pk
                      (without (λ c, pk_is (c_pk c) pk) (courses db)) pk
                    = Err Http404) by apply deleted_pk_not_found.
    unfold CourseViewSet_destroy, CourseViewSet_retrieve, CourseViewSet_publish.
    cbn [courses modules]. rewrite Hgone. repeat split.
Qed.

(** ** Bounds on the counts behind the percentage *)

Lemma NoDup_map_filter {A B : Type} (f : A → B) (keep : A → bool)
    (rows : list A) :
  NoDup (map f rows) → NoDup (map f (List.filter keep rows)).
Proof.
  induction rows as [|r rows IH]; intros Hnd; [constructor|].
  cbn in Hnd. apply NoDup_cons in Hnd as [Hr Hnd]. cbn.
  destruct (keep r); [|exact (IH Hnd)].
  cbn. apply NoDup_cons. split; [|exact (IH Hnd)].
  intros Hin. apply Hr. apply list_elem_of_In, in_map_iff in Hin as (x & Hx & Hin).
  apply filter_In in Hin as [Hin _]. rewrite <- Hx.
  apply list_elem_of_In, in_map, Hin.
Qed.

Lemma NoDup_map_inj {A B : Type} (f : A → B) (xs : list A) :
  (∀ x y, f x = f y → x = y) → NoDup xs → NoDup (map f xs).
Proof.
  intros Hinj. induction 1 as [|x xs Hx _ IH]; cbn; constructor; [|exact IH].
  intros Hin. apply Hx. apply list_elem_of_In, in_map_iff in Hin as (y & Hy & Hin).
  apply Hinj in Hy. subst y. apply list_elem_of_In, Hin.
Qed.

(** X12.  With unique primary keys on modules and lessons and at most one
    progress row per (user, lesson), the number of lessons a user has
    completed in a course never exceeds the number of lessons of the
    course: the quotient [completion_for] rounds is at most 1. *)
Theorem completed_never_exceeds_total (db : DB) (c : Course) (u : pk_t) :
  unique_pks m_pk (modules db) →
  unique_pks l_pk (lessons db) →
  NoDup (map progress_key (progress db)) →
  completed_count db c u ≤ total_lessons db c.
Proof.
  intros Hm Hl Hkeys.
  rewrite (completed_count_under db c u Hm Hl), (total_lessons_under db c Hm).
  unfold completed_under_count, lessons_under_count.
  set (counted := List.filter (progress_counts db c u) (progress db)).
  set (under := List.filter (lesson_under db c) (lessons db)).
  rewrite <- (length_map (λ p, Some (lp_lesson_id p)) counted).
  rewrite <- (length_map l_pk under).
  apply submseteq_length, NoDup_submseteq.
  - assert (Hnd : NoDup (map progress_key counted))
      by (apply NoDup_map_filter, Hkeys).
    rewrite (map_ext_in progress_key
               (λ p, (Some u, lp_lesson_id p))) in Hnd.
    + rewrite <- (map_map lp_lesson_id (pair (Some u))) in Hnd.
      apply (NoDup_fmap_1 (pair (Some u))) in Hnd.
      rewrite <- (map_map lp_lesson_id Some).
      apply NoDup_map_inj; [intros x y Hxy; congruence|exact Hnd].
    + intros p Hp. apply filter_In in Hp as [_ Hp].
      unfold progress_counts in Hp.
      apply andb_prop in Hp as [Hp _]. apply andb_prop in Hp as [Hp _].
      apply pk_is_spec in Hp. unfold progress_key. rewrite Hp. reflexivity.
  - intros k Hk. apply list_elem_of_In, in_map_iff in Hk as (p & <- & Hp).
    apply filter_In in Hp as [_ Hp]. unfold progress_counts in Hp.
    apply andb_prop in Hp as [_ Hp].
    apply existsb_exists in Hp as (l & Hlin & Hlp).
    apply andb_prop in Hlp as [Hpk Hunder]. apply pk_is_spec in Hpk.
    rewrite <- Hpk. apply list_elem_of_In, in_map. apply filter_In. auto.
Qed.

Lemma completed_never_exceeds_total_witness :
  unique_pks m_pk (modules sample_db)
  ∧ unique_pks l_pk (lessons sample_db)
  ∧ NoDup (map progress_key (progress sample_db))
  ∧ completed_count sample_db course1 7 ≤ total_lessons sample_db course1.
Proof.
  pose proof (pk_modules _ sample_primary_keys) as Hm.
  pose proof (pk_lessons _ sample_primary_keys) as Hl.
  pose proof (progress_unique_together _ sample_progress_constraints) as Hk.
  split; [exact Hm|]. split; [exact Hl|]. split; [exact Hk|].
  exact (completed_never_exceeds_total sample_db course1 7 Hm Hl Hk).
Defined.

Lemma sum_list_map_plus {A : Type} (f g : A → nat) (xs : list A) :
  sum_list (map (λ x, f x + g x) xs) = sum_list (map f xs) + sum_list (map g xs).
Proof. induction xs as [|x xs IH]; cbn; [reflexivity|]. rewrite IH. lia. Qed.

(** Counting the pairs of a join row by row or column by column. *)
Lemma double_count {A B : Type} (R : A → B → bool) (Q : B → bool)
    (xs : list A) (ys : list B) :
  sum_list (map (λ x, length (List.filter (λ y, R x y && Q y) ys)) xs)
  = sum_list (map (λ y, length (List.filter (λ x, R x y) xs)) (List.filter Q ys)).
Proof.
  induction ys as [|y ys IH].
  - cbn. apply sum_list_zero.
  - rewrite (sum_list_map_ext _
               (λ x, (if R x y && Q y then 1 else 0)
                     + length (List.filter (λ y, R x y && Q y) ys)))
      by (intros x _; cbn; destruct (R x y && Q y); reflexivity).
    rewrite sum_list_map_plus, IH. cbn [List.filter].
    destruct (Q y).
    + cbn [map sum_list sum_list_with]. f_equal.
      rewrite <- sum_indicator. apply sum_list_map_ext.
      intros x _. rewrite andb_true_r. reflexivity.
    + rewrite (sum_list_map_ext _ (λ _, 0))
        by (intros x _; rewrite andb_false_r; reflexivity).
      rewrite sum_list_zero. reflexivity.
Qed.

Lemma flat_map_length {A B : Type} (f : A → list B) (xs : list A) :
  length (flat_map f xs) = sum_list (map (λ x, length (f x)) xs).
Proof.
  induction xs as [|x xs IH]; cbn; [reflexivity|].
  rewrite length_app, IH. reflexivity.
Qed.

Lemma sum_list_map_Permutation {A : Type} (f : A → nat) (xs ys : list A) :
  xs ≡ₚ ys → sum_list (map f xs) = sum_list (map f ys).
Proof. induction 1; cbn; lia. Qed.

(** The lessons the full shape nests under a course are as many as
    [total_lessons] counts. *)
Lemma nested_count (db : DB) (c : Course) :
  length (flat_map (λ m, map Lesson_full_json (Module_lessons db m))
            (Course_modules db c))
  = total_lessons db c.
Proof.
  rewrite flat_map_length. unfold Course_modules, order_by.
  rewrite (sum_list_map_Permutation _ _ _ (merge_sort_Permutation _ _)).
  rewrite (sum_list_map_ext _
             (λ m, length (List.filter
                             (λ l, pk_is (m_pk m) (l_module_id l)) (lessons db)))).
  - unfold total_lessons, lesson_module. rewrite inner_join_count.
    symmetry.
    apply (double_count (λ l m, pk_is (m_pk m) (l_module_id l))
             (λ m, fk_refers (m_course_id m) (c_pk c))).
  - intros m _. rewrite length_map. unfold Module_lessons, order_by.
    apply Permutation_length, merge_sort_Permutation.
Qed.

(** X13.  In the full shape of a course the [total_lessons] member equals
    the number of lesson objects nested under its modules. *)
Theorem total_lessons_counts_nested (db : DB) (request : Request) (pk : pk_t)
    (users : list User) (course : Course) :
  unique_pks l_pk (lessons db) →
  Forall (λ l, is_Some (l_pk l)) (lessons db) →
  get_object_or_404 c_pk (courses db) pk = Ok course →
  ∃ body,
    CourseViewSet_retrieve request pk db users = Ok body
    ∧ member "total_lessons" body
      = JInt (Z.of_nat (length (nested_lessons body)))
    ∧ length (items (member "modules" body))
      = length (List.filter (λ m, fk_refers (m_course_id m) (c_pk course))
                  (modules db)).
Proof.
  intros Hpks Hsaved Hget.
  exists (Course_full_json db request users course).
  assert (Hbody : CourseViewSet_retrieve request pk db users
                  = Ok (Course_full_json db request users course)).
  { unfold CourseViewSet_retrieve. rewrite Hget. cbn [mbind result_bind].
    apply CourseSerializer_full; assumption. }
  split; [exact Hbody|]. split.
  - change (member "total_lessons" (Course_full_json db request users course))
      with (JInt (Z.of_nat (total_lessons db course))).
    do 2 f_equal. rewrite <- (nested_count db course).
    change (nested_lessons (Course_full_json db request users course))
      with (flat_map (λ m, items (member "lessons" m))
              (map (Module_full_json db) (Course_modules db course))).
    rewrite nested_lessons_of_modules. reflexivity.
  - change (items (member "modules" (Course_full_json db request users course)))
      with (map (Module_full_json db) (Course_modules db course)).
    rewrite length_map. unfold Course_modules, order_by.
    apply Permutation_length, merge_sort_Permutation.
Qed.

Lemma total_lessons_counts_nested_witness :
  unique_pks l_pk (lessons sample_db)
  ∧ Forall (λ l, is_Some (l_pk l)) (lessons sample_db)
  ∧ get_object_or_404 c_pk (courses sample_db) 1 = Ok course1
  ∧ ∃ body,
      CourseViewSet_retrieve anonymous 1 sample_db sample_users = Ok body
      ∧ member "total_lessons" body = JInt 3
      ∧ length (nested_lessons body) = 3.
Proof.
  pose proof (pk_lessons _ sample_primary_keys) as Hpks.
  assert (Hsaved : Forall (λ l, is_Some (l_pk l)) (lessons sample_db))
    by (repeat constructor; eexists; reflexivity).
  split; [exact Hpks|]. split; [exact Hsaved|]. split; [reflexivity|].
  destruct (total_lessons_counts_nested sample_db anonymous 1 sample_users
              course1 Hpks Hsaved eq_refl) as (body & Hbody & Htotal & _).
  exists body. split; [exact Hbody|].
  assert (Hbody' : CourseViewSet_retrieve anonymous 1 sample_db sample_users
                   = Ok (Course_full_json sample_db anonymous sample_users
                           course1))
    by (vm_compute; reflexivity).
  rewrite Hbody in Hbody'. inversion Hbody'; subst body.
  split; vm_compute; reflexivity.
Defined.

(** ** More on the slug assigner *)




Section SlugBound.
Context {A : Type} `{SlugModel A}.
Variables (table : list A) (self : A) (base : string).


End SlugBound.



Lemma NoDup_map_eq {A B : Type} (f : A → B) (xs : list A) (a b : A) :
  NoDup (map f xs) → In a xs → In b xs → f a = f b → a = b.
Proof.
  induction xs as [|x xs IH]; cbn; [intros _ []|].
  intros Hnd Ha Hb Hf. apply NoDup_cons in Hnd as [Hx Hnd].
  destruct Ha as [->|Ha], Hb as [->|Hb]; [reflexivity| | |auto].
  - exfalso. apply Hx. rewrite Hf. apply list_elem_of_In, in_map, Hb.
  - exfalso. apply Hx. rewrite <- Hf. apply list_elem_of_In, in_map, Ha.
Qed.



(** ** More on the dynamic shape *)

Lemma mapM_keyed_filter {A : Type} (value : string → option A)
    (p : string → bool) (fields : list string) (members : list (string * A)) :
  mapM (λ f, v ← value f; Some (f, v)) fields = Some members →
  mapM (λ f, v ← value f; Some (f, v)) (List.filter p fields)
  = Some (List.filter (λ m, p m.1) members).
Proof.
  revert members. induction fields as [|f fields IH]; intros members; cbn.
  - intros [= <-]. reflexivity.
  - destruct (value f) as [v|] eqn:Hv; cbn; [|discriminate].
    destruct (mapM _ fields) as [rest|]; cbn; [|discriminate].
    intros [= <-]. specialize (IH rest eq_refl). cbn.
    destruct (p f); cbn; [rewrite Hv; cbn|]; rewrite IH; reflexivity.
Qed.

Lemma dynamic_data_requested (F : list string) (db : DB) (course : Course)
    (full : list (string * json)) :
  F ≠ [] →
  CourseDynamicSerializer_data None db course = Some full →
  CourseDynamicSerializer_data (Some F) db course
  = Some (List.filter (λ m, bool_decide (m.1 ∈ F)) full).
Proof.
  intros HF Hfull. destruct F as [|f0 fs]; [contradiction|].
  unfold CourseDynamicSerializer_data.
  rewrite CourseDynamicSerializer_init_requested.
  apply (mapM_keyed_filter _ (λ f, bool_decide (f ∈ f0 :: fs))), Hfull.
Qed.

Lemma dynamic_full_keys (db : DB) (course : Course) (full : list (string * json)) :
  CourseDynamicSerializer_data None db course = Some full →
  keys full = CourseDynamicSerializer_Meta_fields.
Proof.
  intros Hfull.
  destruct (CourseDynamicSerializer_data_keys None db course)
    as (members & Hdata & Hkeys).
  rewrite Hfull in Hdata. inversion Hdata; subst members. exact Hkeys.
Qed.

(** X16.  The dynamic shape for a non-empty request is the full shape
    with the members not requested left out: a member that stays has the
    value it has in the full shape, whatever else is requested.  So the
    answer depends only on which declared names the request contains, not
    on their order, their repetition or the other names in it; and a
    request that names no declared field at all gives the empty object,
    not the full one that the empty request gives. *)
Theorem dynamic_shape_filters_full (F : list string) (db : DB) (course : Course) :
  F ≠ [] →
  ∃ full,
    CourseDynamicSerializer_data None db course = Some full
    ∧ keys full = ["id"; "name"; "slug"; "description"; "modules"]
    ∧ CourseDynamicSerializer_data (Some F) db course
      = Some (List.filter (λ m, bool_decide (m.1 ∈ F)) full)
    ∧ (∀ G, G ≠ [] →
         (∀ f, f ∈ CourseDynamicSerializer_Meta_fields → f ∈ F ↔ f ∈ G) →
         CourseDynamicSerializer_data (Some G) db course
         = CourseDynamicSerializer_data (Some F) db course)
    ∧ ((∀ f, f ∈ F → f ∉ CourseDynamicSerializer_Meta_fields) →
       CourseDynamicSerializer_data (Some F) db course = Some []).
Proof.
  intros HF.
  destruct (CourseDynamicSerializer_data_keys None db course)
    as (full & Hfull & Hkeys).
  exists full. split; [exact Hfull|]. split; [exact Hkeys|].
  split; [exact (dynamic_data_requested F db course full HF Hfull)|].
  assert (Hdeclared : ∀ m, In m full → m.1 ∈ CourseDynamicSerializer_Meta_fields).
  { intros m Hm. change CourseDynamicSerializer_Meta_fields
      with (CourseDynamicSerializer_init None). rewrite <- Hkeys.
    apply list_elem_of_In. unfold keys. apply in_map, Hm. }
  split.
  - intros G HG Hsame.
    rewrite (dynamic_data_requested G db course full HG Hfull),
            (dynamic_data_requested F db course full HF Hfull).
    f_equal. apply filter_ext_in_list. intros m Hm.
    apply bool_decide_ext. symmetry. apply Hsame, Hdeclared, Hm.
  - intros Hnone.
    rewrite (dynamic_data_requested F db course full HF Hfull). f_equal.
    assert (Hall : ∀ m, In m full → bool_decide (m.1 ∈ F) = false).
    { intros m Hm. apply bool_decide_eq_false_2. intros Hin.
      exact (Hnone _ Hin (Hdeclared m Hm)). }
    clear -Hall. induction full as [|m full IH]; [reflexivity|]. cbn.
    rewrite (Hall m (or_introl eq_refl)). apply IH.
    intros m' Hm'. apply Hall. right. exact Hm'.
Qed.

Lemma dynamic_shape_filters_full_witness :
  CourseDynamicSerializer_data (Some ["created_at"; "title"]) sample_db course1
  = Some []
  ∧ CourseDynamicSerializer_data (Some ["slug"; "name"; "slug"; "x"]) sample_db
      course1
    = CourseDynamicSerializer_data (Some ["name"; "slug"]) sample_db course1.
Proof.
  split.
  - destruct (dynamic_shape_filters_full ["created_at"; "title"] sample_db
                course1 ltac:(discriminate)) as (full & _ & _ & _ & _ & Hnone).
    apply Hnone. intros f Hf. vm_compute in Hf.
    apply elem_of_cons in Hf as [->|Hf];
      [|apply elem_of_cons in Hf as [->|Hf]; [|apply elem_of_nil in Hf; destruct Hf]];
      apply (bool_decide_eq_false_1 _); vm_compute; reflexivity.
  - destruct (dynamic_shape_filters_full ["name"; "slug"] sample_db
                course1 ltac:(discriminate)) as (full & _ & _ & _ & Hsame & _).
    apply Hsame; [discriminate|]. intros f Hf.
    unfold CourseDynamicSerializer_Meta_fields in Hf.
    repeat (apply elem_of_cons in Hf as [->|Hf];
            [split; intros Hin;
             first [ apply (bool_decide_unpack _); vm_compute; exact I
                   | exfalso; revert Hin; apply (bool_decide_eq_false_1 _);
                     vm_compute; reflexivity ]|]).
    apply elem_of_nil in Hf. destruct Hf.
Defined.

(** ** Enrollment.progress_percent and EnrollmentSerializer *)

(** [self.course] and [self.user]: the row the foreign key names is
    fetched when the attribute is read. *)
Definition related {A : Type} (pk : A → option pk_t) (rows : list A)
    (k : pk_t) : result A :=
  match List.filter (λ r, pk_is (pk r) k) rows with
  | r :: _ => Ok r
  | [] => Err DoesNotExist
  end.






Lemma related_found {A : Type} (pk : A → option pk_t) (rows : list A)
    (k : pk_t) :
  (∃ r, In r rows ∧ pk r = Some k) →
  ∃ r, related pk rows k = Ok r ∧ In r rows ∧ pk r = Some k.
Proof.
  intros (r0 & Hin & Hpk). unfold related.
  destruct (List.filter (λ r, pk_is (pk r) k) rows) as [|r rest] eqn:Hf.
  - assert (Hr0 : In r0 (List.filter (λ r, pk_is (pk r) k) rows)).
    { apply filter_In. split; [exact Hin|]. apply pk_is_spec, Hpk. }
    rewrite Hf in Hr0. destruct Hr0.
  - assert (Hr : In r (List.filter (λ r, pk_is (pk r) k) rows))
      by (rewrite Hf; left; reflexivity).
    apply filter_In in Hr as [Hr Hk]. exists r.
    split; [reflexivity|]. split; [exact Hr|]. apply pk_is_spec, Hk.
Qed.



(** ** users/models.py and users/signals.py *)

Record UserProfile : Type := mkUserProfile {
  up_pk : option pk_t;
  up_user_id : pk_t;                 (* OneToOneField: unique, NOT NULL *)
  up_display_name : string;
  up_bio : string
}.

(** [return self.display_name or self.user.username] *)
Definition UserProfile_str (users : list User) (self : UserProfile)
    : result string :=
  if String.eqb (up_display_name self) "" then
    user ← related (λ u, Some (u_pk u)) users (up_user_id self);
    mret (u_username user)
  else mret (up_display_name self).

(** [Model.save] on the profile table: the one-to-one column is UNIQUE
    and names a stored user; an instance whose primary key is in the
    table is updated in place, any other is inserted under a key no
    stored row has. *)
Definition profile_of_user_taken (profiles : list UserProfile)
    (self : UserProfile) : bool :=
  existsb (λ r, Nat.eqb (up_user_id r) (up_user_id self)
                && negb (bool_decide (up_pk r = up_pk self ∧ is_Some (up_pk r))))
    profiles.

Definition user_stored (users : list User) (user_id : pk_t) : bool :=
  existsb (λ u, Nat.eqb (u_pk u) user_id) users.

Definition UserProfile_save (users : list User) (self : UserProfile)
    (profiles : list UserProfile) : result (UserProfile * list UserProfile) :=
  if profile_of_user_taken profiles self then Err IntegrityError
  else if negb (user_stored users (up_user_id self)) then Err IntegrityError
  else
    match up_pk self with
    | Some k =>
        if existsb (λ r, pk_is (up_pk r) k) profiles
        then Ok (self, map (λ r, if pk_is (up_pk r) k then self else r) profiles)
        else Ok (self, profiles ++ [self])
    | None =>
        let self := mkUserProfile (Some (next_pk up_pk profiles))
                      (up_user_id self) (up_display_name self) (up_bio self) in
        Ok (self, profiles ++ [self])
    end.

(** [UserProfile.objects.create(user=instance)]: the other columns take
    their defaults. *)
Definition UserProfile_objects_create (users : list User) (instance : User)
    (profiles : list UserProfile) : result (UserProfile * list UserProfile) :=
  UserProfile_save users (mkUserProfile None (u_pk instance) "" "") profiles.

(** The reverse side of the one-to-one field as the user instance holds
    it: nothing read yet, or the outcome of an earlier read or
    assignment, a profile object or the knowledge that there is none. *)
Definition profile_cache : Type := option (option UserProfile).

(** The row [instance.profile] fetches when nothing is cached. *)
Definition User_profile (instance : User) (profiles : list UserProfile)
    : option UserProfile :=
  head (List.filter (λ p, Nat.eqb (up_user_id p) (u_pk instance)) profiles).

(** [instance.profile]; [hasattr(instance, "profile")] is whether this
    is an object. *)
Definition instance_profile (cache : profile_cache) (instance : User)
    (profiles : list UserProfile) : option UserProfile :=
  match cache with
  | Some known => known
  | None => User_profile instance profiles
  end.

(** Building the profile with [user=instance] makes it the profile the
    instance holds. *)
Definition create_user_profile (users : list User) (instance : User)
    (created : bool) (cache : profile_cache) (profiles : list UserProfile)
    : result (profile_cache * list UserProfile) :=
  if created then
    '(profile, profiles) ← UserProfile_objects_create users instance profiles;
    mret (Some (Some profile), profiles)
  else mret (cache, profiles).

Definition save_user_profile (users : list User) (instance : User)
    (cache : profile_cache) (profiles : list UserProfile)
    : result (list UserProfile) :=
  match instance_profile cache instance profiles with
  | Some profile =>
      '(_, profiles) ← UserProfile_save users profile profiles;
      mret profiles
  | None => mret profiles
  end.

(** [post_save.send(sender=User, instance, created)]: the receivers run in
    the order they were connected. *)
Definition post_save_User (users : list User) (instance : User)
    (created : bool) (cache : profile_cache) (profiles : list UserProfile)
    : result (list UserProfile) :=
  '(cache, profiles) ← create_user_profile users instance created cache profiles;
  save_user_profile users instance cache profiles.

(** What the schema guarantees of the profile table. *)
Record profiles_sound (users : list User) (profiles : list UserProfile)
    : Prop := {
  ps_pks : unique_pks up_pk profiles;
  ps_saved : Forall (λ p, is_Some (up_pk p)) profiles;
  ps_one_to_one : NoDup (map up_user_id profiles);
  ps_users : Forall (λ p, user_stored users (up_user_id p) = true) profiles
}.

Definition sample_profiles : list UserProfile :=
  [mkUserProfile (Some 1) 7 "Ana L." "teaches Django"].

Lemma sample_profiles_sound : profiles_sound sample_users sample_profiles.
Proof.
  split.
  - apply NoDup_singleton.
  - repeat constructor. eexists. reflexivity.
  - apply NoDup_singleton.
  - repeat constructor.
Qed.

Lemma map_replace_self {A : Type} (pk : A → option pk_t) (rows : list A)
    (p : A) (k : pk_t) :
  unique_pks pk rows → In p rows → pk p = Some k →
  map (λ r, if pk_is (pk r) k then p else r) rows = rows.
Proof.
  intros Hu Hin Hpk. rewrite <- (map_id rows) at 2.
  apply map_ext_in. intros r Hr.
  destruct (pk_is (pk r) k) eqn:Hk; [|reflexivity].
  apply pk_is_spec in Hk. symmetry.
  apply (NoDup_map_eq pk rows r p Hu Hr Hin). congruence.
Qed.

(** Saving a profile object over its stored row: the row takes the
    object's values, the others stay. *)
Lemma UserProfile_save_over (users : list User) (profiles : list UserProfile)
    (p row : UserProfile) (k : pk_t) :
  profiles_sound users profiles → In row profiles →
  up_pk row = Some k → up_pk p = Some k → up_user_id p = up_user_id row →
  let profiles' := map (λ r, if pk_is (up_pk r) k then p else r) profiles in
  UserProfile_save users p profiles = Ok (p, profiles')
  ∧ map up_pk profiles' = map up_pk profiles
  ∧ map up_user_id profiles' = map up_user_id profiles
  ∧ In p profiles'
  ∧ ∀ r, In r profiles → up_pk r ≠ Some k → In r profiles'.
Proof.
  intros [Hpks Hsaved Hone Husers] Hin Hrow Hp Huser profiles'.
  assert (Hsame : ∀ r, In r profiles → pk_is (up_pk r) k = true → r = row).
  { intros r Hr Hk. apply pk_is_spec in Hk.
    apply (NoDup_map_eq up_pk profiles r row Hpks Hr Hin). congruence. }
  split; [|split; [|split; [|split]]].
  - unfold UserProfile_save.
    assert (Hfree : profile_of_user_taken profiles p = false).
    { apply not_true_is_false. intros Ht.
      apply existsb_exists in Ht as (r & Hr & Hc).
      apply andb_prop in Hc as [Hu Hother]. apply Nat.eqb_eq in Hu.
      assert (r = row) as ->
        by (apply (NoDup_map_eq up_user_id profiles r row Hone Hr Hin);
            congruence).
      apply negb_true_iff, bool_decide_eq_false in Hother. apply Hother.
      split; [congruence|]. rewrite Hrow. eexists. reflexivity. }
    rewrite Hfree.
    rewrite Huser, (proj1 (List.Forall_forall _ _) Husers row Hin). cbn [negb].
    rewrite Hp.
    assert (Hex : existsb (λ r, pk_is (up_pk r) k) profiles = true).
    { apply existsb_exists. exists row. split; [exact Hin|].
      apply pk_is_spec, Hrow. }
    rewrite Hex. reflexivity.
  - unfold profiles'. rewrite map_map. apply map_ext_in. intros r Hr.
    destruct (pk_is (up_pk r) k) eqn:Hk; [|reflexivity].
    apply pk_is_spec in Hk. congruence.
  - unfold profiles'. rewrite map_map. apply map_ext_in. intros r Hr.
    destruct (pk_is (up_pk r) k) eqn:Hk; [|reflexivity].
    rewrite (Hsame r Hr Hk). exact Huser.
  - apply in_map_iff. exists row. split; [|exact Hin].
    rewrite (proj2 (pk_is_spec _ _) Hrow). reflexivity.
  - intros r Hr Hne. apply in_map_iff. exists r. split; [|exact Hr].
    destruct (pk_is (up_pk r) k) eqn:Hk; [|reflexivity].
    apply pk_is_spec in Hk. contradiction.
Qed.

Lemma UserProfile_save_stored (users : list User) (profiles : list UserProfile)
    (p : UserProfile) :
  profiles_sound users profiles → In p profiles →
  UserProfile_save users p profiles = Ok (p, profiles).
Proof.
  intros Hsound Hin.
  destruct (proj1 (List.Forall_forall _ _) (ps_saved _ _ Hsound) p Hin)
    as [k Hk].
  destruct (UserProfile_save_over users profiles p p k Hsound Hin Hk Hk eq_refl)
    as (Hsave & _).
  rewrite Hsave.
  rewrite (map_replace_self up_pk profiles p k (ps_pks _ _ Hsound) Hin Hk).
  reflexivity.
Qed.

Lemma User_profile_spec (instance : User) (profiles : list UserProfile) :
  match User_profile instance profiles with
  | Some p => In p profiles ∧ up_user_id p = u_pk instance
  | None => ∀ p, In p profiles → up_user_id p ≠ u_pk instance
  end.
Proof.
  unfold User_profile.
  destruct (List.filter _ profiles) as [|p rest] eqn:Hf; cbn.
  - intros p Hp Hu.
    assert (Hin : In p (List.filter
                          (λ p, Nat.eqb (up_user_id p) (u_pk instance)) profiles))
      by (apply filter_In; split; [exact Hp|apply Nat.eqb_eq, Hu]).
    rewrite Hf in Hin. destruct Hin.
  - assert (Hin : In p (List.filter
                          (λ p, Nat.eqb (up_user_id p) (u_pk instance)) profiles))
      by (rewrite Hf; left; reflexivity).
    apply filter_In in Hin as [Hin Hu]. split; [exact Hin|apply Nat.eqb_eq, Hu].
Qed.

(** With nothing cached, the profile that is saved is the stored row. *)
Lemma save_user_profile_keeps (users : list User) (instance : User)
    (profiles : list UserProfile) :
  profiles_sound users profiles →
  save_user_profile users instance None profiles = Ok profiles.
Proof.
  intros Hsound. unfold save_user_profile, instance_profile.
  pose proof (User_profile_spec instance profiles) as Hspec.
  destruct (User_profile instance profiles) as [p|]; [|reflexivity].
  rewrite (UserProfile_save_stored users profiles p Hsound (proj1 Hspec)).
  reflexivity.
Qed.

Definition new_profile (instance : User) (profiles : list UserProfile)
    : UserProfile :=
  mkUserProfile (Some (next_pk up_pk profiles)) (u_pk instance) "" "".

Lemma create_user_profile_new (users : list User) (instance : User)
    (cache : profile_cache) (profiles : list UserProfile) :
  user_stored users (u_pk instance) = true →
  (∀ p, In p profiles → up_user_id p ≠ u_pk instance) →
  create_user_profile users instance true cache profiles
  = Ok (Some (Some (new_profile instance profiles)),
        profiles ++ [new_profile instance profiles]).
Proof.
  intros Hstored Hnone. unfold create_user_profile, UserProfile_objects_create,
    UserProfile_save.
  assert (Hfree : profile_of_user_taken profiles
                    (mkUserProfile None (u_pk instance) "" "") = false).
  { apply not_true_is_false. intros Ht.
    apply existsb_exists in Ht as (r & Hr & Hc).
    apply andb_prop in Hc as [Hsame _]. apply Nat.eqb_eq in Hsame.
    exact (Hnone r Hr Hsame). }
  rewrite Hfree. cbn [up_user_id]. rewrite Hstored. reflexivity.
Qed.

Lemma new_profile_sound (users : list User) (instance : User)
    (profiles : list UserProfile) :
  profiles_sound users profiles →
  user_stored users (u_pk instance) = true →
  (∀ p, In p profiles → up_user_id p ≠ u_pk instance) →
  profiles_sound users (profiles ++ [new_profile instance profiles]).
Proof.
  intros [Hpks Hsaved Hone Husers] Hstored Hnone. split.
  - unfold unique_pks. rewrite map_app. apply NoDup_app.
    split; [exact Hpks|]. split; [|apply NoDup_singleton].
    intros k Hk Hnew. apply list_elem_of_singleton in Hnew. subst k.
    apply list_elem_of_In, in_map_iff in Hk as (r & Hr & Hin).
    exact (next_pk_fresh up_pk profiles r Hin Hr).
  - apply Forall_app. split; [exact Hsaved|].
    repeat constructor. eexists. reflexivity.
  - rewrite map_app. apply NoDup_app.
    split; [exact Hone|]. split; [|apply NoDup_singleton].
    intros u Hu Hnew. apply list_elem_of_singleton in Hnew. subst u.
    apply list_elem_of_In, in_map_iff in Hu as (r & Hr & Hin).
    exact (Hnone r Hin Hr).
  - apply Forall_app. split; [exact Husers|].
    repeat constructor. exact Hstored.
Qed.

Lemma related_unique {A : Type} (pk : A → option pk_t) (rows : list A)
    (r : A) (k : pk_t) :
  unique_pks pk rows → In r rows → pk r = Some k → related pk rows k = Ok r.
Proof.
  intros Hu Hin Hpk.
  destruct (related_found pk rows k) as (r' & Hrel & Hin' & Hpk');
    [exists r; auto|].
  rewrite Hrel. f_equal.
  apply (NoDup_map_eq pk rows r' r Hu Hin' Hin). congruence.
Qed.

(** X18.  The two [post_save] receivers of the user model, for a stored
    user and a profile table that satisfies its constraints.
    - Saving an existing user ([created] false) whose instance holds no
      profile object leaves the profile table as it is: in particular a
      user who has no profile is not given one.
    - If the instance holds a profile object whose row is stored, that
      row takes the values of the object and the other rows stay.
    - Creating a user who has no profile appends exactly one profile for
      that user, under a key no stored profile has, with empty display
      name and bio; it is then the profile the table holds for the user
      and is shown under the user's username, other users' profiles are
      as before and the table still satisfies its constraints.
    - If a profile for the user is already stored, creation fails with
      [IntegrityError]. *)
Theorem post_save_User_spec (users : list User) (instance : User)
    (profiles : list UserProfile) :
  profiles_sound users profiles → In instance users →
  post_save_User users instance false None profiles = Ok profiles
  ∧ post_save_User users instance false (Some None) profiles = Ok profiles
  ∧ (∀ held row k,
       In row profiles → up_pk row = Some k → up_pk held = Some k →
       up_user_id held = up_user_id row →
       ∃ profiles',
         post_save_User users instance false (Some (Some held)) profiles
         = Ok profiles'
         ∧ In held profiles'
         ∧ length profiles' = length profiles
         ∧ map up_pk profiles' = map up_pk profiles
         ∧ ∀ r, In r profiles → up_pk r ≠ Some k → In r profiles')
  ∧ (User_profile instance profiles = None →
     ∀ cache, ∃ new key,
       post_save_User users instance true cache profiles
       = Ok (profiles ++ [new])
       ∧ up_pk new = Some key
       ∧ (∀ p, In p profiles → up_pk p ≠ Some key)
       ∧ up_user_id new = u_pk instance
       ∧ up_display_name new = "" ∧ up_bio new = ""
       ∧ profiles_sound users (profiles ++ [new])
       ∧ User_profile instance (profiles ++ [new]) = Some new
       ∧ (∀ other, u_pk other ≠ u_pk instance →
            User_profile other (profiles ++ [new]) = User_profile other profiles)
       ∧ (unique_pks (λ u, Some (u_pk u)) users →
          UserProfile_str users new = Ok (u_username instance)))
  ∧ (is_Some (User_profile instance profiles) →
     ∀ cache,
       post_save_User users instance true cache profiles = Err IntegrityError).
Proof.
  intros Hsound Hin.
  assert (Hstored : user_stored users (u_pk instance) = true).
  { apply existsb_exists. exists instance. split; [exact Hin|apply Nat.eqb_refl]. }
  split; [|split; [|split; [|split]]].
  - unfold post_save_User, create_user_profile. cbn.
    apply save_user_profile_keeps, Hsound.
  - reflexivity.
  - intros held row k Hrow Hk Hheld Huser.
    destruct (UserProfile_save_over users profiles held row k Hsound Hrow Hk
                Hheld Huser) as (Hsave & Hpks & _ & Hinheld & Hothers).
    eexists. unfold post_save_User, create_user_profile, save_user_profile,
      instance_profile. cbn. rewrite Hsave. cbn.
    split; [reflexivity|]. split; [exact Hinheld|].
    split; [apply length_map|]. split; [exact Hpks|exact Hothers].
  - intros Hnone cache.
    pose proof (User_profile_spec instance profiles) as Hspec.
    rewrite Hnone in Hspec.
    pose proof (new_profile_sound users instance profiles Hsound Hstored Hspec)
      as Hsound'.
    exists (new_profile instance profiles), (next_pk up_pk profiles).
    split; [|split; [reflexivity|split; [|split; [reflexivity|]]]].
    + unfold post_save_User.
      rewrite (create_user_profile_new users instance cache profiles Hstored
                 Hspec).
      cbn. unfold save_user_profile, instance_profile.
      rewrite (UserProfile_save_stored users _ _ Hsound')
        by (apply in_app_iff; right; left; reflexivity).
      reflexivity.
    + intros p Hp. apply (next_pk_fresh up_pk), Hp.
    + split; [reflexivity|]. split; [reflexivity|].
      split; [exact Hsound'|]. split; [|split].
      * unfold User_profile in *. rewrite List.filter_app.
        destruct (List.filter _ profiles) as [|p rest]; [|discriminate].
        cbn. rewrite Nat.eqb_refl. reflexivity.
      * intros other Hother. unfold User_profile. rewrite List.filter_app. cbn.
        destruct (Nat.eqb_spec (u_pk instance) (u_pk other)) as [Heq|_];
          [congruence|].
        rewrite app_nil_r. reflexivity.
      * intros Hu. unfold UserProfile_str. cbn.
        rewrite (related_unique _ users instance (u_pk instance) Hu Hin eq_refl).
        reflexivity.
  - intros [p Hp] cache.
    pose proof (User_profile_spec instance profiles) as Hspec.
    rewrite Hp in Hspec. destruct Hspec as [Hinp Hu].
    unfold post_save_User, create_user_profile, UserProfile_objects_create,
      UserProfile_save.
    assert (Htaken : profile_of_user_taken profiles
                       (mkUserProfile None (u_pk instance) "" "") = true).
    { apply existsb_exists. exists p. split; [exact Hinp|].
      apply andb_true_intro. split; [apply Nat.eqb_eq, Hu|].
      apply negb_true_iff, bool_decide_eq_false. intros [Heq [k Hk]].
      cbn in Heq. congruence. }
    rewrite Htaken. reflexivity.
Qed.

Lemma post_save_User_spec_witness :
  (∃ new, post_save_User sample_users (mkUser 9 "bo" "bo@example.org" "Bo" "Chen")
            true None sample_profiles
          = Ok (sample_profiles ++ [new])
          ∧ up_user_id new = 9
          ∧ UserProfile_str sample_users new = Ok "bo")
  ∧ post_save_User sample_users (mkUser 7 "ana" "ana@example.org" "Ana" "Lima")
      true None sample_profiles
    = Err IntegrityError
  ∧ ∃ profiles',
      post_save_User sample_users (mkUser 7 "ana" "ana@example.org" "Ana" "Lima")
        false (Some (Some (mkUserProfile (Some 1) 7 "Ana" "")))
        sample_profiles
      = Ok profiles'
      ∧ In (mkUserProfile (Some 1) 7 "Ana" "") profiles'
      ∧ length profiles' = 1.
Proof.
  assert (Hbo : In (mkUser 9 "bo" "bo@example.org" "Bo" "Chen") sample_users)
    by (right; left; reflexivity).
  assert (Hana : In (mkUser 7 "ana" "ana@example.org" "Ana" "Lima") sample_users)
    by (left; reflexivity).
  destruct (post_save_User_spec sample_users _ sample_profiles
              sample_profiles_sound Hbo) as (_ & _ & _ & Hnew & _).
  destruct (Hnew eq_refl None)
    as (new & key & Hsave & _ & _ & Huser & _ & _ & _ & _ & _ & Hstr).
  destruct (post_save_User_spec sample_users _ sample_profiles
              sample_profiles_sound Hana) as (_ & _ & Hheld & _ & Hthere).
  destruct (Hheld (mkUserProfile (Some 1) 7 "Ana" "")
              (mkUserProfile (Some 1) 7 "Ana L." "teaches Django") 1
              ltac:(left; reflexivity) eq_refl eq_refl eq_refl)
    as (profiles' & Hover & Hin & Hlen & _).
  split; [|split].
  - exists new. split; [exact Hsave|]. split; [exact Huser|].
    apply Hstr.
    repeat (apply NoDup_cons; split;
            [vm_compute; intros Hmem;
             repeat (apply elem_of_cons in Hmem as [Hmem|Hmem];
                     [discriminate|]);
             apply elem_of_nil in Hmem; exact Hmem|]).
    apply NoDup_nil. exact I.
  - apply Hthere. eexists. reflexivity.
  - exists profiles'. auto.
Defined.
